(** * tunisie-homes: the data-factory pipeline core

    A shallow embedding of the Python snippets of
    [data-factory/MIGRATION_GUIDE.md] ([DataNormalizer], [upsert_property],
    [PriceAnalyzer]) and of the SQL function [update_neighborhood_stats] of
    [frontend/prisma/SCHEMA_CHANGES.md], with the properties of the pipeline
    specification stated and settled against them.

    Conventions of the embedding:
    - a Python [str] is the list of its Unicode code points ([list N]);
    - a Python number ([int] or [float]) is an exact rational ([Q], kept in
      lowest terms by the arithmetic); the deal rating is given a second
      time with the binary64 arithmetic of Python floats ([Binary64]), with
      its rounding, infinities and NaN;
    - a Python [dict] with string keys is a [gmap string pyval];
    - a raised exception is the left injection of a sum ([py A]). *)

From Stdlib Require Import QArith Qround Qabs Qpower Lqa.
From stdpp Require Import gmap strings list fin_maps numbers.

Local Open Scope string_scope.
Local Open Scope Q_scope.
Local Open Scope nat_scope.
Local Open Scope list_scope.

(** ** Python strings as code-point lists *)

Module PyStr.

Abbreviation str := (list N).

(** Code points of an ASCII literal. *)
Fixpoint cp (s : string) : str :=
  match s with
  | EmptyString => []
  | String a s' => Ascii.N_of_ascii a :: cp s'
  end.

(** [startswith p t]: [t.startswith(p)]. *)
Fixpoint startswith (p t : str) : bool :=
  match p, t with
  | [], _ => true
  | _ :: _, [] => false
  | a :: p', b :: t' => N.eqb a b && startswith p' t'
  end.

(** [str_in kw text]: the Python test [kw in text] on strings. *)
Fixpoint str_in (kw text : str) : bool :=
  startswith kw text ||
  match text with
  | [] => false
  | _ :: text' => str_in kw text'
  end.

(** [str.lower] restricted to the Latin-1 range: [A-Z] and the accented
    capitals U+00C0..U+00DE (but the multiplication sign U+00D7) move down
    by 32, every other code point is kept.  It agrees with Python on texts
    whose cased letters are Latin-1 (French) and on unicameral scripts
    (Arabic); it is used for the concrete examples only, the theorems hold
    for any lowering function. *)
Definition lower_cp (c : N) : N :=
  if ((65 <=? c) && (c <=? 90))%N then (c + 32)%N
  else if ((192 <=? c) && (c <=? 222) && negb (c =? 215))%N then (c + 32)%N
  else c.

Definition lower_latin1 (s : str) : str := map lower_cp s.

Definition space : str := [32%N].

End PyStr.
Import PyStr.

(** ** Python values, truthiness and exceptions *)

Inductive pyval :=
| PNone
| PStr (s : str)
| PNum (q : Q)
| PList (l : list str)
| PVec (v : list Q).

Inductive pyerr :=
| KeyError (k : string)
| TypeError
| AttributeError
| ZeroDivisionError.

Definition py (A : Type) : Type := pyerr + A.

Definition ret {A} (a : A) : py A := inr a.
Definition raise {A} (e : pyerr) : py A := inl e.
Definition bind {A B} (m : py A) (k : A -> py B) : py B :=
  match m with
  | inl e => inl e
  | inr a => k a
  end.

Notation "'do' x <- m ; k" := (bind m (fun x => k))
  (at level 10, x name, m at level 100, k at level 200).

(** A Python dictionary with string keys. *)
Abbreviation dict := (gmap string pyval).

(** [d[k]]: raises [KeyError] on a missing key. *)
Definition getitem (d : dict) (k : string) : py pyval :=
  match d !! k with
  | Some v => ret v
  | None => raise (KeyError k)
  end.

(** [d.get(k)] and [d.get(k, default)]. *)
Definition get (d : dict) (k : string) : pyval := default PNone (d !! k).
Definition get_or (d : dict) (k : string) (dflt : pyval) : pyval :=
  default dflt (d !! k).

(** The value a computed dictionary holds under a key; [None] as well when
    the computation raised. *)
Definition field (r : py dict) (k : string) : option pyval :=
  match r with
  | inr d => d !! k
  | inl _ => None
  end.

Definition Q_is_zero (q : Q) : bool := Qeq_bool q 0%Q.
Definition Qltb (a b : Q) : bool := negb (Qle_bool b a).

(** Python truthiness. *)
Definition truthy (v : pyval) : bool :=
  match v with
  | PNone => false
  | PStr s => negb (Nat.eqb (length s) 0)
  | PNum q => negb (Q_is_zero q)
  | PList l => negb (Nat.eqb (length l) 0)
  | PVec l => negb (Nat.eqb (length l) 0)
  end.

(** [v > 0]: ordering a non-number against an int raises [TypeError]. *)
Definition gt_zero (v : pyval) : py bool :=
  match v with
  | PNum q => ret (Qltb 0%Q q)
  | _ => raise TypeError
  end.

(** [a / b] on numbers (true division), as an exact quotient.  (Python
    raises [OverflowError] for an int beyond the range of floats; such
    numbers are left out.) *)
Definition truediv (a b : pyval) : py Q :=
  match a, b with
  | PNum x, PNum y =>
      if Q_is_zero y then raise ZeroDivisionError else ret (Qred (x / y)%Q)
  | _, _ => raise TypeError
  end.

(** [v.lower()]: only strings have the method. *)
Definition str_lower (lower : str -> str) (v : pyval) : py str :=
  match v with
  | PStr s => ret (lower s)
  | _ => raise AttributeError
  end.

(** ** normalizer.py *)

Inductive ListingType := RENT | SALE.

Inductive PropertyType :=
| APARTMENT | STUDIO | HOUSE | VILLA | DUPLEX | PENTHOUSE
| LAND | OFFICE | COMMERCIAL | FARM.

Module DataNormalizer.

Definition ListingType_str (t : ListingType) : str :=
  match t with
  | RENT => cp "RENT"
  | SALE => cp "SALE"
  end.

Definition PropertyType_str (t : PropertyType) : str :=
  match t with
  | APARTMENT => cp "APARTMENT" | STUDIO => cp "STUDIO"
  | HOUSE => cp "HOUSE" | VILLA => cp "VILLA" | DUPLEX => cp "DUPLEX"
  | PENTHOUSE => cp "PENTHOUSE" | LAND => cp "LAND"
  | OFFICE => cp "OFFICE" | COMMERCIAL => cp "COMMERCIAL"
  | FARM => cp "FARM"
  end.

(** [PROPERTY_TYPE_MAP], in insertion order. *)
Definition PROPERTY_TYPE_MAP : list (str * PropertyType) :=
  [ (cp "appartement", APARTMENT);
    (cp "appart", APARTMENT);
    (cp "studio", STUDIO);
    (cp "s1", STUDIO);
    (cp "s2", APARTMENT);
    (cp "s3", APARTMENT);
    (cp "s4", APARTMENT);
    (cp "s+", APARTMENT);
    (cp "maison", HOUSE);
    (cp "villa", VILLA);
    (cp "duplex", DUPLEX);
    (cp "penthouse", PENTHOUSE);
    (cp "terrain", LAND);
    ([1575; 1585; 1590]%N, LAND);
    ([1571; 1585; 1590]%N, LAND);
    (cp "bureau", OFFICE);
    (cp "local commercial", COMMERCIAL);
    (cp "commercial", COMMERCIAL);
    (cp "ferme", FARM);
    ([1605; 1586; 1585; 1593; 1577]%N, FARM) ].

(** Keywords for rent: 'louer', 'location', 'à louer', 'a louer' and the
    Arabic for-rent phrase. *)
Definition rent_keywords : list str :=
  [ cp "louer"; cp "location"; 224%N :: cp " louer"; cp "a louer";
    [1604; 1604; 1603; 1585; 1575; 1569]%N ].

(** Keywords for sale: 'vendre', 'vente', 'à vendre', 'a vendre' and the
    Arabic for-sale phrase. *)
Definition sale_keywords : list str :=
  [ cp "vendre"; cp "vente"; 224%N :: cp " vendre"; cp "a vendre";
    [1604; 1604; 1576; 1610; 1593]%N ].

(** [feature_keywords] of [_extract_features], in insertion order. *)
Definition feature_keywords : list (str * list str) :=
  [ (cp "parking", [cp "parking"; cp "garage"; cp "stationnement"]);
    (cp "elevator", [cp "ascenseur"; cp "lift"]);
    (cp "garden", [cp "jardin"; cp "green space"]);
    (cp "pool", [cp "piscine"; cp "pool"; cp "swimming"]);
    (cp "balcony", [cp "balcon"; cp "terrasse"; cp "balcony"]);
    (cp "furnished",
      [cp "meubl" ++ [233%N]; cp "furnished";
       233%N :: cp "quip" ++ [233%N]]);
    (cp "air_conditioning",
      [cp "climatis" ++ [233%N]; cp "climatisation"; cp "clim"; cp "a/c"]);
    (cp "heating", [cp "chauffage"; cp "heating"]);
    (cp "security",
      [cp "gard" ++ [233%N];
       cp "s" ++ 233%N :: cp "curis" ++ [233%N];
       cp "security"; cp "concierge"]);
    (cp "fiber", [cp "fibre"; cp "fiber"; cp "internet"]) ].

(** [sum(1 for kw in keywords if kw in text)]: how many keywords of the
    list occur in the text (each keyword counts once, however often it
    occurs). *)
Definition keyword_score (keywords : list str) (text : str) : nat :=
  length (List.filter (fun kw => str_in kw text) keywords).

Section Normalizer.

(** Python's [str.lower]. *)
Variable lower : str -> str.
(** How an f-string renders a value that is neither a string nor [None]
    (a number or a list). *)
Variable format_other : pyval -> str.

Definition format (v : pyval) : str :=
  match v with
  | PStr s => s
  | PNone => cp "None"
  | _ => format_other v
  end.

Fixpoint first_match (title_lower : str) (table : list (str * PropertyType))
  : option PropertyType :=
  match table with
  | [] => None
  | (keyword, enum_value) :: rest =>
      if str_in (lower keyword) title_lower then Some enum_value
      else first_match title_lower rest
  end.

Definition _extract_property_type (title : pyval) : py (option PropertyType) :=
  do title_lower <- str_lower lower title;
  ret (first_match title_lower PROPERTY_TYPE_MAP).

(** The text the listing type is read from:
    [f"{url} {title} {description}".lower()]. *)
Definition listing_text (url title description : pyval) : str :=
  lower (format url ++ space ++ format title ++ space ++ format description).

Definition rent_score (url title description : pyval) : nat :=
  keyword_score rent_keywords (listing_text url title description).

Definition sale_score (url title description : pyval) : nat :=
  keyword_score sale_keywords (listing_text url title description).

Definition _extract_listing_type (url title description : pyval) : ListingType :=
  let text := listing_text url title description in
  let rent_score := keyword_score rent_keywords text in
  let sale_score := keyword_score sale_keywords text in
  if sale_score <? rent_score then RENT
  else if rent_score <? sale_score then SALE
  else SALE.

Fixpoint collect_features (text_lower : str) (table : list (str * list str))
  : list str :=
  match table with
  | [] => []
  | (feature, keywords) :: rest =>
      if existsb (fun keyword => str_in keyword text_lower) keywords
      then feature :: collect_features text_lower rest
      else collect_features text_lower rest
  end.

Definition _extract_features (description : pyval) : py (list str) :=
  if negb (truthy description) then ret []
  else
    do text_lower <- str_lower lower description;
    ret (collect_features text_lower feature_keywords).

Definition enum_or_None (t : option PropertyType) : pyval :=
  match t with
  | Some t => PStr (PropertyType_str t)
  | None => PNone
  end.

(** The price-per-sqm step of [normalize]:
    [if normalized.get('surfaceArea') and normalized.get('surfaceArea') > 0:
       normalized['pricePerSqm'] = normalized['price'] / normalized['surfaceArea']]. *)
Definition set_pricePerSqm (normalized : dict) : py dict :=
  let surface := get normalized "surfaceArea" in
  do positive <- (if truthy surface then gt_zero surface else ret false);
  if positive then
    do price <- getitem normalized "price";
    do surfaceArea <- getitem normalized "surfaceArea";
    do quotient <- truediv price surfaceArea;
    ret (<["pricePerSqm" := PNum quotient]> normalized)
  else ret normalized.

(** [normalize].  The guide elides its tail ("... rest of normalization");
    of that tail only the [features] assignment, which section 4 of the
    guide places in [normalize], is shown and modelled. *)
Definition normalize (property_data : dict) : py dict :=
  let normalized := property_data in
  do title <- getitem property_data "title";
  do property_type <- _extract_property_type title;
  let normalized := <["propertyType" := enum_or_None property_type]> normalized in
  do url <- getitem property_data "sourceUrl";
  let description := get_or property_data "description" (PStr []) in
  let listing_type := _extract_listing_type url title description in
  let normalized := <["listingType" := PStr (ListingType_str listing_type)]> normalized in
  let normalized := <["source" := PStr (cp "TUNISIE_ANNONCE")]> normalized in
  let normalized := <["status" := PStr (cp "ACTIVE")]> normalized in
  do normalized <- set_pricePerSqm normalized;
  do features <- _extract_features (get_or property_data "description" (PStr []));
  ret (<["features" := PList features]> normalized).

(** The record [normalize] holds once the four enum fields are
    assigned, before the price-per-sqm step. *)
Definition with_enums (property_data : dict) (title url : pyval)
    (property_type : option PropertyType) : dict :=
  <["status" := PStr (cp "ACTIVE")]>
  (<["source" := PStr (cp "TUNISIE_ANNONCE")]>
  (<["listingType" := PStr (ListingType_str
       (_extract_listing_type url title
          (get_or property_data "description" (PStr []))))]>
  (<["propertyType" := enum_or_None property_type]> property_data))).

End Normalizer.

End DataNormalizer.

(** ** The listing-type counts in the spec's words *)

Module SpecWords.

(** Following the spec's words, to be compared with [keyword_score], which
    is the code's: "count occurrences of a rent-keyword set and a
    sale-keyword set".  The occurrences of one keyword are the positions of
    the text at which it starts ... *)
Fixpoint occurrences (kw text : str) : nat :=
  (if startswith kw text then 1 else 0) +
  match text with
  | [] => 0
  | _ :: text' => occurrences kw text'
  end.

(** ... and the count of a set is the sum over its keywords. *)
Definition occurrence_count (keywords : list str) (text : str) : nat :=
  list_sum (map (fun kw => occurrences kw text) keywords).

End SpecWords.

(** ** db_client.py *)

Definition is_None (v : pyval) : bool :=
  match v with
  | PNone => true
  | _ => false
  end.

Module Store.

(** Modelled from the spec: the store write that ends [upsert_property]
    (the guide stops at "Upsert logic... rest of code") is missing.  The
    Property table is a list of rows, each a dictionary of columns; a row's
    identity is the text of its [sourceUrl] column. *)
Definition row_url (r : dict) : option str :=
  match r !! "sourceUrl" with
  | Some (PStr u) => Some u
  | _ => None
  end.

(** Modelled from the spec: the select-by-key test of the missing store
    write, "lookup by sourceUrl". *)
Definition has_url (u : str) (r : dict) : bool :=
  bool_decide (row_url r = Some u).

(** Modelled from the spec: the fields the missing store write treats as
    "enrichment-owned (AI tags, embeddings, dealRating)", by the names of
    their columns. *)
Definition enrichment_owned : list string :=
  ["aiTags"; "descriptionEmbedding"; "dealRating"].

(** Modelled from the spec: whether, in the missing store write, "the
    caller explicitly supplies a new value for that field": the record
    handed to [upsert_property] has the key.  (A key supplied as [None]
    never reaches the store, the payload is stripped of it.) *)
Definition supplies (property : dict) (k : string) : bool :=
  bool_decide (is_Some (property !! k)).

(** Modelled from the spec: the columns an update writes, in the missing
    store write: "all fields except createdAt, and except any field
    explicitly marked as enrichment-owned (AI tags, embeddings, dealRating)
    unless the caller explicitly supplies a new value for that field". *)
Definition written (property : dict) (k : string) : bool :=
  negb (bool_decide (k = "createdAt")) &&
  (negb (bool_decide (k ∈ enrichment_owned)) || supplies property k).

(** Modelled from the spec: the update branch of the missing store write,
    "if present, merge-update": the written columns of the payload replace
    the stored ones, every other column is kept. *)
Definition merge_update (property payload stored : dict) : dict :=
  filter (fun kv => written property kv.1 = true) payload ∪ stored.

(** Modelled from the spec: the insert branch of the missing store write,
    "if absent, insert with createdAt = now", with the opaque [id]
    "assigned at first insert". *)
Definition insert_row (payload : dict) (now new_id : str) : dict :=
  <["id" := PStr new_id]> (<["createdAt" := PStr now]> payload).

(** Modelled from the spec: the missing store write itself, the tail of
    [upsert_property], where both the caller's record and the payload
    built from it are at hand: "lookup by sourceUrl; if absent, insert
    ...; if present, merge-update ...".  A payload without a textual
    [sourceUrl] has no key and is refused. *)
Definition upsert (table : list dict) (property payload : dict)
    (now new_id : str) : list dict :=
  match row_url payload with
  | None => table
  | Some u =>
      if existsb (has_url u) table
      then map (fun r => if has_url u r
                         then merge_update property payload r else r) table
      else table ++ [insert_row payload now new_id]
  end.

End Store.

Module DBClient.

Section Payload.

(** [self._format_vector], a helper of [db_client.py] that the guide does
    not show: it renders an embedding as the store's vector literal (any
    value, as far as this development goes). *)
Variable _format_vector : pyval -> pyval.

(** The dictionary literal of [upsert_property], given the values of its
    four subscripts [property_data[...]]. *)
Definition payload_dict (property_data : dict) (now : str)
    (sourceUrl listingType title price : pyval) :=
  <["sourceUrl" := sourceUrl]>
  (<["source" := get_or property_data "source" (PStr (cp "TUNISIE_ANNONCE"))]>
  (<["listingType" := listingType]>
  (<["status" := get_or property_data "status" (PStr (cp "ACTIVE"))]>
  (<["title" := title]>
  (<["description" := get property_data "description"]>
  (<["price" := price]>
  (<["currency" := get_or property_data "currency" (PStr (cp "TND"))]>
  (<["city" := get property_data "city"]>
  (<["region" := get property_data "region"]>
  (<["latitude" := get property_data "latitude"]>
  (<["longitude" := get property_data "longitude"]>
  (<["propertyType" := get property_data "propertyType"]>
  (<["surfaceArea" := get property_data "surfaceArea"]>
  (<["rooms" := get property_data "rooms"]>
  (<["bathrooms" := get property_data "bathrooms"]>
  (<["pricePerSqm" := get property_data "pricePerSqm"]>
  (<["features" := get_or property_data "features" (PList [])]>
  (<["renovationScore" := get property_data "renovationScore"]>
  (<["dealRating" := get property_data "dealRating"]>
  (<["aiTags" := get_or property_data "aiTags" (PList [])]>
  (<["updatedAt" := PStr now]>
  (<["scrapedAt" := PStr now]> (∅ : dict))))))))))))))))))))))).

(** The subscripts raise [KeyError] in the order of the literal. *)
Definition payload_literal (property_data : dict) (now : str) : py dict :=
  do sourceUrl <- getitem property_data "sourceUrl";
  do listingType <- getitem property_data "listingType";
  do title <- getitem property_data "title";
  do price <- getitem property_data "price";
  ret (payload_dict property_data now sourceUrl listingType title price).

(** [if property_data.get('descriptionEmbedding'): payload[...] = ...]. *)
Definition add_embedding (property_data payload : dict) : dict :=
  if truthy (get property_data "descriptionEmbedding")
  then <["descriptionEmbedding" :=
           _format_vector (get property_data "descriptionEmbedding")]> payload
  else payload.

(** [{k: v for k, v in payload.items() if v is not None}]. *)
Definition remove_None (payload : dict) : dict :=
  filter (fun kv => is_None kv.2 = false) payload.

(** The payload [upsert_property] hands to the store. *)
Definition build_payload (property_data : dict) (now : str) : py dict :=
  do payload <- payload_literal property_data now;
  ret (remove_None (add_embedding property_data payload)).

(** [upsert_property]: an exception raised while the payload is built
    leaves the [try] block before the store is reached; otherwise the
    payload is written.  [now] is [datetime.utcnow().isoformat()] and
    [new_id] the identifier the store would assign to a new row. *)
Definition upsert_property (table : list dict) (property_data : dict)
    (now new_id : str) : list dict :=
  match build_payload property_data now with
  | inl _ => table
  | inr payload => Store.upsert table property_data payload now new_id
  end.

End Payload.

End DBClient.

(** ** The NeighborhoodStats and Property tables *)

Module NeighborhoodStats.

(** A row of the NeighborhoodStats model; [None] is SQL NULL. *)
Record row := {
  city : str;
  region : option str;
  avgPricePerSqm : option Q;
  medianPrice : option Q;
  totalListings : nat;
  activeListings : nat;
  avgRentPrice : option Q;
  avgSalePrice : option Q;
  updatedAt : str
}.

End NeighborhoodStats.

Inductive PropertyStatus := ACTIVE | SOLD | RENTED | INACTIVE.

Module Properties.

(** The columns of [properties] that [update_neighborhood_stats] reads. *)
Record row := {
  city : option str;
  region : option str;
  price : option Q;
  surface_area : option Q;
  status : PropertyStatus
}.

End Properties.

(** ** price_analyzer.py *)

Module PriceAnalyzer.

(** [max(a, b)] and [min(a, b)]: the first argument wins a tie. *)
Definition py_max (a b : Q) : Q := if Qltb a b then b else a.
Definition py_min (a b : Q) : Q := if Qltb b a then b else a.

(** Rounding to the nearest integer, ties to the even one. *)
Definition round_half_even (q : Q) : Z :=
  let f := Qfloor q in
  match Qcompare (q - inject_Z f)%Q (1 # 2)%Q with
  | Lt => f
  | Gt => (f + 1)%Z
  | Eq => if Z.even f then f else (f + 1)%Z
  end.

(** [round(x, 1)] on an exact number: the nearest decimal with one digit,
    ties to the even digit.  ([Binary64.round1] is the rounding of a
    float.) *)
Definition round1 (x : Q) : Q :=
  Qred (inject_Z (round_half_even (x * 10)%Q) / 10)%Q.

(** [v == 0] for a value of any type. *)
Definition eq_zero (v : pyval) : bool :=
  match v with
  | PNum q => Q_is_zero q
  | _ => false
  end.

Definition clamp (x : Q) : Q := py_max 0%Q (py_min 100%Q x).

Section Analyzer.

(** What selecting the NeighborhoodStats table answers: its rows, or the
    exception the client raises. *)
Variable NeighborhoodStats_table : py (list NeighborhoodStats.row).

(** The filter [.eq("city", city)]. *)
Definition eq_city (city : pyval) (r : NeighborhoodStats.row) : bool :=
  match city with
  | PStr c => bool_decide (NeighborhoodStats.city r = c)
  | _ => false
  end.

Definition _get_neighborhood_avg (city : pyval) : option Q :=
  match NeighborhoodStats_table with
  | inl _ => None
  | inr rows =>
      match List.filter (eq_city city) rows with
      | r :: _ => NeighborhoodStats.avgPricePerSqm r
      | [] => None
      end
  end.

(** [calculate_deal_rating] with exact arithmetic: its guards and its
    formula, as the clamping and ordering properties need them.  The
    floats Python computes with are in [Binary64.calculate_deal_rating]. *)
Definition calculate_deal_rating (property_data : dict) : py (option Q) :=
  let city := get property_data "city" in
  let surface := get property_data "surfaceArea" in
  let price := get property_data "price" in
  if negb (truthy city && truthy surface && truthy price) || eq_zero surface
  then ret None
  else
    do price_per_sqm <- truediv price surface;
    match _get_neighborhood_avg city with
    | None => ret None
    | Some avg_price_per_sqm =>
        if Q_is_zero avg_price_per_sqm then ret None
        else
          let discount :=
            (((avg_price_per_sqm - price_per_sqm) / avg_price_per_sqm) * 100)%Q in
          let deal_rating := (50 + discount * (5 # 2))%Q in
          let deal_rating := py_max 0%Q (py_min 100%Q deal_rating) in
          ret (Some (round1 deal_rating))
    end.

End Analyzer.

End PriceAnalyzer.

(** ** Python floats *)

Module Binary64.

(** A Python [float] is an IEEE 754 binary64 number; it is kept by its
    value, a rational, or as an infinity or a NaN.  The two zeros are one
    value: nothing the analyzer does tells them apart. *)
Inductive float :=
| Finite (q : Q)
| Infinity (negative : bool)
| NaN.

(** The exponent of the leading bit of a positive rational:
    [2 ^ floor_log2 a <= a < 2 ^ (floor_log2 a + 1)]. *)
Definition floor_log2 (a : Q) : Z :=
  let k := (Z.log2 (Qnum a) - Z.log2 (Zpos (Qden a)))%Z in
  if Qle_bool (2 ^ k)%Q a then k else (k - 1)%Z.

(** Rounding to the nearest binary64 number, ties to the even significand:
    53 significant bits, no bit below [2 ^ -1074], an infinity from
    [2 ^ 1024] on. *)
Definition nearest (x : Q) : float :=
  if Q_is_zero x then Finite 0%Q
  else
    let a := Qabs x in
    let e := Z.max (floor_log2 a - 52) (-1074) in
    let m := PriceAnalyzer.round_half_even (a / 2 ^ e)%Q in
    let v := Qred (inject_Z m * 2 ^ e)%Q in
    if Qle_bool (2 ^ 1024)%Q v then Infinity (Qltb x 0%Q)
    else Finite (if Qltb x 0%Q then Qopp v else v).

(** The relative error of a rounding is at most [2 ^ -53], ... *)
Definition unit_roundoff : Q := 1 # 9007199254740992.

(** ... but for the subnormal numbers, where it is at most half the least
    positive float. *)
Definition half_least : Q := (2 ^ (-1075))%Q.

(** The numbers that are binary64 numbers: every Python float, and the
    ints that convert to a float without rounding. *)
Definition is_double (q : Q) : bool :=
  match nearest q with
  | Finite r => Qeq_bool r q
  | _ => false
  end.

(** [float(x)] on an int or a float.  For an int that is not a binary64
    number Python differs (it rounds a quotient of two ints once, and
    raises [OverflowError] beyond the range); the theorems are about
    binary64 numbers. *)
Definition of_number (q : Q) : float := nearest q.

Definition opp (a : float) : float :=
  match a with
  | Finite x => Finite (- x)%Q
  | Infinity s => Infinity (negb s)
  | NaN => NaN
  end.

(** [a + b], [a - b], [a * b] on floats. *)
Definition add (a b : float) : float :=
  match a, b with
  | Finite x, Finite y => nearest (x + y)%Q
  | Finite _, Infinity s => Infinity s
  | Infinity s, Finite _ => Infinity s
  | Infinity s, Infinity t => if Bool.eqb s t then Infinity s else NaN
  | _, _ => NaN
  end.

Definition sub (a b : float) : float := add a (opp b).

Definition mul (a b : float) : float :=
  match a, b with
  | Finite x, Finite y => nearest (x * y)%Q
  | Finite x, Infinity s | Infinity s, Finite x =>
      if Q_is_zero x then NaN else Infinity (xorb s (Qltb x 0%Q))
  | Infinity s, Infinity t => Infinity (xorb s t)
  | _, _ => NaN
  end.

(** The quotient of IEEE 754, for a divisor other than zero. *)
Definition div (a b : float) : float :=
  match a, b with
  | Finite x, Finite y => nearest (x / y)%Q
  | Finite _, Infinity _ => Finite 0%Q
  | Infinity s, Finite y => Infinity (xorb s (Qltb y 0%Q))
  | _, _ => NaN
  end.

(** [a / b]: Python raises on a zero divisor. *)
Definition truediv (a b : float) : py float :=
  match b with
  | Finite y => if Q_is_zero y then raise ZeroDivisionError else ret (div a b)
  | _ => ret (div a b)
  end.

(** [a < b]: every comparison with a NaN is false. *)
Definition lt (a b : float) : bool :=
  match a, b with
  | Finite x, Finite y => Qltb x y
  | Finite _, Infinity s => negb s
  | Infinity s, Finite _ => s
  | Infinity s, Infinity t => s && negb t
  | _, _ => false
  end.

(** [max(a, b)] and [min(a, b)]: the second argument is taken only when it
    is strictly greater, or smaller. *)
Definition py_max (a b : float) : float := if lt a b then b else a.
Definition py_min (a b : float) : float := if lt b a then b else a.

(** [round(x, 1)] on a float: the decimal with one digit nearest to the
    value of [x] (ties to the even digit), as the float nearest to it; an
    infinity or a NaN is returned as it is. *)
Definition round1 (a : float) : float :=
  match a with
  | Finite x => nearest (PriceAnalyzer.round1 x)
  | _ => a
  end.

Section Analyzer.

Variable NeighborhoodStats_table : py (list NeighborhoodStats.row).

(** [price / surface] on two values of the record. *)
Definition truediv_values (a b : pyval) : py float :=
  match a, b with
  | PNum x, PNum y => truediv (of_number x) (of_number y)
  | _, _ => raise TypeError
  end.

(** [calculate_deal_rating] with the arithmetic Python does: every
    operation on floats, rounded to the nearest binary64 number. *)
Definition calculate_deal_rating (property_data : dict) : py (option float) :=
  let city := get property_data "city" in
  let surface := get property_data "surfaceArea" in
  let price := get property_data "price" in
  if negb (truthy city && truthy surface && truthy price)
     || PriceAnalyzer.eq_zero surface
  then ret None
  else
    do price_per_sqm <- truediv_values price surface;
    match PriceAnalyzer._get_neighborhood_avg NeighborhoodStats_table city with
    | None => ret None
    | Some avg_price_per_sqm =>
        if Q_is_zero avg_price_per_sqm then ret None
        else
          let avg_price_per_sqm := of_number avg_price_per_sqm in
          do ratio <- truediv (sub avg_price_per_sqm price_per_sqm) avg_price_per_sqm;
          let discount := mul ratio (of_number 100) in
          let deal_rating := add (of_number 50) (mul discount (of_number (5 # 2))) in
          let deal_rating :=
            py_max (of_number 0) (py_min (of_number 100) deal_rating) in
          ret (Some (round1 deal_rating))
    end.

End Analyzer.

End Binary64.

(** ** The SQL function [update_neighborhood_stats] *)

Module Sql.

(** A row of the [SELECT], which [EXCLUDED] names in the conflict action. *)
Record excluded := {
  city : str;
  region : option str;
  avg_price_per_sqm : option Q;
  median_price : option Q;
  total_listings : nat;
  active_listings : nat
}.

(** [WHERE city IS NOT NULL AND surface_area > 0]; a comparison with NULL
    is not true. *)
Definition where_clause (p : Properties.row) : bool :=
  match Properties.city p, Properties.surface_area p with
  | Some _, Some s => Qltb 0%Q s
  | _, _ => false
  end.

(** The grouping key of a row that passed the [WHERE]. *)
Definition group_key (p : Properties.row) : option (str * option str) :=
  match Properties.city p with
  | Some c => Some (c, Properties.region p)
  | None => None
  end.

(** [GROUP BY city, region]: the distinct keys (NULL regions group
    together) ... *)
Definition group_keys (rows : list Properties.row) : list (str * option str) :=
  remove_dups (omap group_key rows).

(** ... and the rows of one group. *)
Definition in_group (k : str * option str) (p : Properties.row) : bool :=
  bool_decide (group_key p = Some k).

(** [price / NULLIF(surface_area, 0)]: NULL when an operand is NULL or the
    area is 0. *)
Definition price_per_sqm (p : Properties.row) : option Q :=
  match Properties.price p, Properties.surface_area p with
  | Some x, Some s => if Q_is_zero s then None else Some (Qred (x / s)%Q)
  | _, _ => None
  end.

Definition non_null (vals : list (option Q)) : list Q := omap id vals.

Definition Qsum (xs : list Q) : Q := foldr Qplus 0%Q xs.

(** [AVG]: the mean of the non-NULL values, NULL when there is none. *)
Definition AVG (vals : list (option Q)) : option Q :=
  match non_null vals with
  | [] => None
  | xs => Some (Qred (Qsum xs / inject_Z (Z.of_nat (length xs)))%Q)
  end.

Fixpoint insert_sorted (x : Q) (xs : list Q) : list Q :=
  match xs with
  | [] => [x]
  | y :: ys => if Qle_bool x y then x :: xs else y :: insert_sorted x ys
  end.

Definition order_by (xs : list Q) : list Q := foldr insert_sorted [] xs.

(** [PERCENTILE_CONT(0.5) WITHIN GROUP (ORDER BY ...)]: NULLs are left
    out; the value at position [0.5 * (n - 1)] of the ordered values,
    interpolated linearly between its two neighbours. *)
Definition PERCENTILE_CONT_half (vals : list (option Q)) : option Q :=
  let xs := order_by (non_null vals) in
  let n := length xs in
  match xs !! ((n - 1) / 2), xs !! (n / 2) with
  | Some lo, Some hi =>
      let fraction := if Nat.even n then (1 # 2)%Q else 0%Q in
      Some (Qred (lo + fraction * (hi - lo))%Q)
  | _, _ => None
  end.

Definition is_ACTIVE (p : Properties.row) : bool :=
  match Properties.status p with
  | ACTIVE => true
  | _ => false
  end.

(** The select list, for the rows of one group. *)
Definition aggregate (k : str * option str) (rows : list Properties.row)
  : excluded :=
  {| city := k.1;
     region := k.2;
     avg_price_per_sqm := AVG (map price_per_sqm rows);
     median_price := PERCENTILE_CONT_half (map Properties.price rows);
     total_listings := length rows;
     active_listings := length (List.filter is_ACTIVE rows) |}.

(** The whole [SELECT ... FROM properties WHERE ... GROUP BY city, region]. *)
Definition select (properties : list Properties.row) : list excluded :=
  let rows := List.filter where_clause properties in
  map (fun k => aggregate k (List.filter (in_group k) rows)) (group_keys rows).

Section OnConflict.

(** Whether the unique index on [(city, region)] that [ON CONFLICT]
    names, declared outside these sources, was created with
    [NULLS NOT DISTINCT]; by default two NULL regions never conflict. *)
Variable nulls_not_distinct : bool.

(** The timestamp [NOW()] of the statement. *)
Variable now : str.

Definition conflicts (e : excluded) (r : NeighborhoodStats.row) : bool :=
  bool_decide (NeighborhoodStats.city r = city e) &&
  match NeighborhoodStats.region r, region e with
  | Some a, Some b => bool_decide (a = b)
  | None, None => nulls_not_distinct
  | _, _ => false
  end.

(** [DO UPDATE SET ...]: the four statistics and [updated_at]. *)
Definition do_update (e : excluded) (r : NeighborhoodStats.row)
  : NeighborhoodStats.row :=
  {| NeighborhoodStats.city := NeighborhoodStats.city r;
     NeighborhoodStats.region := NeighborhoodStats.region r;
     NeighborhoodStats.avgPricePerSqm := avg_price_per_sqm e;
     NeighborhoodStats.medianPrice := median_price e;
     NeighborhoodStats.totalListings := total_listings e;
     NeighborhoodStats.activeListings := active_listings e;
     NeighborhoodStats.avgRentPrice := NeighborhoodStats.avgRentPrice r;
     NeighborhoodStats.avgSalePrice := NeighborhoodStats.avgSalePrice r;
     NeighborhoodStats.updatedAt := now |}.

(** The inserted row: the six listed columns, the others at their
    defaults. *)
Definition inserted (e : excluded) : NeighborhoodStats.row :=
  {| NeighborhoodStats.city := city e;
     NeighborhoodStats.region := region e;
     NeighborhoodStats.avgPricePerSqm := avg_price_per_sqm e;
     NeighborhoodStats.medianPrice := median_price e;
     NeighborhoodStats.totalListings := total_listings e;
     NeighborhoodStats.activeListings := active_listings e;
     NeighborhoodStats.avgRentPrice := None;
     NeighborhoodStats.avgSalePrice := None;
     NeighborhoodStats.updatedAt := now |}.

(** [INSERT ... ON CONFLICT (city, region) DO UPDATE], one row. *)
Definition insert_on_conflict (stats : list NeighborhoodStats.row)
    (e : excluded) : list NeighborhoodStats.row :=
  if existsb (conflicts e) stats
  then map (fun r => if conflicts e r then do_update e r else r) stats
  else stats ++ [inserted e].

(** The body of [update_neighborhood_stats]: no row of
    [neighborhood_stats] is ever deleted. *)
Definition update_neighborhood_stats (properties : list Properties.row)
    (stats : list NeighborhoodStats.row) : list NeighborhoodStats.row :=
  fold_left insert_on_conflict (select properties) stats.

(** What the whole statement does to one stored row: the first selected
    row it conflicts with updates it, and a row no selected row
    conflicts with stays as it is. *)
Definition refreshed (selected : list excluded) (r : NeighborhoodStats.row)
  : NeighborhoodStats.row :=
  match List.find (fun e => conflicts e r) selected with
  | Some e => do_update e r
  | None => r
  end.

End OnConflict.

(** The locality of a stored row and of a selected row. *)
Definition row_key (r : NeighborhoodStats.row) : str * option str :=
  (NeighborhoodStats.city r, NeighborhoodStats.region r).

Definition excluded_key (e : excluded) : str * option str :=
  (city e, region e).

End Sql.

(** ** scrapers/tunisie_annonce.py *)

Module Scraper.

Section Extract.

Variable lower : str -> str.

(** [extract_details], as far as the guide shows it ("... rest of fields"
    and "... rest of extraction" are elided).  [title_tag] is the stripped
    text of the [da_entete] row when [soup.find] finds one, [desc] what
    [get_field_text('Texte')] returns. *)
Definition extract_details (title_tag desc : option str) (url : str) : dict :=
  let data :=
    <["sourceUrl" := PStr url]>
    (<["source" := PStr (cp "TUNISIE_ANNONCE")]>
    (<["title" := PStr []]>
    (<["description" := PStr []]>
    (<["price" := PNum 0]>
    (<["currency" := PStr (cp "TND")]> (∅ : dict)))))) in
  let data :=
    match title_tag with
    | Some text => <["title" := PStr text]> data
    | None => data
    end in
  let data :=
    match desc with
    | Some (c :: text) => <["description" := PStr (c :: text)]> data
    | _ => data
    end in
  let title := default [] title_tag in
  if str_in (cp "location") (lower url) || str_in (cp "louer") (lower title)
  then <["listingType" := PStr (cp "RENT")]> data
  else <["listingType" := PStr (cp "SALE")]> data.

End Extract.

End Scraper.

(** ** geocoding.py *)

Module Geocoder.

(** What [requests.get] answers: the status code and the decoded body
    ([None] when [response.json()] raises). *)
Record Response := {
  status_code : nat;
  json : option (list dict)
}.

Section Geocode.

Variable format_other : pyval -> str.

(** The provider: the response to a query, [None] when the request raises
    (network failure, timeout). *)
Variable requests_get : str -> option Response.

(** Python's [float(...)], [None] when it raises. *)
Variable float : pyval -> option Q.

(** The query string: the city, the region when there is one, the
    country. *)
Definition query (city region : pyval) : str :=
  let query := DataNormalizer.format format_other city in
  let query :=
    if truthy region
    then query ++ cp ", " ++ DataNormalizer.format format_other region
    else query in
  query ++ cp ", Tunisia".

(** The [try] block: [None] when anything in it raises, and when the
    status is not 200 or the result list is empty. *)
Definition first_result (q : str) : option (Q * Q) :=
  response ← requests_get q;
  if Nat.eqb (status_code response) 200 then
    results ← json response;
    match results with
    | result :: _ =>
        lat ← result !! "lat";
        lat ← float lat;
        lon ← result !! "lon";
        lon ← float lon;
        Some (lat, lon)
    | [] => None
    end
  else None.

(** [geocode]: the queries it sent, and its result. *)
Definition geocode (city region : pyval) : list str * option (Q * Q) :=
  if negb (truthy city) then ([], None)
  else
    let q := query city region in
    ([q], first_result q).

(** The usage the guide gives for [main.py] or [normalizer.py]:
    [lat, lng = geocoder.geocode(property_data['city'], property_data['region'])]
    and the two assignments under [if lat and lng].  Unpacking [None]
    raises [TypeError]. *)
Definition geocode_step (property_data : dict) : py dict :=
  do city <- getitem property_data "city";
  do region <- getitem property_data "region";
  match (geocode city region).2 with
  | None => raise TypeError
  | Some (lat, lng) =>
      if truthy (PNum lat) && truthy (PNum lng)
      then ret (<["longitude" := PNum lng]> (<["latitude" := PNum lat]> property_data))
      else ret property_data
  end.

End Geocode.

End Geocoder.

(** ** The admin middleware *)

Module Middleware.

Inductive NextResponse :=
| Next
| Response (body : str) (status : nat) (headers : list (str * str)).

Section Env.

(** [Buffer.from(s).toString("base64")]. *)
Variable base64 : str -> str.

(** [process.env.ADMIN_USER] and [process.env.ADMIN_PASS]: undefined or a
    string. *)
Variable env_ADMIN_USER env_ADMIN_PASS : option str.

(** [process.env.ADMIN_USER || "admin"]: the empty string is falsy. *)
Definition ADMIN_USER : str :=
  match env_ADMIN_USER with
  | Some (c :: user) => c :: user
  | _ => cp "admin"
  end.

Definition ADMIN_PASS : option str := env_ADMIN_PASS.

(** [`Basic ${Buffer.from(`${ADMIN_USER}:${ADMIN_PASS}`).toString("base64")}`]. *)
Definition expected (pass : str) : str :=
  cp "Basic " ++ base64 (ADMIN_USER ++ cp ":" ++ pass).

(** The value of the [WWW-Authenticate] header, with its double quotes
    (U+0022). *)
Definition challenge : str :=
  cp "Basic realm=" ++ 34%N :: cp "Admin" ++ 34%N ::
  cp ", charset=" ++ 34%N :: cp "UTF-8" ++ [34%N].

(** [middleware], on the path of the request and its [authorization]
    header ([None] when the header is absent). *)
Definition middleware (pathname : str) (authorization : option str) : NextResponse :=
  if negb (startswith (cp "/admin") pathname) then Next
  else
    match ADMIN_PASS with
    | Some (c :: pass) =>
        if bool_decide (authorization = Some (expected (c :: pass))) then Next
        else Response (cp "Unauthorized") 401 [(cp "WWW-Authenticate", challenge)]
    | _ => Response (cp "Admin password not configured") 500 []
    end.

End Env.

End Middleware.

(** ** Sample data *)

Module Samples.

(** A rendering of numbers and lists for the f-string of
    [_extract_listing_type]; the samples only format strings and [None]. *)
Definition format_plain (v : pyval) : str := cp "?".

(** The vector literal of [_format_vector]; the samples carry no
    embedding. *)
Definition format_vector_plain (v : pyval) : pyval := PStr (cp "[]").

Definition url1 : str := cp "http://test.com/1".

(** 'Appartement S+2 à louer', the title of the guide's migration test. *)
Definition title_rent : str := cp "Appartement S+2 " ++ 224%N :: cp " louer".

(** 'Villa à vendre avec parking et piscine'. *)
Definition title_sale : str :=
  cp "Villa " ++ 224%N :: cp " vendre avec parking et piscine".

(** The record of the guide's migration test. *)
Definition old_data : dict :=
  <["sourceUrl" := PStr url1]>
  (<["sourceName" := PStr (cp "Tunisie Annonce")]>
  (<["title" := PStr title_rent]>
  (<["type" := PStr (cp "Appartement")]>
  (<["price" := PNum 1000]>
  (<["surfaceArea" := PNum 100]> ∅))))).

(** A listing whose price is 0 ("price on request"), with an area. *)
Definition free_listing : dict :=
  <["sourceUrl" := PStr url1]>
  (<["title" := PStr (cp "Terrain")]>
  (<["price" := PNum 0]>
  (<["surfaceArea" := PNum 100]>
  (<["city" := PStr (cp "Tunis")]> ∅)))).

(** A listing without an area that already carries a price per sqm. *)
Definition stale_ratio : dict :=
  <["sourceUrl" := PStr url1]>
  (<["title" := PStr (cp "Terrain")]>
  (<["price" := PNum 1000]>
  (<["pricePerSqm" := PNum 7]> ∅))).

(** A freshly normalized listing, as the scraper hands it to the client:
    it has no [aiTags] and no [dealRating] key. *)
Definition scraped : dict :=
  <["sourceUrl" := PStr url1]>
  (<["source" := PStr (cp "TUNISIE_ANNONCE")]>
  (<["listingType" := PStr (cp "SALE")]>
  (<["status" := PStr (cp "ACTIVE")]>
  (<["title" := PStr title_sale]>
  (<["price" := PNum 200000]>
  (<["surfaceArea" := PNum 100]>
  (<["pricePerSqm" := PNum 2000]>
  (<["city" := PStr (cp "Tunis")]>
  (<["features" := PList [cp "parking"; cp "pool"]]> ∅))))))))).

(** The stored row of the same listing after the enrichment pass wrote
    [aiTags = ["x"]] and a deal rating. *)
Definition enriched_row : dict :=
  <["id" := PStr (cp "p1")]>
  (<["createdAt" := PStr (cp "2025-11-01T08:00:00")]>
  (<["updatedAt" := PStr (cp "2025-11-02T09:30:00")]>
  (<["scrapedAt" := PStr (cp "2025-11-01T08:00:00")]>
  (<["aiTags" := PList [cp "x"]]>
  (<["dealRating" := PNum 80]> scraped))))).

(** A NeighborhoodStats row with only its average set. *)
Definition stats_row (city : str) (region : option str) (avg : Q)
  : NeighborhoodStats.row :=
  {| NeighborhoodStats.city := city;
     NeighborhoodStats.region := region;
     NeighborhoodStats.avgPricePerSqm := Some avg;
     NeighborhoodStats.medianPrice := None;
     NeighborhoodStats.totalListings := 1;
     NeighborhoodStats.activeListings := 1;
     NeighborhoodStats.avgRentPrice := None;
     NeighborhoodStats.avgSalePrice := None;
     NeighborhoodStats.updatedAt := cp "2025-11-01T00:00:00" |}.

(** The spec's worked example: 2500 per sqm in the listing's city. *)
Definition stats_2500 : py (list NeighborhoodStats.row) :=
  inr [stats_row (cp "Tunis") (Some (cp "L'Aouina")) 2500].

(** A city whose average is 3 per sqm, and a listing at 2.9 per sqm. *)
Definition stats_3 : py (list NeighborhoodStats.row) :=
  inr [stats_row (cp "Tunis") None 3].

Definition listing_290 : dict :=
  <["city" := PStr (cp "Tunis")]>
  (<["price" := PNum 290]>
  (<["surfaceArea" := PNum 100]> ∅)).

(** A listing at 4000 per sqm. *)
Definition listing_4000 : dict :=
  <["city" := PStr (cp "Tunis")]>
  (<["price" := PNum 400000]>
  (<["surfaceArea" := PNum 100]> ∅)).

Definition property (city : str) (region : option str) (price : Q)
    (surface_area : option Q) : Properties.row :=
  {| Properties.city := Some city;
     Properties.region := region;
     Properties.price := Some price;
     Properties.surface_area := surface_area;
     Properties.status := ACTIVE |}.

Definition marsa : option str := Some (cp "La Marsa").
Definition centre : option str := Some (cp "Centre").

(** Two listings of one locality, the second without an area. *)
Definition two_in_marsa : list Properties.row :=
  [ property (cp "Tunis") marsa 200000 (Some 100%Q);
    property (cp "Tunis") marsa 150000 None ].

(** A snapshot with two localities ... *)
Definition snapshot : list Properties.row :=
  [ property (cp "Tunis") marsa 200000 (Some 100%Q);
    property (cp "Sousse") centre 90000 (Some 60%Q);
    property (cp "Tunis") marsa 300000 (Some 100%Q) ].

(** ... and stored statistics for one of them and for a third locality,
    which no listing represents any more. *)
Definition stored_stats : list NeighborhoodStats.row :=
  [ stats_row (cp "Tunis") marsa 1800;
    stats_row (cp "Sfax") centre 1200 ].

Definition t1 : str := cp "2025-11-03T10:00:00".
Definition t2 : str := cp "2025-11-04T10:00:00".

(** The field of the row at a position of a table. *)
Definition cell (table : list dict) (i : nat) (k : string) : option pyval :=
  match table !! i with
  | Some r => r !! k
  | None => None
  end.

End Samples.

Module MoreSamples.

(** A provider that knows Tunis only, and answers numbers. *)
Definition provider (q : str) : option Geocoder.Response :=
  if bool_decide (q = cp "Tunis, Tunisia")
  then Some {| Geocoder.status_code := 200;
               Geocoder.json :=
                 Some [ <["lat" := PNum (368 # 10)]>
                        (<["lon" := PNum (1018 # 100)]> (∅ : dict)) ] |}
  else Some {| Geocoder.status_code := 200; Geocoder.json := Some [] |}.

Definition float_of_number (v : pyval) : option Q :=
  match v with
  | PNum q => Some q
  | _ => None
  end.

Definition in_tunis : dict :=
  <["city" := PStr (cp "Tunis")]> (<["region" := PNone]> (∅ : dict)).

Definition in_nowhere : dict :=
  <["city" := PStr (cp "Atlantis")]> (<["region" := PNone]> (∅ : dict)).

(** A listing whose region is NULL. *)
Definition no_region : list Properties.row :=
  [ Samples.property (cp "Tunis") None 200000 (Some 100%Q) ].

(** A listing of Tunis by its price and area, and a table holding one
    average for Tunis. *)
Definition listing (price area : Q) : dict :=
  <["city" := PStr (cp "Tunis")]>
  (<["price" := PNum price]>
  (<["surfaceArea" := PNum area]> ∅)).

Definition tunis_stats (avg : Q) : py (list NeighborhoodStats.row) :=
  inr [Samples.stats_row (cp "Tunis") None avg].

End MoreSamples.

(** * Properties *)

Import DataNormalizer.

(** ** The exception monad *)

Lemma bind_inr {A B} (m : py A) (k : A -> py B) (b : B) :
  bind m k = inr b -> exists a, m = inr a /\ k a = inr b.
Proof. destruct m as [e | a]; simpl; [discriminate | eauto]. Qed.

Lemma bind_inl {A B} (m : py A) (k : A -> py B) (e : pyerr) :
  bind m k = inl e -> m = inl e \/ exists a, m = inr a /\ k a = inl e.
Proof. destruct m as [e' | a]; simpl; [left; congruence | eauto]. Qed.

Ltac py_inv H :=
  let a := fresh "a" in
  let Ha := fresh "Ha" in
  apply bind_inr in H; destruct H as (a & Ha & H).

Lemma getitem_inr (d : dict) (k : string) (v : pyval) :
  getitem d k = inr v <-> d !! k = Some v.
Proof.
  unfold getitem. destruct (d !! k); simpl; split; intros E;
    try discriminate; injection E as ->; reflexivity.
Qed.

Lemma get_Some (d : dict) (k : string) (v : pyval) :
  d !! k = Some v -> get d k = v.
Proof. unfold get. intros ->. reflexivity. Qed.

(** ** Rational comparisons *)

Lemma Q_is_zero_true (q : Q) : Q_is_zero q = true <-> q == 0.
Proof. unfold Q_is_zero. apply Qeq_bool_iff. Qed.

Lemma Q_is_zero_false (q : Q) : Q_is_zero q = false <-> ~ q == 0.
Proof.
  rewrite <- Q_is_zero_true. destruct (Q_is_zero q); split; intros; congruence.
Qed.

Lemma Qltb_true (a b : Q) : Qltb a b = true <-> (a < b)%Q.
Proof.
  unfold Qltb. rewrite negb_true_iff, <- not_true_iff_false, Qle_bool_iff.
  split; [apply Qnot_le_lt | apply Qlt_not_le].
Qed.

Lemma Qltb_false (a b : Q) : Qltb a b = false <-> (b <= a)%Q.
Proof. unfold Qltb. rewrite negb_false_iff. apply Qle_bool_iff. Qed.

Ltac Qltb_hyps :=
  repeat match goal with
  | H : Qltb _ _ = true |- _ => apply Qltb_true in H
  | H : Qltb _ _ = false |- _ => apply Qltb_false in H
  end.

(** ** Substrings *)

Lemma startswith_app (kw text : str) :
  startswith kw text = true <-> exists post, text = kw ++ post.
Proof.
  revert text. induction kw as [| a kw IH]; intros text; simpl.
  - split; [by eauto | done].
  - destruct text as [| b text].
    + split; [done | by intros [post H]].
    + rewrite andb_true_iff, N.eqb_eq, IH. split.
      * intros [-> [post ->]]. by eauto.
      * intros [post H]. injection H as -> ->. by eauto.
Qed.

Lemma str_in_app (kw text : str) :
  str_in kw text = true <-> exists pre post, text = pre ++ kw ++ post.
Proof.
  induction text as [| b text IH].
  - simpl. rewrite orb_false_r, startswith_app. split.
    + intros [post H]. by exists [], post.
    + intros (pre & post & H). destruct pre; [by eauto |]. discriminate H.
  - cbn [str_in]. rewrite orb_true_iff, startswith_app, IH. split.
    + intros [[post H] | (pre & post & H)].
      * by exists [], post.
      * exists (b :: pre), post. by rewrite H.
    + intros (pre & post & H). destruct pre as [| c pre].
      * left. by eauto.
      * right. injection H as _ H. by eauto.
Qed.

Lemma str_in_suffix_keyword (head kw text : str) :
  str_in (head ++ kw) text = true -> str_in kw text = true.
Proof.
  rewrite !str_in_app. intros (pre & post & ->).
  exists (pre ++ head), post. by rewrite <- !app_assoc.
Qed.

Lemma NoDup_List_filter {A} (f : A -> bool) (l : list A) :
  NoDup l -> NoDup (List.filter f l).
Proof.
  induction 1 as [| a l Hin Hnd IH]; simpl; [constructor |].
  destruct (f a); [| exact IH].
  constructor; [| exact IH].
  rewrite list_elem_of_In, filter_In, <- list_elem_of_In. by intros [? _].
Qed.

(** ** Listing-type classification *)

Section ListingType.

Variable lower : str -> str.
Variable format_other : pyval -> str.

Local Abbreviation classify := (_extract_listing_type lower format_other).
Local Abbreviation rent := (rent_score lower format_other).
Local Abbreviation sale := (sale_score lower format_other).

Lemma keyword_score_bound (keywords : list str) (text : str) :
  keyword_score keywords text <= length keywords.
Proof. unfold keyword_score. apply List.filter_length_le. Qed.

(** The scores read the lowered text only: inputs that differ in letter
    case alone, so that their concatenations lower to the same text, get
    the same class. *)
Lemma classify_case_insensitive (u t d u' t' d' : pyval) :
  listing_text lower format_other u t d = listing_text lower format_other u' t' d' ->
  classify u t d = classify u' t' d'.
Proof. unfold _extract_listing_type. intros ->. reflexivity. Qed.

(** The class by the two scores: RENT exactly when the rent score is
    strictly greater, SALE otherwise. *)
Lemma classify_by_scores (url title description : pyval) :
  (classify url title description = RENT <->
     sale url title description < rent url title description) /\
  (classify url title description = SALE <->
     rent url title description <= sale url title description).
Proof.
  unfold _extract_listing_type, rent_score, sale_score.
  set (text := listing_text lower format_other url title description).
  set (r := keyword_score rent_keywords text).
  set (s := keyword_score sale_keywords text).
  destruct (Nat.ltb_spec s r) as [Hlt | Hge].
  - split; split; intros; try done; lia.
  - assert (Hsale : (if r <? s then SALE else SALE) = SALE)
      by (destruct (r <? s); reflexivity).
    rewrite Hsale. split; split; intros; try done; lia.
Qed.

(** A score is the number of keywords of the set that occur in the text:
    the keywords found are listed without repetition. *)
Lemma keyword_score_found (keywords : list str) (text : str) :
  NoDup keywords ->
  exists found,
    NoDup found /\
    (forall kw, In kw found <->
       In kw keywords /\ exists pre post, text = pre ++ kw ++ post) /\
    keyword_score keywords text = length found.
Proof.
  intros Hnd. exists (List.filter (fun kw => str_in kw text) keywords).
  split; [by apply NoDup_List_filter |]. split; [| done].
  intros kw. by rewrite filter_In, str_in_app.
Qed.

Lemma rent_keywords_NoDup : NoDup rent_keywords.
Proof. apply (bool_decide_unpack _). vm_compute. exact I. Qed.

Lemma sale_keywords_NoDup : NoDup sale_keywords.
Proof. apply (bool_decide_unpack _). vm_compute. exact I. Qed.

(** C4 (as amended): over the lowered text "url title description", the
    classification counts for each set how many of its keywords occur in
    the text, each keyword once however often it occurs; it returns RENT
    exactly when more rent keywords than sale keywords are found, and SALE
    otherwise: when more sale keywords are found and on every tie, the tie
    where no keyword of either set occurs included. *)
Theorem extract_listing_type_counts_keywords_found (url title description : pyval) :
  let text :=
    lower (format format_other url ++ space ++ format format_other title
           ++ space ++ format format_other description) in
  exists rent_found sale_found : list str,
    (NoDup rent_found /\
     forall kw, In kw rent_found <->
       In kw rent_keywords /\ exists pre post, text = pre ++ kw ++ post) /\
    (NoDup sale_found /\
     forall kw, In kw sale_found <->
       In kw sale_keywords /\ exists pre post, text = pre ++ kw ++ post) /\
    (classify url title description = RENT <->
       length sale_found < length rent_found) /\
    (classify url title description = SALE <->
       length rent_found <= length sale_found) /\
    (rent_found = [] -> sale_found = [] ->
       classify url title description = SALE).
Proof.
  intros text.
  destruct (keyword_score_found rent_keywords text rent_keywords_NoDup)
    as (rent_found & Hnd_r & Hin_r & Hlen_r).
  destruct (keyword_score_found sale_keywords text sale_keywords_NoDup)
    as (sale_found & Hnd_s & Hin_s & Hlen_s).
  exists rent_found, sale_found.
  destruct (classify_by_scores url title description) as [Hrent Hsale].
  unfold rent_score, sale_score, listing_text in Hrent, Hsale.
  fold text in Hrent, Hsale. rewrite Hlen_r, Hlen_s in Hrent, Hsale.
  split; [done |]. split; [done |]. split; [done |]. split; [done |].
  intros -> ->. by apply Hsale.
Qed.

End ListingType.

(** Concrete runs of the classifier, with the Latin-1 lowering. *)
Example classify_guide_title :
  _extract_listing_type lower_latin1 Samples.format_plain
    (PStr Samples.url1) (PStr Samples.title_rent) (PStr []) = RENT.
Proof. reflexivity. Qed.

Example classify_upper_case :
  _extract_listing_type lower_latin1 Samples.format_plain
    (PStr Samples.url1) (PStr (cp "VILLA A VENDRE")) (PStr []) = SALE.
Proof. reflexivity. Qed.

Example classify_no_keyword :
  rent_score lower_latin1 Samples.format_plain
    (PStr Samples.url1) (PStr (cp "Terrain 500 m2")) (PStr []) = 0 /\
  sale_score lower_latin1 Samples.format_plain
    (PStr Samples.url1) (PStr (cp "Terrain 500 m2")) (PStr []) = 0 /\
  _extract_listing_type lower_latin1 Samples.format_plain
    (PStr Samples.url1) (PStr (cp "Terrain 500 m2")) (PStr []) = SALE.
Proof. repeat split. Qed.

(** A keyword counts once however often it occurs: three 'louer' against
    'vendre' and 'vente' is one against two. *)
Example classify_repeated_keyword :
  let title := PStr (cp "louer louer louer vendre vente") in
  rent_score lower_latin1 Samples.format_plain (PStr []) title (PStr []) = 1 /\
  sale_score lower_latin1 Samples.format_plain (PStr []) title (PStr []) = 2 /\
  _extract_listing_type lower_latin1 Samples.format_plain (PStr []) title (PStr []) = SALE.
Proof. repeat split. Qed.

(** C4 (counterexample): in 'Location location location - vente' the rent
    keywords occur three times and the sale keywords once, so that by
    occurrences the rent count is strictly greater; the code finds one
    keyword of each set, a tie, and returns SALE. *)
Lemma repeated_keyword_counts_once :
  let title := PStr (cp "Location location location - vente") in
  let text :=
    listing_text lower_latin1 Samples.format_plain (PStr Samples.url1) title (PStr []) in
  SpecWords.occurrence_count rent_keywords text = 3 /\
  SpecWords.occurrence_count sale_keywords text = 1 /\
  rent_score lower_latin1 Samples.format_plain (PStr Samples.url1) title (PStr []) = 1 /\
  sale_score lower_latin1 Samples.format_plain (PStr Samples.url1) title (PStr []) = 1 /\
  _extract_listing_type lower_latin1 Samples.format_plain
    (PStr Samples.url1) title (PStr []) = SALE /\
  _extract_listing_type lower_latin1 Samples.format_plain
    (PStr Samples.url1) title (PStr []) <> RENT.
Proof. vm_compute. repeat split. discriminate. Qed.

(** ** The normalizer *)

Section Normalize.

Variable lower : str -> str.
Variable format_other : pyval -> str.

Local Abbreviation normalize := (DataNormalizer.normalize lower format_other).
Local Abbreviation classify := (_extract_listing_type lower format_other).

Lemma gt_zero_true (v : pyval) :
  gt_zero v = inr true -> exists s, v = PNum s /\ (0 < s)%Q.
Proof.
  destruct v; simpl; try discriminate. intros [= H].
  eexists; split; [reflexivity | by apply Qltb_true].
Qed.

(** The guard of the price-per-sqm step holds exactly for a numeric,
    strictly positive [surfaceArea]. *)
Lemma set_pricePerSqm_guard (normalized : dict) (positive : bool) :
  (if truthy (get normalized "surfaceArea")
   then gt_zero (get normalized "surfaceArea") else ret false) = inr positive ->
  if positive
  then exists s, normalized !! "surfaceArea" = Some (PNum s) /\ (0 < s)%Q
  else ~ exists s, normalized !! "surfaceArea" = Some (PNum s) /\ (0 < s)%Q.
Proof.
  unfold get. destruct (normalized !! "surfaceArea") as [v |] eqn:Hv; simpl.
  - destruct (truthy v) eqn:Ht.
    + destruct positive; intros Hg.
      * apply gt_zero_true in Hg as (s & -> & Hs). eauto.
      * destruct v; simpl in Hg; try discriminate. injection Hg as Hg.
        apply Qltb_false in Hg. intros (s & [= <-] & Hs). lra.
    + intros [= <-]. intros (s & [= ->] & Hs). simpl in Ht.
      apply negb_false_iff, Q_is_zero_true in Ht. lra.
  - intros [= <-]. intros (s & [=] & _).
Qed.

Lemma set_pricePerSqm_inr (normalized normalized' : dict) :
  set_pricePerSqm normalized = inr normalized' ->
  (exists s p, normalized !! "surfaceArea" = Some (PNum s) /\ (0 < s)%Q /\
      normalized !! "price" = Some (PNum p) /\
      normalized' = <["pricePerSqm" := PNum (Qred (p / s))]> normalized) \/
  ((~ exists s, normalized !! "surfaceArea" = Some (PNum s) /\ (0 < s)%Q) /\
      normalized' = normalized).
Proof.
  unfold set_pricePerSqm. intros H. py_inv H.
  apply set_pricePerSqm_guard in Ha. destruct a.
  - destruct Ha as (s & Hs & Hpos). left.
    py_inv H. apply getitem_inr in Ha. py_inv H. apply getitem_inr in Ha0.
    py_inv H. injection H as <-. rewrite Hs in Ha0. injection Ha0 as <-.
    destruct a; simpl in Ha1; try discriminate.
    destruct (Q_is_zero s); [discriminate |]. injection Ha1 as <-.
    exists s, q. repeat split; assumption.
  - right. injection H as <-. done.
Qed.

(** The division of the price-per-sqm step never meets a zero divisor. *)
Lemma set_pricePerSqm_no_ZeroDivisionError (normalized : dict) :
  set_pricePerSqm normalized <> inl ZeroDivisionError.
Proof.
  unfold set_pricePerSqm. intros H.
  apply bind_inl in H as [H | (positive & Hg & H)].
  - destruct (truthy _); [| discriminate].
    destruct (get normalized "surfaceArea"); discriminate.
  - apply set_pricePerSqm_guard in Hg. destruct positive; [| discriminate].
    destruct Hg as (s & Hs & Hpos).
    apply bind_inl in H as [H | (price & _ & H)].
    { unfold getitem in H. destruct (_ !! "price"); discriminate. }
    unfold getitem in H. rewrite Hs in H. simpl in H.
    apply bind_inl in H as [H | (q & _ & H)]; [| discriminate].
    destruct price; simpl in H; try discriminate.
    destruct (Q_is_zero s) eqn:Hz; [| discriminate].
    apply Q_is_zero_true in Hz. lra.
Qed.

Lemma normalize_inr (property_data normalized : dict) :
  normalize property_data = inr normalized ->
  exists title url property_type priced features,
    property_data !! "title" = Some title /\
    property_data !! "sourceUrl" = Some url /\
    set_pricePerSqm (with_enums lower format_other property_data title url property_type)
      = inr priced /\
    normalized = <["features" := PList features]> priced.
Proof.
  unfold DataNormalizer.normalize. intros H.
  py_inv H. apply getitem_inr in Ha. py_inv H. py_inv H.
  apply getitem_inr in Ha1. py_inv H. py_inv H. injection H as <-.
  exists a, a1, a0, a2, a3. done.
Qed.

Lemma with_enums_lookup_ne (property_data : dict) (title url : pyval)
    (property_type : option PropertyType) (k : string) :
  k <> "status" -> k <> "source" -> k <> "listingType" -> k <> "propertyType" ->
  with_enums lower format_other property_data title url property_type !! k
    = property_data !! k.
Proof.
  intros. unfold with_enums. by rewrite !lookup_insert_ne by done.
Qed.

Lemma normalize_no_ZeroDivisionError (property_data : dict) :
  normalize property_data <> inl ZeroDivisionError.
Proof.
  unfold DataNormalizer.normalize. intros H.
  apply bind_inl in H as [H | (title & _ & H)].
  { unfold getitem in H. destruct (_ !! "title"); discriminate. }
  apply bind_inl in H as [H | (property_type & _ & H)].
  { destruct title; discriminate. }
  apply bind_inl in H as [H | (url & _ & H)].
  { unfold getitem in H. destruct (_ !! "sourceUrl"); discriminate. }
  apply bind_inl in H as [H | (priced & _ & H)].
  { by apply set_pricePerSqm_no_ZeroDivisionError in H. }
  apply bind_inl in H as [H | (features & _ & H)]; [| discriminate].
  unfold _extract_features in H. destruct (negb _); [discriminate |].
  destruct (get_or property_data "description" (PStr [])); discriminate.
Qed.

(** C6 (as amended): [normalize] computes [pricePerSqm = price /
    surfaceArea] exactly when [surfaceArea] is a number greater than 0,
    whatever the price (0 included); otherwise it leaves the key as the
    input record had it, so it is absent or null unless the input already
    carried a value; and no run of [normalize] divides by zero. *)
Theorem normalize_pricePerSqm_guarded_by_surfaceArea :
  (forall property_data, normalize property_data <> inl ZeroDivisionError) /\
  (forall property_data normalized,
      normalize property_data = inr normalized ->
      (exists s p,
          property_data !! "surfaceArea" = Some (PNum s) /\ (0 < s)%Q /\
          property_data !! "price" = Some (PNum p) /\
          normalized !! "pricePerSqm" = Some (PNum (Qred (p / s)))) \/
      ((~ exists s,
          property_data !! "surfaceArea" = Some (PNum s) /\ (0 < s)%Q) /\
       normalized !! "pricePerSqm" = property_data !! "pricePerSqm")).
Proof.
  split; [apply normalize_no_ZeroDivisionError |].
  intros property_data normalized H.
  apply normalize_inr in H
    as (title & url & property_type & priced & features & _ & _ & Hp & ->).
  rewrite lookup_insert_ne by done.
  apply set_pricePerSqm_inr in Hp as [(s & p & Hs & Hpos & Hprice & ->) | [Hno ->]].
  - rewrite with_enums_lookup_ne in Hs, Hprice by done.
    left. exists s, p. by rewrite lookup_insert_eq.
  - right. split.
    + intros (s & Hs & Hpos). apply Hno. exists s.
      by rewrite with_enums_lookup_ne by done.
    + by rewrite with_enums_lookup_ne by done.
Qed.

End Normalize.

Lemma field_Some (r : py dict) (k : string) (v : pyval) :
  field r k = Some v -> exists d, r = inr d /\ d !! k = Some v.
Proof. destruct r as [e | d]; simpl; [discriminate | eauto]. Qed.

(** The guide's migration test: 1000 for 100 sqm is 10 per sqm. *)
Example normalize_old_data :
  let normalized :=
    DataNormalizer.normalize lower_latin1 Samples.format_plain Samples.old_data in
  field normalized "pricePerSqm" = Some (PNum 10) /\
  field normalized "listingType" = Some (PStr (cp "RENT")) /\
  field normalized "propertyType" = Some (PStr (cp "APARTMENT")) /\
  field normalized "source" = Some (PStr (cp "TUNISIE_ANNONCE")) /\
  field normalized "status" = Some (PStr (cp "ACTIVE")).
Proof. vm_compute. repeat split. Qed.

(** C6 (counterexample): a listing with price 0 and an area of 100 gets
    [pricePerSqm = 0]: the ratio is computed and is not null although the
    price is not greater than 0. *)
Lemma normalize_price_zero_computes_ratio :
  Samples.free_listing !! "price" = Some (PNum 0) /\
  Samples.free_listing !! "surfaceArea" = Some (PNum 100) /\
  field (DataNormalizer.normalize lower_latin1 Samples.format_plain
           Samples.free_listing) "pricePerSqm" = Some (PNum 0).
Proof. vm_compute. repeat split. Qed.

(** A record without an area keeps the ratio it came with. *)
Example normalize_keeps_incoming_ratio :
  Samples.stale_ratio !! "surfaceArea" = None /\
  field (DataNormalizer.normalize lower_latin1 Samples.format_plain
           Samples.stale_ratio) "pricePerSqm" = Some (PNum 7).
Proof. vm_compute. repeat split. Qed.

(** The amended C6 at the guide's record. *)
Lemma normalize_pricePerSqm_witness :
  exists normalized s p,
    DataNormalizer.normalize lower_latin1 Samples.format_plain Samples.old_data
      = inr normalized /\
    Samples.old_data !! "surfaceArea" = Some (PNum s) /\ (0 < s)%Q /\
    Samples.old_data !! "price" = Some (PNum p) /\
    normalized !! "pricePerSqm" = Some (PNum (Qred (p / s))).
Proof.
  destruct (field_Some _ _ _ (proj1 normalize_old_data)) as (normalized & Hn & _).
  exists normalized.
  destruct (proj2 (normalize_pricePerSqm_guarded_by_surfaceArea
                     lower_latin1 Samples.format_plain) _ _ Hn)
    as [(s & p & Hs & Hpos & Hp & Hr) | [Hno _]].
  - exists s, p. done.
  - exfalso. apply Hno. exists 100%Q. split; vm_compute; reflexivity.
Defined.

(** ** The payload of [upsert_property] *)

Lemma lookup_insert_congr (m1 m2 : dict) (i k : string) (x : pyval) :
  m1 !! k = m2 !! k -> <[i:=x]> m1 !! k = <[i:=x]> m2 !! k.
Proof. intros H. rewrite !lookup_insert. by case_decide. Qed.

Section Payload.

Variable _format_vector : pyval -> pyval.

Local Abbreviation build_payload := (DBClient.build_payload _format_vector).
Local Abbreviation add_embedding := (DBClient.add_embedding _format_vector).

Lemma remove_None_lookup (payload : dict) (k : string) (v : pyval) :
  DBClient.remove_None payload !! k = Some v <->
  payload !! k = Some v /\ is_None v = false.
Proof. unfold DBClient.remove_None. apply map_lookup_filter_Some. Qed.

Lemma remove_None_insert (payload : dict) (k : string) (v : pyval) :
  is_None v = false ->
  DBClient.remove_None (<[k:=v]> payload) = <[k:=v]> (DBClient.remove_None payload).
Proof. intros H. unfold DBClient.remove_None. by apply map_filter_insert_True. Qed.

Lemma add_embedding_lookup_ne (property_data payload : dict) (k : string) :
  k <> "descriptionEmbedding" ->
  add_embedding property_data payload !! k = payload !! k.
Proof.
  intros Hk. unfold DBClient.add_embedding.
  destruct (truthy _); [by rewrite lookup_insert_ne | done].
Qed.

Lemma add_embedding_insert (property_data payload : dict) (k : string) (v : pyval) :
  k <> "descriptionEmbedding" ->
  add_embedding property_data (<[k:=v]> payload)
    = <[k:=v]> (add_embedding property_data payload).
Proof.
  intros Hk. unfold DBClient.add_embedding.
  destruct (truthy _); [by rewrite insert_insert_ne | done].
Qed.

Lemma build_payload_inr (property_data : dict) (now : str) (payload : dict) :
  build_payload property_data now = inr payload ->
  exists sourceUrl listingType title price,
    property_data !! "sourceUrl" = Some sourceUrl /\
    property_data !! "listingType" = Some listingType /\
    property_data !! "title" = Some title /\
    property_data !! "price" = Some price /\
    payload = DBClient.remove_None (add_embedding property_data
      (DBClient.payload_dict property_data now sourceUrl listingType title price)).
Proof.
  unfold DBClient.build_payload, DBClient.payload_literal. intros H.
  py_inv H. py_inv Ha. py_inv Ha. py_inv Ha. py_inv Ha.
  injection Ha as <-. injection H as <-.
  apply getitem_inr in Ha0, Ha1, Ha2, Ha3.
  exists a0, a1, a2, a3. done.
Qed.

Lemma build_payload_total (property_data : dict) (now : str)
    (sourceUrl listingType title price : pyval) :
  property_data !! "sourceUrl" = Some sourceUrl ->
  property_data !! "listingType" = Some listingType ->
  property_data !! "title" = Some title ->
  property_data !! "price" = Some price ->
  build_payload property_data now =
    inr (DBClient.remove_None (add_embedding property_data
      (DBClient.payload_dict property_data now sourceUrl listingType title price))).
Proof.
  intros H1 H2 H3 H4.
  unfold DBClient.build_payload, DBClient.payload_literal, getitem.
  rewrite H1, H2, H3, H4. reflexivity.
Qed.

(** No key of the payload is mapped to [None]. *)
Lemma build_payload_no_None (property_data : dict) (now : str) (payload : dict) :
  build_payload property_data now = inr payload ->
  forall k, payload !! k <> Some PNone.
Proof.
  intros H k Hk. apply build_payload_inr in H as (? & ? & ? & ? & _ & _ & _ & _ & ->).
  apply remove_None_lookup in Hk as [_ Hk]. discriminate.
Qed.

(** The payload at another time differs in the two timestamps only. *)
Lemma payload_dict_now (property_data : dict) (now now' : str)
    (sourceUrl listingType title price : pyval) :
  DBClient.payload_dict property_data now' sourceUrl listingType title price =
  <["updatedAt" := PStr now']> (<["scrapedAt" := PStr now']>
    (DBClient.payload_dict property_data now sourceUrl listingType title price)).
Proof.
  apply map_eq. intros k.
  destruct (decide (k = "updatedAt")) as [-> | Hu].
  { rewrite lookup_insert_eq. unfold DBClient.payload_dict.
    rewrite !lookup_insert_ne by done. by rewrite lookup_insert_eq. }
  destruct (decide (k = "scrapedAt")) as [-> | Hs].
  { rewrite lookup_insert_ne, lookup_insert_eq by done. unfold DBClient.payload_dict.
    rewrite !lookup_insert_ne by done. by rewrite lookup_insert_eq. }
  rewrite !lookup_insert_ne by done. unfold DBClient.payload_dict.
  repeat apply lookup_insert_congr. by rewrite !lookup_insert_ne by done.
Qed.

Lemma build_payload_now (property_data : dict) (now now' : str) (payload : dict) :
  build_payload property_data now = inr payload ->
  build_payload property_data now' =
    inr (<["updatedAt" := PStr now']> (<["scrapedAt" := PStr now']> payload)).
Proof.
  intros H. apply build_payload_inr in H
    as (sourceUrl & listingType & title & price & H1 & H2 & H3 & H4 & ->).
  rewrite (build_payload_total _ _ _ _ _ _ H1 H2 H3 H4). f_equal.
  rewrite (payload_dict_now _ now now').
  rewrite !add_embedding_insert by done.
  by rewrite !remove_None_insert by done.
Qed.

(** The payload holds exactly the keys of the literal and, possibly, the
    embedding: in particular neither [id] nor [createdAt]. *)
Lemma payload_dict_lookup_other (property_data : dict) (now : str)
    (sourceUrl listingType title price : pyval) (k : string) :
  k = "id" \/ k = "createdAt" ->
  DBClient.payload_dict property_data now sourceUrl listingType title price !! k = None.
Proof.
  intros [-> | ->]; unfold DBClient.payload_dict;
    by rewrite !lookup_insert_ne by done.
Qed.

Lemma build_payload_lookup_other (property_data : dict) (now : str)
    (payload : dict) (k : string) :
  build_payload property_data now = inr payload ->
  k = "id" \/ k = "createdAt" -> payload !! k = None.
Proof.
  intros H Hk. apply build_payload_inr in H as (? & ? & ? & ? & _ & _ & _ & _ & ->).
  destruct (DBClient.remove_None _ !! k) as [v |] eqn:E; [| done].
  apply remove_None_lookup in E as [E _].
  rewrite add_embedding_lookup_ne in E by (destruct Hk as [-> | ->]; done).
  by rewrite payload_dict_lookup_other in E.
Qed.

End Payload.

(** ** The store write *)

Lemma filter_existsb_false {A} (f : A -> bool) (l : list A) :
  existsb f l = false -> List.filter f l = [].
Proof.
  induction l as [| a l IH]; simpl; [done |].
  destruct (f a); simpl; [discriminate | exact IH].
Qed.

Lemma filter_nil_existsb {A} (f : A -> bool) (l : list A) :
  List.filter f l = [] -> existsb f l = false.
Proof.
  induction l as [| a l IH]; simpl; [done |].
  destruct (f a); simpl; [discriminate | exact IH].
Qed.

Lemma filter_existsb_true {A} (f : A -> bool) (l : list A) (a : A) :
  List.filter f l = [a] -> existsb f l = true.
Proof.
  destruct (existsb f l) eqn:E; [done |].
  by rewrite (filter_existsb_false _ _ E).
Qed.

Lemma filter_map_update {A} (f : A -> bool) (h : A -> A) (l : list A) :
  (forall a, f a = true -> f (h a) = true) ->
  List.filter f (map (fun a => if f a then h a else a) l) = map h (List.filter f l).
Proof.
  intros Hh. induction l as [| a l IH]; simpl; [done |].
  destruct (f a) eqn:E; simpl.
  - rewrite (Hh _ E). simpl. by rewrite IH.
  - rewrite E. exact IH.
Qed.

Lemma lookup_map_update {A} (f : A -> bool) (h : A -> A) (l : list A) (i : nat) (a : A) :
  l !! i = Some a ->
  map (fun a => if f a then h a else a) l !! i = Some (if f a then h a else a).
Proof.
  revert i. induction l as [| b l IH]; intros [| i]; simpl; try done.
  - by intros [= ->].
  - apply IH.
Qed.

Lemma row_url_Some (r : dict) (u : str) :
  Store.row_url r = Some u <-> r !! "sourceUrl" = Some (PStr u).
Proof.
  unfold Store.row_url. destruct (r !! "sourceUrl") as [[] |]; split; intros H;
    try discriminate; by injection H as ->.
Qed.

Lemma has_url_true (u : str) (r : dict) :
  Store.has_url u r = true <-> r !! "sourceUrl" = Some (PStr u).
Proof.
  unfold Store.has_url. rewrite bool_decide_eq_true. apply row_url_Some.
Qed.

Ltac not_enrichment_owned :=
  let H := fresh in
  intros H; apply list_elem_of_In in H; simpl in H;
  repeat (destruct H as [H | H]; [discriminate H |]); exact H.

(** The columns an update writes: every column that is neither [createdAt]
    nor enrichment-owned, and the enrichment-owned ones the caller's record
    has. *)
Lemma written_plain (property : dict) (k : string) :
  k <> "createdAt" -> k ∉ Store.enrichment_owned ->
  Store.written property k = true.
Proof.
  intros Hc He. unfold Store.written.
  by rewrite !bool_decide_eq_false_2.
Qed.

Lemma written_enrichment (property : dict) (k : string) :
  k ∈ Store.enrichment_owned ->
  Store.written property k = bool_decide (is_Some (property !! k)).
Proof.
  intros He. unfold Store.written, Store.supplies.
  rewrite (bool_decide_eq_true_2 _ He).
  rewrite bool_decide_eq_false_2; [done |].
  intros ->. revert He. not_enrichment_owned.
Qed.

(** What a merge leaves under a key: the payload's value when the update
    writes the column and the payload has it, the stored one otherwise. *)
Lemma merge_update_lookup (property payload stored : dict) (k : string) :
  Store.merge_update property payload stored !! k =
    if Store.written property k
    then match payload !! k with
         | Some v => Some v
         | None => stored !! k
         end
    else stored !! k.
Proof.
  unfold Store.merge_update. rewrite lookup_union.
  destruct (filter _ payload !! k) as [v |] eqn:F.
  - apply map_lookup_filter_Some in F as [E W]. cbn in W. rewrite W, E.
    by destruct (stored !! k).
  - apply map_lookup_filter_None in F.
    destruct (Store.written property k) eqn:W, (payload !! k) as [v |] eqn:E;
      destruct F as [F | F]; try discriminate;
      try (exfalso; by apply (F v)); by destruct (stored !! k).
Qed.

Lemma has_url_merge_update (u : str) (property payload stored : dict) :
  Store.row_url payload = Some u ->
  Store.has_url u (Store.merge_update property payload stored) = true.
Proof.
  intros H. apply row_url_Some in H. apply has_url_true.
  rewrite merge_update_lookup, written_plain, H; [done | done |].
  not_enrichment_owned.
Qed.

(** A merge of the same payload at another time onto a row that already
    holds the values the update writes moves the two timestamps only. *)
Lemma merge_update_timestamps (property payload stored : dict) (a b : pyval) :
  (forall k v, Store.written property k = true ->
     payload !! k = Some v -> stored !! k = Some v) ->
  Store.merge_update property
    (<["updatedAt" := a]> (<["scrapedAt" := b]> payload)) stored
    = <["updatedAt" := a]> (<["scrapedAt" := b]> stored).
Proof.
  intros Hsub. apply map_eq. intros k. rewrite merge_update_lookup.
  destruct (decide (k = "updatedAt")) as [-> | Hu].
  { rewrite written_plain by (done || not_enrichment_owned).
    by rewrite !lookup_insert_eq. }
  destruct (decide (k = "scrapedAt")) as [-> | Hs].
  { rewrite written_plain by (done || not_enrichment_owned).
    by rewrite !(lookup_insert_ne _ "updatedAt"), !lookup_insert_eq by done. }
  rewrite !lookup_insert_ne by done.
  destruct (Store.written property k) eqn:W; [| done].
  destruct (payload !! k) as [v |] eqn:E; [| done].
  symmetry. by apply Hsub.
Qed.

(** The rows of a URL after one write: exactly one when there was at most
    one, and it holds every value of the payload in a column the update
    writes. *)
Lemma upsert_rows_of_url (table : list dict) (property payload : dict)
    (now new_id u : str) :
  Store.row_url payload = Some u ->
  payload !! "id" = None ->
  length (List.filter (Store.has_url u) table) <= 1 ->
  exists r,
    List.filter (Store.has_url u) (Store.upsert table property payload now new_id)
      = [r] /\
    (forall k v, Store.written property k = true ->
       payload !! k = Some v -> r !! k = Some v).
Proof.
  intros Hu Hid Hlen. unfold Store.upsert. rewrite Hu.
  destruct (existsb (Store.has_url u) table) eqn:E.
  - rewrite filter_map_update by (intros; by apply has_url_merge_update).
    destruct (List.filter (Store.has_url u) table) as [| r0 [| r1 rest]] eqn:F.
    + apply filter_nil_existsb in F. congruence.
    + exists (Store.merge_update property payload r0). split; [done |].
      intros k v Hk Hv. by rewrite merge_update_lookup, Hk, Hv.
    + simpl in Hlen. lia.
  - exists (Store.insert_row payload now new_id). split.
    + rewrite List.filter_app, (filter_existsb_false _ _ E). simpl.
      assert (Store.has_url u (Store.insert_row payload now new_id) = true) as ->; [| done].
      apply has_url_true. unfold Store.insert_row.
      rewrite !lookup_insert_ne by done. by apply row_url_Some.
    + intros k v Hk Hv. unfold Store.insert_row.
      rewrite lookup_insert_ne by (intros <-; congruence).
      rewrite lookup_insert_ne; [done |].
      intros <-. discriminate Hk.
Qed.

(** A write onto a table that has the URL updates in place. *)
Lemma upsert_existing (table : list dict) (property payload : dict)
    (now new_id u : str) (r : dict) :
  Store.row_url payload = Some u ->
  List.filter (Store.has_url u) table = [r] ->
  List.filter (Store.has_url u) (Store.upsert table property payload now new_id)
    = [Store.merge_update property payload r] /\
  length (Store.upsert table property payload now new_id) = length table.
Proof.
  intros Hu F. unfold Store.upsert. rewrite Hu, (filter_existsb_true _ _ _ F).
  rewrite filter_map_update by (intros; by apply has_url_merge_update).
  by rewrite F, length_map.
Qed.

(** A row of the table is, after a write, at the same position: merged with
    the payload when it has the payload's URL, untouched otherwise. *)
Lemma upsert_lookup (table : list dict) (property payload : dict)
    (now new_id : str) (i : nat) (r : dict) :
  table !! i = Some r ->
  Store.upsert table property payload now new_id !! i =
    Some (match Store.row_url payload with
          | Some u => if Store.has_url u r
                      then Store.merge_update property payload r else r
          | None => r
          end).
Proof.
  intros Hi. unfold Store.upsert.
  destruct (Store.row_url payload) as [u |] eqn:Hu; [| done].
  destruct (existsb (Store.has_url u) table) eqn:E.
  - by rewrite (lookup_map_update _ _ _ _ _ Hi).
  - assert (Store.has_url u r = false) as ->.
    { destruct (Store.has_url u r) eqn:F; [| done].
      assert (existsb (Store.has_url u) table = true); [| congruence].
      apply existsb_exists. exists r. split; [| done].
      apply list_elem_of_In. by eapply list_elem_of_lookup_2. }
    by apply lookup_app_l_Some.
Qed.

(** ** [upsert_property] *)

Section Upsert.

Variable _format_vector : pyval -> pyval.

Local Abbreviation build_payload := (DBClient.build_payload _format_vector).
Local Abbreviation upsert_property := (DBClient.upsert_property _format_vector).

Lemma build_payload_row_url (property_data : dict) (now u : str) (payload : dict) :
  build_payload property_data now = inr payload ->
  property_data !! "sourceUrl" = Some (PStr u) ->
  Store.row_url payload = Some u.
Proof.
  intros H Hu. apply build_payload_inr in H
    as (sourceUrl & ? & ? & ? & H1 & _ & _ & _ & ->).
  rewrite Hu in H1. injection H1 as <-.
  apply row_url_Some, remove_None_lookup. split; [| done].
  rewrite add_embedding_lookup_ne by done. apply lookup_insert_eq.
Qed.

(** C2 (as amended): upserting the same unchanged listing twice leaves
    exactly one row for its [sourceUrl] (given the store had at most one),
    adds no row the second time, and the row after the second upsert is the
    row after the first with [updatedAt] and [scrapedAt] set to the time of
    the second write: every other field is identical. *)
Theorem upsert_property_twice (table : list dict) (property_data : dict)
    (now now' new_id new_id' u : str) :
  property_data !! "sourceUrl" = Some (PStr u) ->
  is_Some (property_data !! "listingType") ->
  is_Some (property_data !! "title") ->
  is_Some (property_data !! "price") ->
  length (List.filter (Store.has_url u) table) <= 1 ->
  let once := upsert_property table property_data now new_id in
  let twice := upsert_property once property_data now' new_id' in
  exists r r',
    List.filter (Store.has_url u) once = [r] /\
    List.filter (Store.has_url u) twice = [r'] /\
    length twice = length once /\
    r' = <["updatedAt" := PStr now']> (<["scrapedAt" := PStr now']> r) /\
    (forall k, k <> "updatedAt" -> k <> "scrapedAt" -> r' !! k = r !! k).
Proof.
  intros Hu [listingType H2] [title H3] [price H4] Hlen once twice.
  pose proof (build_payload_total _format_vector _ now _ _ _ _ Hu H2 H3 H4) as Hp.
  pose proof (build_payload_now _ _ _ now' _ Hp) as Hp'.
  pose proof (build_payload_row_url _ _ _ _ Hp Hu) as Hrow.
  pose proof (build_payload_row_url _ _ _ _ Hp' Hu) as Hrow'.
  pose proof (build_payload_lookup_other _ _ _ _ "id" Hp (or_introl eq_refl)) as Hid.
  subst once twice. unfold DBClient.upsert_property. rewrite Hp, Hp'.
  destruct (upsert_rows_of_url table property_data _ now new_id u Hrow Hid Hlen)
    as (r & Hr & Hsub).
  destruct (upsert_existing _ property_data _ now' new_id' u r Hrow' Hr)
    as [Hr' Hlen'].
  exists r, (<["updatedAt" := PStr now']> (<["scrapedAt" := PStr now']> r)).
  split; [exact Hr |]. split.
  { rewrite Hr'. f_equal. by apply merge_update_timestamps. }
  split; [exact Hlen' |]. split; [done |].
  intros k Hk1 Hk2. by rewrite !lookup_insert_ne.
Qed.

(** A scrape without an [aiTags] key still sends [aiTags = []]; a missing
    [dealRating] or [renovationScore] is sent as nothing at all. *)
Lemma build_payload_defaults (property_data : dict) (now : str) (payload : dict) :
  build_payload property_data now = inr payload ->
  (property_data !! "aiTags" = None -> payload !! "aiTags" = Some (PList [])) /\
  (property_data !! "features" = None -> payload !! "features" = Some (PList [])) /\
  (property_data !! "dealRating" = None -> payload !! "dealRating" = None) /\
  (property_data !! "renovationScore" = None -> payload !! "renovationScore" = None).
Proof.
  intros H. apply build_payload_inr in H as (? & ? & ? & ? & _ & _ & _ & _ & ->).
  repeat split; intros Hd.
  - apply remove_None_lookup. split; [| done].
    rewrite add_embedding_lookup_ne by done. unfold DBClient.payload_dict.
    rewrite !lookup_insert_ne by done. rewrite lookup_insert_eq.
    unfold get_or. by rewrite Hd.
  - apply remove_None_lookup. split; [| done].
    rewrite add_embedding_lookup_ne by done. unfold DBClient.payload_dict.
    rewrite !lookup_insert_ne by done. rewrite lookup_insert_eq.
    unfold get_or. by rewrite Hd.
  - destruct (DBClient.remove_None _ !! "dealRating") as [v |] eqn:E; [| done].
    apply remove_None_lookup in E as [E Hv].
    rewrite add_embedding_lookup_ne in E by done. unfold DBClient.payload_dict in E.
    rewrite !lookup_insert_ne in E by done. rewrite lookup_insert_eq in E.
    unfold get in E. rewrite Hd in E. injection E as <-. discriminate.
  - destruct (DBClient.remove_None _ !! "renovationScore") as [v |] eqn:E; [| done].
    apply remove_None_lookup in E as [E Hv].
    rewrite add_embedding_lookup_ne in E by done. unfold DBClient.payload_dict in E.
    rewrite !lookup_insert_ne in E by done. rewrite lookup_insert_eq in E.
    unfold get in E. rewrite Hd in E. injection E as <-. discriminate.
Qed.

(** An [aiTags] list or a deal rating the record carries is sent as it
    is. *)
Lemma build_payload_supplied (property_data : dict) (now : str) (payload : dict)
    (k : string) (v : pyval) :
  build_payload property_data now = inr payload ->
  k = "aiTags" \/ k = "dealRating" ->
  property_data !! k = Some v -> v <> PNone ->
  payload !! k = Some v.
Proof.
  intros H Hk Hv Hne.
  apply build_payload_inr in H as (? & ? & ? & ? & _ & _ & _ & _ & ->).
  apply remove_None_lookup. split; [| by destruct v].
  destruct Hk as [-> | ->].
  - rewrite add_embedding_lookup_ne by done. unfold DBClient.payload_dict.
    rewrite !lookup_insert_ne by done. rewrite lookup_insert_eq.
    unfold get_or. by rewrite Hv.
  - rewrite add_embedding_lookup_ne by done. unfold DBClient.payload_dict.
    rewrite !lookup_insert_ne by done. rewrite lookup_insert_eq.
    unfold get. by rewrite Hv.
Qed.

(** C10: the payload [upsert_property] builds maps no key to [None];
    hence a write never turns a stored non-null field into a null or
    missing one; yet a record without a [features] key sends the empty
    list, which replaces the stored list of the row it updates, and a
    record without an [aiTags] key sends the empty list as well. *)
Theorem upsert_property_payload_has_no_None :
  (forall property_data now payload,
      build_payload property_data now = inr payload ->
      forall k, payload !! k <> Some PNone) /\
  (forall table property_data now new_id i r k v,
      table !! i = Some r -> r !! k = Some v -> v <> PNone ->
      exists r' v',
        upsert_property table property_data now new_id !! i = Some r' /\
        r' !! k = Some v' /\ v' <> PNone) /\
  (forall table property_data now new_id payload i r u,
      build_payload property_data now = inr payload ->
      property_data !! "sourceUrl" = Some (PStr u) ->
      table !! i = Some r -> r !! "sourceUrl" = Some (PStr u) ->
      property_data !! "features" = None ->
      exists r',
        upsert_property table property_data now new_id !! i = Some r' /\
        r' !! "features" = Some (PList [])) /\
  (forall property_data now payload,
      build_payload property_data now = inr payload ->
      property_data !! "aiTags" = None ->
      payload !! "aiTags" = Some (PList [])).
Proof.
  split; [apply build_payload_no_None |]. split; [| split].
  - intros table property_data now new_id i r k v Hi Hk Hv.
    unfold DBClient.upsert_property.
    destruct (build_payload property_data now) as [e | payload] eqn:Hp; [by eauto |].
    rewrite (upsert_lookup table property_data payload now new_id i r Hi).
    destruct (Store.row_url payload) as [u |]; [| by eauto].
    destruct (Store.has_url u r); [| by eauto].
    exists (Store.merge_update property_data payload r).
    rewrite merge_update_lookup.
    destruct (Store.written property_data k); [| by eauto].
    destruct (payload !! k) as [w |] eqn:E; [| by eauto].
    exists w. split; [done |]. split; [done |]. intros ->.
    by apply (build_payload_no_None _ _ _ _ Hp k).
  - intros table property_data now new_id payload i r u Hp Hu Hi Hr Hd.
    unfold DBClient.upsert_property. rewrite Hp.
    rewrite (upsert_lookup table property_data payload now new_id i r Hi).
    rewrite (build_payload_row_url _ _ _ _ Hp Hu).
    apply has_url_true in Hr. rewrite Hr.
    exists (Store.merge_update property_data payload r). split; [done |].
    rewrite merge_update_lookup, written_plain by (done || not_enrichment_owned).
    destruct (build_payload_defaults _ _ _ Hp) as (_ & Hf & _).
    by rewrite (Hf Hd).
  - intros property_data now payload Hp Hd.
    by apply (build_payload_defaults _ _ _ Hp).
Qed.

(** C3: an upsert leaves an enrichment-owned field ([aiTags], the
    embedding, [dealRating]) of every stored row as it is whenever the
    record it is given has no such key, whatever the payload built from the
    record carries for it (for [aiTags], the empty list); a value the record
    does carry for [aiTags] or [dealRating] is written to the row of its
    [sourceUrl]. *)
Theorem rescrape_keeps_enrichment_owned (table : list dict)
    (property_data : dict) (now new_id : str) (i : nat) (r : dict) (k : string) :
  table !! i = Some r ->
  In k ["aiTags"; "descriptionEmbedding"; "dealRating"] ->
  exists r',
    upsert_property table property_data now new_id !! i = Some r' /\
    (property_data !! k = None -> r' !! k = r !! k) /\
    (forall u v,
        r !! "sourceUrl" = Some (PStr u) ->
        property_data !! "sourceUrl" = Some (PStr u) ->
        is_Some (property_data !! "listingType") ->
        is_Some (property_data !! "title") ->
        is_Some (property_data !! "price") ->
        k <> "descriptionEmbedding" ->
        property_data !! k = Some v -> v <> PNone ->
        r' !! k = Some v).
Proof.
  intros Hi Hk.
  assert (k ∈ Store.enrichment_owned) as He by (by apply list_elem_of_In).
  unfold DBClient.upsert_property.
  destruct (build_payload property_data now) as [e | payload] eqn:Hp.
  - exists r. split; [done |]. split; [done |].
    intros u v _ Hu [? H2] [? H3] [? H4] _ _ _.
    by rewrite (build_payload_total _format_vector _ now _ _ _ _ Hu H2 H3 H4) in Hp.
  - rewrite (upsert_lookup table property_data payload now new_id i r Hi).
    eexists. split; [done |]. split.
    + intros Hd. destruct (Store.row_url payload) as [u |]; [| done].
      destruct (Store.has_url u r); [| done].
      rewrite merge_update_lookup, (written_enrichment _ _ He).
      rewrite bool_decide_eq_false_2; [done |].
      rewrite Hd. by intros [? ?].
    + intros u v Hr Hu _ _ _ Hne Hv Hnone.
      rewrite (build_payload_row_url _ _ _ _ Hp Hu).
      apply has_url_true in Hr. rewrite Hr.
      rewrite merge_update_lookup, (written_enrichment _ _ He).
      rewrite bool_decide_eq_true_2 by (by rewrite Hv).
      assert (k = "aiTags" \/ k = "dealRating") as Hk'.
      { destruct Hk as [<- | [<- | [<- | []]]]; [by left | done | by right]. }
      by rewrite (build_payload_supplied _ _ _ _ _ Hp Hk' Hv Hnone).
Qed.

End Upsert.

(** Concrete writes: the first scrape of a listing into an empty table and
    a second, unchanged scrape a day later. *)
Example first_scrape_payload :
  let payload :=
    DBClient.build_payload Samples.format_vector_plain Samples.scraped Samples.t1 in
  field payload "title" = Some (PStr Samples.title_sale) /\
  field payload "aiTags" = Some (PList []) /\
  field payload "dealRating" = None /\
  field payload "description" = None /\
  field payload "scrapedAt" = Some (PStr Samples.t1).
Proof. vm_compute. repeat split. Qed.

(** C2 (counterexample): the second upsert of the unchanged listing changes
    [scrapedAt], a field other than [updatedAt]. *)
Lemma second_upsert_changes_scrapedAt :
  let once :=
    DBClient.upsert_property Samples.format_vector_plain []
      Samples.scraped Samples.t1 (cp "p1") in
  let twice :=
    DBClient.upsert_property Samples.format_vector_plain once
      Samples.scraped Samples.t2 (cp "p2") in
  length once = 1 /\ length twice = 1 /\
  Samples.cell once 0 "scrapedAt" = Some (PStr Samples.t1) /\
  Samples.cell twice 0 "scrapedAt" = Some (PStr Samples.t2) /\
  Samples.cell once 0 "scrapedAt" <> Samples.cell twice 0 "scrapedAt".
Proof. vm_compute. repeat split. discriminate. Qed.

(** The amended C2 on that run. *)
Lemma upsert_property_twice_witness :
  let once :=
    DBClient.upsert_property Samples.format_vector_plain []
      Samples.scraped Samples.t1 (cp "p1") in
  let twice :=
    DBClient.upsert_property Samples.format_vector_plain once
      Samples.scraped Samples.t2 (cp "p2") in
  exists r r',
    List.filter (Store.has_url Samples.url1) once = [r] /\
    List.filter (Store.has_url Samples.url1) twice = [r'] /\
    length twice = length once /\
    r' = <["updatedAt" := PStr Samples.t2]> (<["scrapedAt" := PStr Samples.t2]> r) /\
    (forall k, k <> "updatedAt" -> k <> "scrapedAt" -> r' !! k = r !! k).
Proof.
  apply (upsert_property_twice Samples.format_vector_plain []
           Samples.scraped Samples.t1 Samples.t2 (cp "p1") (cp "p2") Samples.url1).
  - vm_compute. reflexivity.
  - eexists. vm_compute. reflexivity.
  - eexists. vm_compute. reflexivity.
  - eexists. vm_compute. reflexivity.
  - simpl. lia.
Defined.

(** The re-scrape of the enriched row: the payload carries [aiTags = []],
    the stored tags and deal rating stay, the scraped columns and the two
    timestamps are written. *)
Example rescrape_of_enriched_row :
  let stored := [Samples.enriched_row] in
  let table :=
    DBClient.upsert_property Samples.format_vector_plain stored
      Samples.scraped Samples.t1 (cp "p2") in
  Samples.scraped !! "aiTags" = None /\
  field (DBClient.build_payload Samples.format_vector_plain Samples.scraped Samples.t1)
    "aiTags" = Some (PList []) /\
  length table = 1 /\
  Samples.cell table 0 "aiTags" = Some (PList [cp "x"]) /\
  Samples.cell table 0 "dealRating" = Some (PNum 80) /\
  Samples.cell table 0 "features" = Some (PList [cp "parking"; cp "pool"]) /\
  Samples.cell table 0 "scrapedAt" = Some (PStr Samples.t1).
Proof. vm_compute. repeat split. Qed.

(** C3 on the spec's example: the stored [aiTags = ["x"]] is still there
    after a re-scrape without an [aiTags] key. *)
Lemma rescrape_keeps_aiTags_witness :
  Samples.cell
    (DBClient.upsert_property Samples.format_vector_plain [Samples.enriched_row]
       Samples.scraped Samples.t1 (cp "p2")) 0 "aiTags" = Some (PList [cp "x"]).
Proof.
  destruct (rescrape_keeps_enrichment_owned Samples.format_vector_plain
              [Samples.enriched_row] Samples.scraped Samples.t1 (cp "p2")
              0 Samples.enriched_row "aiTags") as (r' & Hr' & Hkeep & _).
  - reflexivity.
  - left. reflexivity.
  - unfold Samples.cell. rewrite Hr'. rewrite Hkeep; reflexivity.
Defined.

(** C10 on the first scrape and on the re-scrape of the enriched row. *)
Lemma upsert_property_payload_witness :
  (exists payload,
      DBClient.build_payload Samples.format_vector_plain Samples.scraped Samples.t1
        = inr payload /\
      forall k, payload !! k <> Some PNone) /\
  (exists r' v',
      DBClient.upsert_property Samples.format_vector_plain [Samples.enriched_row]
        Samples.scraped Samples.t1 (cp "p2") !! 0 = Some r' /\
      r' !! "dealRating" = Some v' /\ v' <> PNone).
Proof.
  destruct (field_Some _ _ _ (proj1 first_scrape_payload)) as (payload & Hp & _).
  pose proof (upsert_property_payload_has_no_None Samples.format_vector_plain)
    as (Hnone & Hkeep & _).
  split.
  - exists payload. split; [exact Hp | exact (Hnone _ _ _ Hp)].
  - apply (Hkeep [Samples.enriched_row] Samples.scraped Samples.t1 (cp "p2")
             0 Samples.enriched_row "dealRating" (PNum 80)).
    + reflexivity.
    + vm_compute. reflexivity.
    + discriminate.
Defined.

(** ** Required fields, from the normalizer to the store *)

Section RequiredFields.

Variable lower : str -> str.
Variable format_other : pyval -> str.
Variable _format_vector : pyval -> pyval.

Local Abbreviation normalize := (DataNormalizer.normalize lower format_other).
Local Abbreviation classify := (_extract_listing_type lower format_other).
Local Abbreviation build_payload := (DBClient.build_payload _format_vector).
Local Abbreviation upsert_property := (DBClient.upsert_property _format_vector).

Lemma ListingType_str_cases (t : ListingType) :
  ListingType_str t = cp "RENT" \/ ListingType_str t = cp "SALE".
Proof. destruct t; [by left | by right]. Qed.

(** What a returned record holds: the enum fields [normalize] assigned,
    and the input's own value under every key it does not assign. *)
Lemma normalize_fields (property_data normalized : dict) :
  normalize property_data = inr normalized ->
  exists title url,
    property_data !! "title" = Some title /\
    property_data !! "sourceUrl" = Some url /\
    normalized !! "listingType" = Some (PStr (ListingType_str
      (classify url title (get_or property_data "description" (PStr []))))) /\
    normalized !! "source" = Some (PStr (cp "TUNISIE_ANNONCE")) /\
    normalized !! "status" = Some (PStr (cp "ACTIVE")) /\
    (forall k, k <> "features" -> k <> "pricePerSqm" -> k <> "status" ->
       k <> "source" -> k <> "listingType" -> k <> "propertyType" ->
       normalized !! k = property_data !! k).
Proof.
  intros H. apply normalize_inr in H
    as (title & url & property_type & priced & features & Ht & Hu & Hp & ->).
  exists title, url. split; [done |]. split; [done |].
  apply set_pricePerSqm_inr in Hp as [(s & p & _ & _ & _ & ->) | [_ ->]].
  - repeat split; intros; rewrite !lookup_insert_ne by done;
      try (by apply with_enums_lookup_ne);
      unfold with_enums; by rewrite ?lookup_insert_ne, lookup_insert_eq by done.
  - repeat split; intros; rewrite !lookup_insert_ne by done;
      try (by apply with_enums_lookup_ne);
      unfold with_enums; by rewrite ?lookup_insert_ne, lookup_insert_eq by done.
Qed.

(** [normalize] returns on every record whose fields have the types the
    scraper gives them. *)
Lemma normalize_total (property_data : dict) (t : str) (p : Q) :
  property_data !! "title" = Some (PStr t) ->
  is_Some (property_data !! "sourceUrl") ->
  property_data !! "price" = Some (PNum p) ->
  (property_data !! "surfaceArea" = None \/
   property_data !! "surfaceArea" = Some PNone \/
   exists s, property_data !! "surfaceArea" = Some (PNum s)) ->
  (property_data !! "description" = None \/
   property_data !! "description" = Some PNone \/
   exists s, property_data !! "description" = Some (PStr s)) ->
  exists normalized, normalize property_data = inr normalized.
Proof.
  intros Ht [url Hu] Hp Hs Hd. unfold DataNormalizer.normalize, getitem.
  rewrite Ht, Hu. simpl.
  match goal with
  | |- context [set_pricePerSqm ?n] =>
      assert (exists priced, set_pricePerSqm n = inr priced) as [priced ->]
  end.
  { unfold set_pricePerSqm, get, getitem.
    rewrite !lookup_insert_ne by done.
    destruct Hs as [-> | [-> | [s ->]]]; simpl; [by eauto | by eauto |].
    destruct (Q_is_zero s) eqn:Hz; simpl; [by eauto |].
    destruct (Qltb 0 s); simpl; [| by eauto].
    rewrite Hp. simpl. rewrite Hz. simpl. by eauto. }
  cbn [bind]. unfold _extract_features, get_or.
  destruct Hd as [-> | [-> | [s ->]]]; cbn [default truthy negb bind ret];
    [by eauto | by eauto |].
  destruct (negb _); cbn [bind ret str_lower]; by eauto.
Qed.

(** C5: every record [normalize] returns has [listingType] RENT or SALE
    and [source] TUNISIE_ANNONCE, and it returns one for every listing with
    a textual title and a numeric price; the payload built from that record
    carries both fields; and a record without a [listingType] is refused
    before anything is written. *)
Theorem normalize_sets_listingType_and_source :
  (forall property_data normalized,
      normalize property_data = inr normalized ->
      (normalized !! "listingType" = Some (PStr (cp "RENT")) \/
       normalized !! "listingType" = Some (PStr (cp "SALE"))) /\
      normalized !! "source" = Some (PStr (cp "TUNISIE_ANNONCE"))) /\
  (forall property_data t p,
      property_data !! "title" = Some (PStr t) ->
      is_Some (property_data !! "sourceUrl") ->
      property_data !! "price" = Some (PNum p) ->
      (property_data !! "surfaceArea" = None \/
       property_data !! "surfaceArea" = Some PNone \/
       exists s, property_data !! "surfaceArea" = Some (PNum s)) ->
      (property_data !! "description" = None \/
       property_data !! "description" = Some PNone \/
       exists s, property_data !! "description" = Some (PStr s)) ->
      exists normalized, normalize property_data = inr normalized) /\
  (forall property_data normalized now,
      normalize property_data = inr normalized ->
      is_Some (property_data !! "price") ->
      exists payload,
        build_payload normalized now = inr payload /\
        payload !! "listingType" = normalized !! "listingType" /\
        payload !! "source" = normalized !! "source") /\
  (forall table property_data now new_id,
      property_data !! "listingType" = None ->
      upsert_property table property_data now new_id = table).
Proof.
  split; [| split; [| split]].
  - intros property_data normalized H.
    apply normalize_fields in H as (title & url & _ & _ & Hl & Hs & _).
    split; [| exact Hs]. rewrite Hl.
    destruct (ListingType_str_cases
                (classify url title (get_or property_data "description" (PStr []))))
      as [-> | ->]; [by left | by right].
  - apply normalize_total.
  - intros property_data normalized now H [price Hp].
    apply normalize_fields in H as (title & url & Ht & Hu & Hl & Hs & _ & Hk).
    rewrite <- (Hk "title") in Ht by done.
    rewrite <- (Hk "sourceUrl") in Hu by done.
    rewrite <- (Hk "price") in Hp by done.
    pose proof (build_payload_total _format_vector _ now _ _ _ _ Hu Hl Ht Hp) as Hb.
    eexists. split; [exact Hb |]. split.
    + rewrite Hl. apply remove_None_lookup. split; [| done].
      rewrite add_embedding_lookup_ne by done. unfold DBClient.payload_dict.
      by rewrite !lookup_insert_ne, lookup_insert_eq by done.
    + rewrite Hs. apply remove_None_lookup. split; [| done].
      rewrite add_embedding_lookup_ne by done. unfold DBClient.payload_dict.
      rewrite !lookup_insert_ne, lookup_insert_eq by done.
      unfold get_or. by rewrite Hs.
  - intros table property_data now new_id Hl.
    unfold DBClient.upsert_property, DBClient.build_payload,
      DBClient.payload_literal, getitem.
    rewrite Hl. by destruct (property_data !! "sourceUrl").
Qed.

End RequiredFields.

(** C5 on the guide's record: it normalizes, with both required fields. *)
Lemma normalize_required_fields_witness :
  exists normalized,
    DataNormalizer.normalize lower_latin1 Samples.format_plain Samples.old_data
      = inr normalized /\
    (normalized !! "listingType" = Some (PStr (cp "RENT")) \/
     normalized !! "listingType" = Some (PStr (cp "SALE"))) /\
    normalized !! "source" = Some (PStr (cp "TUNISIE_ANNONCE")).
Proof.
  pose proof (normalize_sets_listingType_and_source
                lower_latin1 Samples.format_plain Samples.format_vector_plain)
    as (Hfields & Htotal & _).
  destruct (Htotal Samples.old_data Samples.title_rent 1000%Q) as [normalized Hn].
  - vm_compute. reflexivity.
  - eexists. vm_compute. reflexivity.
  - vm_compute. reflexivity.
  - right. right. exists 100%Q. vm_compute. reflexivity.
  - left. vm_compute. reflexivity.
  - exists normalized. split; [exact Hn | exact (Hfields _ _ Hn)].
Defined.

(** ** The deal rating *)

Import PriceAnalyzer.


Lemma py_min_100_lt (x : Q) : (x < 100)%Q -> py_min 100 x = x.
Proof.
  intros H. unfold py_min. by rewrite (proj2 (Qltb_true x 100) H).
Qed.


Lemma clamp_bounds (x : Q) : (0 <= clamp x <= 100)%Q.
Proof.
  unfold clamp, py_max, py_min.
  destruct (Qltb x 100) eqn:E1.
  - apply Qltb_true in E1. destruct (Qltb 0 x) eqn:E2.
    + apply Qltb_true in E2. lra.
    + lra.
  - destruct (Qltb 0 100) eqn:E2; [lra |].
    apply Qltb_false in E2. lra.
Qed.



(** Rounding stays between integer bounds. *)
Lemma round_half_even_bounds (q : Q) (a b : Z) :
  (inject_Z a <= q <= inject_Z b)%Q -> (a <= round_half_even q <= b)%Z.
Proof.
  intros [Ha Hb]. unfold round_half_even.
  pose proof (Qfloor_resp_le _ _ Ha) as Hfa. rewrite Qfloor_Z in Hfa.
  pose proof (Qfloor_resp_le _ _ Hb) as Hfb. rewrite Qfloor_Z in Hfb.
  destruct (Z.eq_dec (Qfloor q) b) as [Heq | Hne].
  - assert (Qcompare (q - inject_Z (Qfloor q))%Q (1 # 2)%Q = Lt) as ->.
    { rewrite Heq. change (q - inject_Z b < 1 # 2)%Q. clear Ha. revert Hb.
      generalize (inject_Z b). intros y Hy. lra. }
    lia.
  - destruct (Qcompare _ _); [destruct (Z.even _) | |]; lia.
Qed.

Lemma round1_bounds (x : Q) : (0 <= x <= 100)%Q -> (0 <= round1 x <= 100)%Q.
Proof.
  intros [H0 H100]. unfold round1. rewrite Qred_correct.
  assert (inject_Z 0 <= x * 10 <= inject_Z 1000)%Q as Hb.
  { change (inject_Z 0) with 0%Q. change (inject_Z 1000) with 1000%Q. lra. }
  apply round_half_even_bounds in Hb as [Hlo Hhi].
  rewrite Zle_Qle in Hlo, Hhi.
  change (inject_Z 0) with 0%Q in Hlo. change (inject_Z 1000) with 1000%Q in Hhi.
  set (z := inject_Z (round_half_even (x * 10))) in *.
  split.
  - apply Qle_shift_div_l; lra.
  - apply Qle_shift_div_r; lra.
Qed.

Section DealRating.

Variable NeighborhoodStats_table : py (list NeighborhoodStats.row).

Local Abbreviation rate := (calculate_deal_rating NeighborhoodStats_table).
Local Abbreviation neighborhood_avg := (_get_neighborhood_avg NeighborhoodStats_table).

(** The rating of a record whose city, price and area are set and not
    zero, in a city with a non-zero average. *)
Lemma calculate_deal_rating_rated (property_data : dict) (city : str) (p s avg : Q) :
  property_data !! "city" = Some (PStr city) -> city <> [] ->
  property_data !! "price" = Some (PNum p) -> ~ p == 0 ->
  property_data !! "surfaceArea" = Some (PNum s) -> ~ s == 0 ->
  neighborhood_avg (PStr city) = Some avg -> ~ avg == 0 ->
  rate property_data =
    inr (Some (round1 (clamp
      (50 + ((avg - Qred (p / s)) / avg * 100) * (5 # 2))%Q))).
Proof.
  intros Hc Hne Hp Hp0 Hs Hs0 Ha Ha0. unfold calculate_deal_rating.
  rewrite (get_Some _ _ _ Hc), (get_Some _ _ _ Hp), (get_Some _ _ _ Hs).
  apply Q_is_zero_false in Hp0, Hs0, Ha0.
  assert (truthy (PStr city) = true) as -> by (by destruct city).
  simpl. rewrite Hp0, Hs0. simpl. rewrite Ha, Ha0. reflexivity.
Qed.


(** Neither is a record whose city has no usable average. *)
Lemma calculate_deal_rating_no_stats (property_data : dict) (p s : Q) :
  property_data !! "price" = Some (PNum p) ->
  property_data !! "surfaceArea" = Some (PNum s) ->
  neighborhood_avg (get property_data "city") = None \/
  (exists avg, neighborhood_avg (get property_data "city") = Some avg /\ avg == 0) ->
  rate property_data = inr None.
Proof.
  intros Hp Hs Ha. unfold calculate_deal_rating.
  rewrite (get_Some _ _ _ Hp), (get_Some _ _ _ Hs).
  destruct (negb _ || _) eqn:E; [reflexivity |].
  apply orb_false_iff in E as [Ht Hz]. simpl in Hz. simpl. rewrite Hz. simpl.
  destruct Ha as [-> | (avg & -> & Hz0)]; [reflexivity |].
  apply Q_is_zero_true in Hz0. by rewrite Hz0.
Qed.


End DealRating.

Lemma get_neighborhood_avg_no_row (rows : list NeighborhoodStats.row) (city : str) :
  (forall r, In r rows -> NeighborhoodStats.city r <> city) ->
  _get_neighborhood_avg (inr rows) (PStr city) = None.
Proof.
  intros H. unfold _get_neighborhood_avg.
  assert (List.filter (eq_city (PStr city)) rows = []) as ->; [| done].
  induction rows as [| r rows IH]; simpl; [done |].
  rewrite bool_decide_eq_false_2 by (apply H; by left).
  apply IH. intros r' Hr'. apply H. by right.
Qed.

(** ** The rating in double precision *)

Lemma is_double_Finite (q : Q) :
  Binary64.is_double q = true ->
  exists r, Binary64.nearest q = Binary64.Finite r /\ r == q.
Proof.
  unfold Binary64.is_double.
  destruct (Binary64.nearest q) as [r | |]; try discriminate.
  intros H. exists r. split; [done |]. by apply Qeq_bool_iff.
Qed.

Lemma of_number_0 : Binary64.of_number 0 = Binary64.Finite 0.
Proof. reflexivity. Qed.

Lemma of_number_100 : Binary64.of_number 100 = Binary64.Finite 100.
Proof. vm_compute. reflexivity. Qed.

Lemma of_number_50 : Binary64.of_number 50 = Binary64.Finite 50.
Proof. vm_compute. reflexivity. Qed.

Lemma of_number_5_2 : Binary64.of_number (5 # 2) = Binary64.Finite (5 # 2).
Proof. vm_compute. reflexivity. Qed.

(** [max(0, min(100, x))] is a number between 0 and 100 for every float,
    an infinity or a NaN included. *)
Lemma float_clamp_bounds (x : Binary64.float) :
  exists y,
    Binary64.py_max (Binary64.of_number 0)
      (Binary64.py_min (Binary64.of_number 100) x) = Binary64.Finite y /\
    (0 <= y <= 100)%Q.
Proof.
  rewrite of_number_0, of_number_100.
  unfold Binary64.py_max, Binary64.py_min, Binary64.lt.
  destruct x as [y | [|] |].
  - destruct (Qltb y 100) eqn:E1.
    + destruct (Qltb 0 y) eqn:E2.
      * exists y. split; [done |]. apply Qltb_true in E1, E2. lra.
      * exists 0%Q. split; [done |]. lra.
    + exists 100%Q. split; [done |]. lra.
  - exists 0%Q. split; [done |]. lra.
  - exists 100%Q. split; [done |]. lra.
  - exists 100%Q. split; [done |]. lra.
Qed.

(** The floats nearest to the 1001 decimals 0.0, 0.1, ..., 100.0 lie
    between 0 and 100. *)
Lemma nearest_tenths (n : Z) :
  (0 <= n <= 1000)%Z ->
  exists q, Binary64.nearest (Qred (inject_Z n / 10)) = Binary64.Finite q /\
    (0 <= q <= 100)%Q.
Proof.
  intros Hn.
  assert (forallb
            (fun n => match Binary64.nearest (Qred (inject_Z n / 10)) with
                      | Binary64.Finite q => Qle_bool 0 q && Qle_bool q 100
                      | _ => false
                      end)
            (map Z.of_nat (seq 0 1001)) = true) as Hall
    by (vm_compute; reflexivity).
  rewrite forallb_forall in Hall.
  specialize (Hall n). cbv beta in Hall.
  destruct (Binary64.nearest (Qred (inject_Z n / 10))) as [q | |].
  - exists q. split; [done |].
    rewrite <- !Qle_bool_iff. apply andb_true_iff, Hall.
    apply in_map_iff. exists (Z.to_nat n). split; [lia |].
    apply in_seq. lia.
  - assert (false = true); [| done]. apply Hall.
    apply in_map_iff. exists (Z.to_nat n). split; [lia |]. apply in_seq. lia.
  - assert (false = true); [| done]. apply Hall.
    apply in_map_iff. exists (Z.to_nat n). split; [lia |]. apply in_seq. lia.
Qed.

(** [round(x, 1)] of a float between 0 and 100 is the float nearest to one
    of these decimals. *)
Lemma float_round1_tenth (y : Q) :
  (0 <= y <= 100)%Q ->
  exists n q,
    (0 <= n <= 1000)%Z /\
    Binary64.round1 (Binary64.Finite y)
      = Binary64.nearest (Qred (inject_Z n / 10)) /\
    Binary64.round1 (Binary64.Finite y) = Binary64.Finite q /\
    (0 <= q <= 100)%Q.
Proof.
  intros [H0 H100].
  assert (0 <= round_half_even (y * 10) <= 1000)%Z as Hn.
  { apply round_half_even_bounds.
    change (inject_Z 0) with 0%Q. change (inject_Z 1000) with 1000%Q. lra. }
  destruct (nearest_tenths _ Hn) as (q & Hq & Hb).
  exists (round_half_even (y * 10)), q. done.
Qed.

(** *** Rounding errors *)

(** Rounding to an integer moves a number by at most one half. *)
Lemma round_half_even_error (q : Q) :
  (- (1 # 2) <= inject_Z (round_half_even q) - q <= 1 # 2)%Q.
Proof.
  unfold round_half_even.
  pose proof (Qfloor_le q) as Hlo. pose proof (Qlt_floor q) as Hhi.
  rewrite inject_Z_plus in Hhi. change (inject_Z 1) with 1%Q in Hhi.
  destruct (Qcompare (q - inject_Z (Qfloor q)) (1 # 2)) eqn:E.
  - apply Qeq_alt in E.
    destruct (Z.even (Qfloor q)); rewrite ?inject_Z_plus;
      change (inject_Z 1) with 1%Q; revert E Hlo Hhi;
      generalize (inject_Z (Qfloor q)); intros f E Hlo Hhi; lra.
  - apply Qlt_alt in E. revert E Hlo Hhi.
    generalize (inject_Z (Qfloor q)). intros f E Hlo Hhi. lra.
  - apply Qgt_alt in E. rewrite inject_Z_plus. change (inject_Z 1) with 1%Q.
    revert E Hlo Hhi. generalize (inject_Z (Qfloor q)). intros f E Hlo Hhi. lra.
Qed.

Lemma two_power_pos (k : Z) : (0 < 2 ^ k)%Q.
Proof. by apply Qpower_0_lt. Qed.

Lemma two_power_succ (k : Z) : (2 ^ (k + 1) == 2 * 2 ^ k)%Q.
Proof. rewrite Qpower_plus by done. change (2 ^ 1)%Q with 2%Q. ring. Qed.

Lemma two_power_log2 (n : positive) :
  (2 ^ Z.log2 (Zpos n) <= inject_Z (Zpos n) < 2 ^ (Z.log2 (Zpos n) + 1))%Q.
Proof.
  destruct (Z.log2_spec (Zpos n)) as [Hlo Hhi]; [done |].
  pose proof (Z.log2_nonneg (Zpos n)) as Hnn.
  change 2%Q with (inject_Z 2).
  rewrite <- !Zpower_Qpower by lia.
  rewrite <- Zle_Qle, <- Zlt_Qlt. split; [done |].
  by rewrite Z.add_1_r.
Qed.

Lemma Qdiv_le_cross (a b c d : Q) :
  (0 < b)%Q -> (0 < d)%Q -> (a * d <= c * b)%Q -> (a / b <= c / d)%Q.
Proof.
  intros Hb Hd H. apply Qle_shift_div_r; [done |].
  setoid_replace (c / d * b)%Q with (c * b / d)%Q using relation Qeq by (field; lra).
  by apply Qle_shift_div_l.
Qed.

Lemma floor_log2_le (a : Q) :
  (0 < a)%Q -> (2 ^ Binary64.floor_log2 a <= a)%Q.
Proof.
  intros Ha. unfold Binary64.floor_log2.
  set (k := (Z.log2 (Qnum a) - Z.log2 (Zpos (Qden a)))%Z).
  destruct (Qle_bool (2 ^ k) a) eqn:E; [by apply Qle_bool_iff |].
  destruct a as [n d]. simpl in k.
  assert (0 < n)%Z as Hn by (unfold Qlt in Ha; simpl in Ha; lia).
  destruct n as [| n | n]; try lia.
  destruct (two_power_log2 n) as [Hn1 _].
  destruct (two_power_log2 d) as [_ Hd2].
  subst k.
  assert (2 ^ (Z.log2 (Z.pos n) - Z.log2 (Z.pos d) - 1)
          == 2 ^ Z.log2 (Z.pos n) / 2 ^ (Z.log2 (Z.pos d) + 1))%Q as ->.
  { replace (Z.log2 (Z.pos n) - Z.log2 (Z.pos d) - 1)%Z
      with (Z.log2 (Z.pos n) - (Z.log2 (Z.pos d) + 1))%Z by lia.
    by apply Qpower_minus. }
  assert (Z.pos n # d == inject_Z (Z.pos n) / inject_Z (Z.pos d))%Q as ->
    by apply Qmake_Qdiv.
  pose proof (two_power_pos (Z.log2 (Z.pos d) + 1)) as P1.
  pose proof (two_power_pos (Z.log2 (Z.pos n))) as P2.
  assert (0 < inject_Z (Z.pos d))%Q as P3 by (by rewrite <- (Zlt_Qlt 0)).
  apply Qdiv_le_cross; [done | done |].
  revert Hn1 Hd2 P1 P2 P3.
  generalize (2 ^ Z.log2 (Z.pos n))%Q (2 ^ (Z.log2 (Z.pos d) + 1))%Q
    (inject_Z (Z.pos n)) (inject_Z (Z.pos d)).
  intros A B N D Hn1 Hd2 P1 P2 P3. nra.
Qed.


(** The error of a rounding: half a unit in the last place, which is at
    most [2 ^ -53] of the value, or [2 ^ -1075] for a subnormal. *)
Lemma nearest_error (x : Q) :
  (Qabs x <= 2 ^ 1023)%Q ->
  exists r, Binary64.nearest x = Binary64.Finite r /\
    (Qabs (r - x) <= (1 # 9007199254740992) * Qabs x + 2 ^ (-1075))%Q.
Proof.
  intros Hx. unfold Binary64.nearest.
  destruct (Q_is_zero x) eqn:Z.
  { exists 0%Q. split; [done |]. apply Q_is_zero_true in Z. rewrite Z.
    vm_compute. discriminate. }
  apply Q_is_zero_false in Z.
  assert (0 < Qabs x)%Q as Ha.
  { pose proof (Qabs_nonneg x) as H. apply Qle_lteq in H as [H | H]; [done |].
    exfalso. apply Z. destruct (Qlt_le_dec x 0) as [N | P].
    - rewrite Qabs_neg in H by lra. lra.
    - rewrite Qabs_pos in H by lra. lra. }
  set (a := Qabs x) in *.
  set (e := Z.max (Binary64.floor_log2 a - 52) (-1074)).
  set (m := round_half_even (a / 2 ^ e)).
  pose proof (two_power_pos e) as Hw.
  pose proof (round_half_even_error (a / 2 ^ e)) as Hm. fold m in Hm.
  assert ((1 # 2) * 2 ^ e <= (1 # 9007199254740992) * a + 2 ^ (-1075))%Q as Hulp.
  { pose proof (floor_log2_le a Ha) as Hfl.
    pose proof (two_power_pos (-1075)) as Heta.
    destruct (Z.max_spec (Binary64.floor_log2 a - 52) (-1074)) as [[_ He] | [_ He]];
      fold e in He; rewrite He.
    - change (-1074)%Z with (-1075 + 1)%Z. rewrite two_power_succ.
      revert Heta. generalize (2 ^ (-1075))%Q. intros eta Heta.
      lra.
    - replace (Binary64.floor_log2 a - 52)%Z
        with (Binary64.floor_log2 a + -52)%Z by lia.
      rewrite Qpower_plus by done.
      assert (2 ^ (-52) == 2 * (1 # 9007199254740992))%Q as -> by reflexivity.
      revert Hfl Heta. generalize (2 ^ Binary64.floor_log2 a)%Q (2 ^ (-1075))%Q.
      intros w eta Hfl Heta. lra. }
  assert (- ((1 # 2) * 2 ^ e) <= inject_Z m * 2 ^ e - a <= (1 # 2) * 2 ^ e)%Q as Hv.
  { assert (a / 2 ^ e * 2 ^ e == a)%Q as Hq by (field; lra).
    revert Hm Hq Hw. generalize (inject_Z m) (a / 2 ^ e)%Q (2 ^ e)%Q.
    intros M q w Hm Hq Hw. split; nra. }
  assert (Qle_bool (2 ^ 1024) (Qred (inject_Z m * 2 ^ e)) = false) as ->.
  { apply not_true_is_false. rewrite Qle_bool_iff, Qred_correct.
    change 1024%Z with (1023 + 1)%Z. rewrite two_power_succ.
    assert (1 <= 2 ^ 1023)%Q as H1 by (by vm_compute).
    assert (2 ^ (-1075) <= 1 # 4)%Q as H2 by (by vm_compute).
    revert Hx Hulp Hv H1 H2 Ha.
    generalize (inject_Z m * 2 ^ e)%Q (2 ^ e)%Q (2 ^ 1023)%Q (2 ^ (-1075))%Q.
    intros v w H eta Hx Hulp Hv H1 H2 Ha. lra. }
  eexists. split; [reflexivity |].
  apply Qabs_Qle_condition.
  destruct (Qltb x 0) eqn:S.
  - apply Qltb_true in S.
    assert (a == - x)%Q as Hax by (apply Qabs_neg; lra).
    rewrite Qred_correct.
    revert Hulp Hv Hax. generalize (inject_Z m * 2 ^ e)%Q (2 ^ e)%Q (2 ^ (-1075))%Q.
    intros v w eta Hulp Hv Hax. lra.
  - apply Qltb_false in S.
    assert (a == x)%Q as Hax by (by apply Qabs_pos).
    rewrite Qred_correct.
    revert Hulp Hv Hax. generalize (inject_Z m * 2 ^ e)%Q (2 ^ e)%Q (2 ^ (-1075))%Q.
    intros v w eta Hulp Hv Hax. lra.
Qed.

(** One rounding, given a bound on the magnitude of the exact value. *)
Lemma nearest_step (x bound : Q) :
  (- bound <= x <= bound)%Q -> (bound <= 2 ^ 1023)%Q ->
  exists r, Binary64.nearest x = Binary64.Finite r /\
    (x - (Binary64.unit_roundoff * bound + Binary64.half_least) <= r
     <= x + (Binary64.unit_roundoff * bound + Binary64.half_least))%Q.
Proof.
  intros Hb Hmax.
  assert (Qabs x <= bound)%Q as Hx by (by apply Qabs_Qle_condition).
  destruct (nearest_error x) as (r & Hr & He); [lra |].
  exists r. split; [done |]. apply Qabs_Qle_condition in He.
  unfold Binary64.unit_roundoff, Binary64.half_least.
  revert He Hx. generalize (Qabs x) (2 ^ (-1075))%Q. intros ax eta He Hx.
  clear Hmax. lra.
Qed.

Lemma half_least_small : (0 < Binary64.half_least <= 1 # 1000000000000000000000000000000000000000000000000000000000000000000000000000000000000000000000000000000000000000000000000000000000000000000000000000000000000000000000000000000000000000000000000000000000000000000000000000000000000000000000000000000000000000000000000000000000000000000000000000000000000)%Q.
Proof. split; by vm_compute. Qed.

Lemma half_least_scaled :
  (18446744073709551616 * Binary64.half_least <= 1 # 1000000000000000000000000000000000000000000000000000000000000000000000000000000000000000000000000000000000000000000000000000000000000000000000000000000000000000000000000000000000000000000000000000000000000000000000000000000000000000000000000000000000000000000000000000000000000000000000000000000000000)%Q.
Proof. by vm_compute. Qed.

Lemma two_power_1023_large :
  (1000000000000000000000000000000000000000000000000000000000000000000000 <= 2 ^ 1023)%Q.
Proof. by vm_compute. Qed.

(** The value before clamping, against the exact [300 - 250 * x] with
    [x = price / area / avg]. *)
Lemma float_pipeline_error (p s avg : Q) :
  (1 # 18446744073709551616 <= p <= 18446744073709551616)%Q ->
  (1 # 18446744073709551616 <= s <= 18446744073709551616)%Q ->
  (1 # 18446744073709551616 <= avg <= 18446744073709551616)%Q ->
  exists t,
    Binary64.add (Binary64.Finite 50)
      (Binary64.mul
         (Binary64.mul
            (Binary64.div
               (Binary64.sub (Binary64.Finite avg)
                  (Binary64.div (Binary64.Finite p) (Binary64.Finite s)))
               (Binary64.Finite avg))
            (Binary64.Finite 100))
         (Binary64.Finite (5 # 2))) = Binary64.Finite t /\
    (0 < p / s / avg)%Q /\
    (Qabs (t - (300 - 250 * (p / s / avg)))
       <= (1 # 1000000000000) * (1 + p / s / avg))%Q.
Proof.
  intros Hp Hs Ha.
  cbn [Binary64.div Binary64.sub Binary64.add Binary64.opp Binary64.mul].
  unfold Qdiv.
  assert (1 # 18446744073709551616 <= / s <= 18446744073709551616)%Q as Hi_s.
  { split; [apply Qle_shift_inv_l; lra | apply Qle_shift_inv_r; lra]. }
  assert (1 # 18446744073709551616 <= / avg <= 18446744073709551616)%Q as Hi_a.
  { split; [apply Qle_shift_inv_l; lra | apply Qle_shift_inv_r; lra]. }
  assert (avg * / avg == 1)%Q as Hinv by (apply Qmult_inv_r; lra).
  remember (/ avg)%Q as i eqn:Heqi.
  revert Hi_s. generalize (/ s)%Q. intros j Hj. rename Hi_a into Hi.
  (* the exact price per sqm and its ratio to the average *)
  assert (1 # 340282366920938463463374607431768211456 <= p * j
          <= 340282366920938463463374607431768211456)%Q as HR.
  { split; nra. }
  revert HR. generalize (p * j)%Q. intros R HR.
  assert (0 < R * i <= 6277101735386680763835789423207666416102355444464034512896)%Q as Hx.
  { split; [apply Qmult_lt_0_compat; lra | nra]. }
  pose proof half_least_small as He. pose proof half_least_scaled as Hes.
  assert (0 <= Binary64.half_least * i <= 1 # 1000000000000000000000000000000000000000000000000000000000000000000000000000000000000000000000000000000000000000000000000000000000000000000000000000000000000000000000000000000000000000000000000000000000000000000000000000000000000000000000000000000000000000000000000000000000000000000000000000000000000)%Q as Hei.
  { split; [apply Qmult_le_0_compat; lra | nra]. }
  pose proof two_power_1023_large as Hbig.
  assert (0 < Binary64.unit_roundoff <= 1 # 9000000000000000)%Q as Hu by (split; by vm_compute).
  (* price / area *)
  destruct (nearest_step R R) as (a & -> & Ea); [lra | lra |].
  cbn [Binary64.div Binary64.sub Binary64.add Binary64.opp Binary64.mul].
  (* avg - price_per_sqm *)
  destruct (nearest_step (avg + - a) (avg + 2 * R)) as (b & -> & Eb);
    [(unfold Binary64.unit_roundoff in *; lra) | lra |].
  cbn [Binary64.div Binary64.sub Binary64.add Binary64.opp Binary64.mul].
  unfold Qdiv. rewrite <- Heqi. clear Heqi.
  (* ... / avg *)
  assert ((a - R) * i <= (Binary64.unit_roundoff * R + Binary64.half_least) * i)%Q as Sa1
    by (apply Qmult_le_compat_r; lra).
  assert ((- (Binary64.unit_roundoff * R + Binary64.half_least)) * i <= (a - R) * i)%Q as Sa2
    by (apply Qmult_le_compat_r; lra).
  assert ((b - (avg + - a)) * i
          <= (Binary64.unit_roundoff * (avg + 2 * R) + Binary64.half_least) * i)%Q as Sb1
    by (apply Qmult_le_compat_r; lra).
  assert ((- (Binary64.unit_roundoff * (avg + 2 * R) + Binary64.half_least)) * i
          <= (b - (avg + - a)) * i)%Q as Sb2
    by (apply Qmult_le_compat_r; lra).
  destruct (nearest_step (b * i) (2 + 3 * (R * i))) as (c & -> & Ec);
    [(unfold Binary64.unit_roundoff in *; lra) | lra |].
  cbn [Binary64.div Binary64.sub Binary64.add Binary64.opp Binary64.mul].
  destruct (nearest_step (c * 100) (300 + 400 * (R * i))) as (d & -> & Ed);
    [(unfold Binary64.unit_roundoff in *; lra) | lra |].
  cbn [Binary64.div Binary64.sub Binary64.add Binary64.opp Binary64.mul].
  destruct (nearest_step (d * (5 # 2)) (1000 + 1100 * (R * i))) as (e & -> & Ee);
    [(unfold Binary64.unit_roundoff in *; lra) | lra |].
  cbn [Binary64.div Binary64.sub Binary64.add Binary64.opp Binary64.mul].
  destruct (nearest_step (50 + e) (1100 + 1200 * (R * i))) as (t & -> & Et);
    [(unfold Binary64.unit_roundoff in *; lra) | lra |].
  exists t. split; [done |]. split; [lra |].
  apply Qabs_Qle_condition. unfold Binary64.unit_roundoff in *. lra.
Qed.

Lemma float_clamp_Finite (t : Q) :
  Binary64.py_max (Binary64.Finite 0)
    (Binary64.py_min (Binary64.Finite 100) (Binary64.Finite t))
  = Binary64.Finite (clamp t).
Proof.
  unfold Binary64.py_max, Binary64.py_min, clamp, py_max, py_min.
  cbn [Binary64.lt]. destruct (Qltb t 100); cbn [Binary64.lt].
  - by destruct (Qltb 0 t).
  - by destruct (Qltb 0 100).
Qed.

(** Clamping brings a value and its approximation together: beyond the
    ends both are the end. *)
Lemma clamp_close (t T x : Q) :
  (0 < x)%Q -> (T == 300 - 250 * x)%Q ->
  (Qabs (t - T) <= (1 # 1000000000000) * (1 + x))%Q ->
  (Qabs (clamp t - clamp T) <= 3 # 1000000000000)%Q.
Proof.
  intros Hx HT Ht. apply Qabs_Qle_condition in Ht. apply Qabs_Qle_condition.
  unfold clamp, py_max, py_min.
  destruct (Qltb t 100) eqn:E1, (Qltb T 100) eqn:E2.
  - destruct (Qltb 0 t) eqn:E3, (Qltb 0 T) eqn:E4; Qltb_hyps; lra.
  - destruct (Qltb 0 t) eqn:E3, (Qltb 0 100) eqn:E4; Qltb_hyps; lra.
  - destruct (Qltb 0 100) eqn:E3, (Qltb 0 T) eqn:E4; Qltb_hyps; lra.
  - destruct (Qltb 0 100) eqn:E3; Qltb_hyps; lra.
Qed.

Lemma round1_error (y : Q) : (Qabs (round1 y - y) <= 1 # 20)%Q.
Proof.
  apply Qabs_Qle_condition. unfold round1. rewrite Qred_correct.
  pose proof (round_half_even_error (y * 10)) as H.
  unfold Qdiv. change (/ 10)%Q with (1 # 10)%Q.
  revert H. generalize (inject_Z (round_half_even (y * 10))). intros m H. lra.
Qed.

Section FloatRating.

Variable NeighborhoodStats_table : py (list NeighborhoodStats.row).

Local Abbreviation rate :=
  (Binary64.calculate_deal_rating NeighborhoodStats_table).
Local Abbreviation neighborhood_avg :=
  (_get_neighborhood_avg NeighborhoodStats_table).

(** The rating of a record whose city, price and area are set and not
    zero, in a city with a non-zero average, all of them binary64
    numbers. *)
Lemma float_rating_rated (property_data : dict) (city : str) (p s avg : Q) :
  property_data !! "city" = Some (PStr city) -> city <> [] ->
  property_data !! "price" = Some (PNum p) -> ~ p == 0 ->
  property_data !! "surfaceArea" = Some (PNum s) -> ~ s == 0 ->
  neighborhood_avg (PStr city) = Some avg -> ~ avg == 0 ->
  Binary64.is_double s = true -> Binary64.is_double avg = true ->
  rate property_data =
    inr (Some (Binary64.round1
      (Binary64.py_max (Binary64.of_number 0)
        (Binary64.py_min (Binary64.of_number 100)
          (Binary64.add (Binary64.of_number 50)
            (Binary64.mul
              (Binary64.mul
                (Binary64.div
                  (Binary64.sub (Binary64.of_number avg)
                    (Binary64.div (Binary64.of_number p) (Binary64.of_number s)))
                  (Binary64.of_number avg))
                (Binary64.of_number 100))
              (Binary64.of_number (5 # 2)))))))).
Proof.
  intros Hc Hne Hp Hp0 Hs Hs0 Ha Ha0 Ds Da.
  unfold Binary64.calculate_deal_rating.
  rewrite (get_Some _ _ _ Hc), (get_Some _ _ _ Hp), (get_Some _ _ _ Hs).
  assert (truthy (PStr city) = true) as -> by (by destruct city).
  destruct (is_double_Finite _ Ds) as (rs & Es & Hrs).
  destruct (is_double_Finite _ Da) as (ra & Ea & Hra).
  assert (Q_is_zero rs = false) as Zs by (apply Q_is_zero_false; by rewrite Hrs).
  assert (Q_is_zero ra = false) as Za by (apply Q_is_zero_false; by rewrite Hra).
  apply Q_is_zero_false in Hp0, Hs0, Ha0.
  cbn [truthy eq_zero negb andb orb]. rewrite Hp0, Hs0.
  cbn [negb andb orb Binary64.truediv_values].
  rewrite Ha, Ha0.
  set (f100 := Binary64.of_number 100). set (f50 := Binary64.of_number 50).
  set (f0 := Binary64.of_number 0). set (f25 := Binary64.of_number (5 # 2)).
  unfold Binary64.of_number. rewrite Es, Ea.
  cbn [Binary64.truediv]. rewrite Zs. cbn [bind ret Binary64.truediv].
  rewrite Za. reflexivity.
Qed.

(** A record whose city, area or price is missing, null, empty or zero is
    not rated. *)
Lemma float_rating_falsy (property_data : dict) :
  truthy (get property_data "city") = false \/
  truthy (get property_data "surfaceArea") = false \/
  truthy (get property_data "price") = false ->
  rate property_data = inr None.
Proof.
  intros H. unfold Binary64.calculate_deal_rating.
  destruct H as [-> | [-> | ->]]; rewrite ?andb_false_r; reflexivity.
Qed.

(** Neither is a record whose city has no usable average. *)
Lemma float_rating_no_stats (property_data : dict) (p s : Q) :
  property_data !! "price" = Some (PNum p) ->
  property_data !! "surfaceArea" = Some (PNum s) ->
  Binary64.is_double s = true ->
  neighborhood_avg (get property_data "city") = None \/
  (exists avg, neighborhood_avg (get property_data "city") = Some avg /\ avg == 0) ->
  rate property_data = inr None.
Proof.
  intros Hp Hs Ds Ha. unfold Binary64.calculate_deal_rating.
  rewrite (get_Some _ _ _ Hp), (get_Some _ _ _ Hs).
  destruct (negb _ || _) eqn:E; [reflexivity |].
  apply orb_false_iff in E as [Ht Hz]. cbn [eq_zero] in Hz.
  destruct (is_double_Finite _ Ds) as (rs & Es & Hrs).
  assert (Q_is_zero rs = false) as Zs.
  { apply Q_is_zero_false. rewrite Hrs. by apply Q_is_zero_false. }
  cbn [Binary64.truediv_values].
  assert (exists x, Binary64.truediv (Binary64.of_number p) (Binary64.of_number s)
                    = inr x) as [x ->].
  { unfold Binary64.of_number. rewrite Es. cbn [Binary64.truediv].
    rewrite Zs. by eauto. }
  cbn [bind ret].
  destruct Ha as [-> | (avg & -> & Hz0)]; [reflexivity |].
  apply Q_is_zero_true in Hz0. by rewrite Hz0.
Qed.

(** A rating, when there is one, is the float nearest to a decimal with
    one digit between 0 and 100. *)
Lemma float_rating_Some (property_data : dict) (r : Binary64.float) :
  rate property_data = inr (Some r) ->
  exists n q,
    (0 <= n <= 1000)%Z /\
    r = Binary64.nearest (Qred (inject_Z n / 10)) /\
    r = Binary64.Finite q /\ (0 <= q <= 100)%Q.
Proof.
  unfold Binary64.calculate_deal_rating.
  destruct (negb _ || _); [discriminate |]. intros H. py_inv H.
  destruct (neighborhood_avg _) as [avg |]; [| discriminate].
  destruct (Q_is_zero avg); [discriminate |]. py_inv H.
  unfold ret in H. apply (inj inr), (inj Some) in H. subst r.
  match goal with
  | |- context [Binary64.py_max _ (Binary64.py_min _ ?x)] =>
      destruct (float_clamp_bounds x) as (y & -> & Hy)
  end.
  by apply float_round1_tenth.
Qed.

(** The rating against the exact value of the clamp: rounding in the
    five operations moves the value by less than [10 ^ -11], the rounding to
    one decimal by at most 0.05. *)
Lemma float_rating_close (property_data : dict) (city : str) (p s avg : Q) :
  property_data !! "city" = Some (PStr city) -> city <> [] ->
  property_data !! "price" = Some (PNum p) ->
  property_data !! "surfaceArea" = Some (PNum s) ->
  neighborhood_avg (PStr city) = Some avg ->
  Binary64.is_double p = true -> Binary64.is_double s = true ->
  Binary64.is_double avg = true ->
  (1 # 18446744073709551616 <= p <= 18446744073709551616)%Q ->
  (1 # 18446744073709551616 <= s <= 18446744073709551616)%Q ->
  (1 # 18446744073709551616 <= avg <= 18446744073709551616)%Q ->
  exists q,
    rate property_data = inr (Some (Binary64.Finite q)) /\
    (Qabs (q - clamp (50 + ((avg - p / s) / avg * 100) * (5 # 2)))
       <= (1 # 20) + (1 # 1000000000))%Q.
Proof.
  intros Hc Hne Hp Hs Ha Dp Ds Da Rp Rs Ra.
  rewrite (float_rating_rated property_data city p s avg)
    by (try done; intros Z; rewrite Z in *; lra).
  destruct (is_double_Finite _ Dp) as (rp & Ep & Hrp).
  destruct (is_double_Finite _ Ds) as (rs & Es & Hrs).
  destruct (is_double_Finite _ Da) as (ra & Ea & Hra).
  rewrite of_number_0, of_number_100, of_number_50, of_number_5_2.
  unfold Binary64.of_number. rewrite Ep, Es, Ea.
  destruct (float_pipeline_error rp rs ra) as (t & -> & Hx & Ht); [lra | lra | lra |].
  rewrite float_clamp_Finite. cbn [Binary64.round1].
  pose proof (clamp_bounds t) as Hct.
  pose proof (round1_bounds _ Hct) as Hrt.
  pose proof two_power_1023_large as Hbig.
  destruct (nearest_step (round1 (clamp t)) 100) as (q & -> & Eq); [lra | lra |].
  exists q. split; [done |].
  assert (50 + ((avg - p / s) / avg * 100) * (5 # 2)
          == 300 - 250 * (rp / rs / ra))%Q as HT.
  { rewrite Hrp, Hrs, Hra. field. lra. }
  rewrite <- HT in Ht at 1.
  pose proof (clamp_close t _ _ Hx HT Ht) as Hclamp.
  pose proof (round1_error (clamp t)) as Hround.
  pose proof half_least_small as He.
  assert (0 < Binary64.unit_roundoff <= 1 # 9000000000000000)%Q as Hu
    by (split; by vm_compute).
  apply Qabs_Qle_condition in Hclamp, Hround. apply Qabs_Qle_condition.
  revert Eq Hclamp Hround. clear - He Hu.
  generalize (round1 (clamp t))
    (clamp (50 + (avg - p / s) / avg * 100 * (5 # 2))) (clamp t).
  intros y cT ct Eq Hclamp Hround. lra.
Qed.

End FloatRating.

(** C1 (as amended): for a record whose city, price and area are present
    and not zero, in a city whose first NeighborhoodStats row has a non-null,
    non-zero average, the rating is [round(clamp(50 + discount * 2.5), 1)]
    with [discount = (avg - price / area) / avg * 100], every operation
    being the one of binary64 floats; a rating is always the float nearest
    to a decimal with one digit between 0.0 and 100.0, and for a price, an
    area and an average between [2 ^ -64] and [2 ^ 64] it is within
    [0.05 + 10 ^ -9] of the exact value of the clamp; there is no rating
    when the city, the price or the area is missing, null or zero, when the
    city has no row, when the average is null or zero, and when the query
    raises. *)
Theorem calculate_deal_rating_rounded_clamp :
  (forall stats property_data city p s avg,
      property_data !! "city" = Some (PStr city) -> city <> [] ->
      property_data !! "price" = Some (PNum p) -> ~ p == 0 ->
      property_data !! "surfaceArea" = Some (PNum s) -> ~ s == 0 ->
      _get_neighborhood_avg stats (PStr city) = Some avg -> ~ avg == 0 ->
      Binary64.is_double p = true -> Binary64.is_double s = true ->
      Binary64.is_double avg = true ->
      let price_per_sqm :=
        Binary64.div (Binary64.of_number p) (Binary64.of_number s) in
      let avg_price_per_sqm := Binary64.of_number avg in
      let discount :=
        Binary64.mul
          (Binary64.div (Binary64.sub avg_price_per_sqm price_per_sqm)
             avg_price_per_sqm)
          (Binary64.of_number 100) in
      let deal_rating :=
        Binary64.add (Binary64.of_number 50)
          (Binary64.mul discount (Binary64.of_number (5 # 2))) in
      Binary64.calculate_deal_rating stats property_data =
        inr (Some (Binary64.round1
          (Binary64.py_max (Binary64.of_number 0)
             (Binary64.py_min (Binary64.of_number 100) deal_rating))))) /\
  (forall stats property_data r,
      Binary64.calculate_deal_rating stats property_data = inr (Some r) ->
      exists n q,
        (0 <= n <= 1000)%Z /\
        r = Binary64.nearest (Qred (inject_Z n / 10)) /\
        r = Binary64.Finite q /\ (0 <= q <= 100)%Q) /\
  (forall stats property_data city p s avg,
      property_data !! "city" = Some (PStr city) -> city <> [] ->
      property_data !! "price" = Some (PNum p) ->
      property_data !! "surfaceArea" = Some (PNum s) ->
      _get_neighborhood_avg stats (PStr city) = Some avg ->
      Binary64.is_double p = true -> Binary64.is_double s = true ->
      Binary64.is_double avg = true ->
      (1 # 18446744073709551616 <= p <= 18446744073709551616)%Q ->
      (1 # 18446744073709551616 <= s <= 18446744073709551616)%Q ->
      (1 # 18446744073709551616 <= avg <= 18446744073709551616)%Q ->
      exists q,
        Binary64.calculate_deal_rating stats property_data
          = inr (Some (Binary64.Finite q)) /\
        (Qabs (q - clamp (50 + ((avg - p / s) / avg * 100) * (5 # 2)))
           <= (1 # 20) + (1 # 1000000000))%Q) /\
  (forall stats property_data,
      truthy (get property_data "city") = false \/
      truthy (get property_data "surfaceArea") = false \/
      truthy (get property_data "price") = false ->
      Binary64.calculate_deal_rating stats property_data = inr None) /\
  (forall stats property_data p s,
      property_data !! "price" = Some (PNum p) ->
      property_data !! "surfaceArea" = Some (PNum s) ->
      Binary64.is_double s = true ->
      _get_neighborhood_avg stats (get property_data "city") = None \/
      (exists avg,
          _get_neighborhood_avg stats (get property_data "city") = Some avg /\
          avg == 0) ->
      Binary64.calculate_deal_rating stats property_data = inr None) /\
  (forall e city, _get_neighborhood_avg (inl e) city = None) /\
  (forall rows city,
      (forall r, In r rows -> NeighborhoodStats.city r <> city) ->
      _get_neighborhood_avg (inr rows) (PStr city) = None).
Proof.
  split.
  { intros stats property_data city p s avg Hc Hne Hp Hp0 Hs Hs0 Ha Ha0 _ Ds Da.
    cbv zeta. by apply (float_rating_rated stats property_data city p s avg). }
  split; [exact float_rating_Some |].
  split; [exact float_rating_close |].
  split; [exact float_rating_falsy |].
  split; [exact float_rating_no_stats |].
  split; [reflexivity | exact get_neighborhood_avg_no_row].
Qed.

(** The ratings Python computes at 2.9, 800.2 and 2003.5 per sqm: 58.3,
    99.9 and 99.7, the floats nearest to these decimals.  (With exact
    arithmetic the last two are ties, 99.95 and 99.65.) *)
Example float_ratings :
  Binary64.calculate_deal_rating Samples.stats_3 Samples.listing_290
    = inr (Some (Binary64.nearest (583 # 10))) /\
  Binary64.calculate_deal_rating (MoreSamples.tunis_stats 1000)
      (MoreSamples.listing 80020 100)
    = inr (Some (Binary64.nearest (999 # 10))) /\
  Binary64.calculate_deal_rating (MoreSamples.tunis_stats 2500)
      (MoreSamples.listing 200350 100)
    = inr (Some (Binary64.nearest (997 # 10))) /\
  Binary64.nearest (999 # 10)
    = Binary64.Finite (3514918771674317 # 35184372088832).
Proof. vm_compute. repeat split. Qed.

(** C1 (counterexample): at 2.9 per sqm against an average of 3 the
    formula of the claim gives 175/3 = 58.33... (in floats
    58.33333333333334), the code returns 58.3. *)
Lemma deal_rating_is_rounded :
  Binary64.calculate_deal_rating Samples.stats_3 Samples.listing_290
    = inr (Some (Binary64.Finite (4102497785557811 # 70368744177664))) /\
  Binary64.py_max (Binary64.of_number 0)
    (Binary64.py_min (Binary64.of_number 100)
       (Binary64.add (Binary64.of_number 50)
          (Binary64.mul
             (Binary64.mul
                (Binary64.div
                   (Binary64.sub (Binary64.of_number 3)
                      (Binary64.div (Binary64.of_number 290) (Binary64.of_number 100)))
                   (Binary64.of_number 3))
                (Binary64.of_number 100))
             (Binary64.of_number (5 # 2)))))
    = Binary64.Finite (2052421705181867 # 35184372088832) /\
  clamp (50 + ((3 - 290 / 100) / 3 * 100) * (5 # 2))%Q == 175 # 3 /\
  ~ 4102497785557811 # 70368744177664 == 2052421705181867 # 35184372088832 /\
  ~ 4102497785557811 # 70368744177664 == 175 # 3.
Proof.
  split; [vm_compute; reflexivity |]. split; [vm_compute; reflexivity |].
  split; [vm_compute; reflexivity |]. split; vm_compute; discriminate.
Qed.

(** The amended C1 on a listing at 800.2 per sqm against an average of
    1000: the rating is the float 99.9. *)
Lemma calculate_deal_rating_rounded_clamp_witness :
  Binary64.calculate_deal_rating (MoreSamples.tunis_stats 1000)
      (MoreSamples.listing 80020 100)
    = inr (Some (Binary64.Finite (3514918771674317 # 35184372088832))).
Proof.
  rewrite (proj1 calculate_deal_rating_rounded_clamp
             (MoreSamples.tunis_stats 1000) (MoreSamples.listing 80020 100)
             (cp "Tunis") 80020%Q 100%Q 1000%Q).
  - vm_compute. reflexivity.
  - vm_compute. reflexivity.
  - discriminate.
  - vm_compute. reflexivity.
  - vm_compute. discriminate.
  - vm_compute. reflexivity.
  - vm_compute. discriminate.
  - vm_compute. reflexivity.
  - vm_compute. discriminate.
  - vm_compute. reflexivity.
  - vm_compute. reflexivity.
  - vm_compute. reflexivity.
Defined.




(** ** The aggregator *)

Lemma filter_filter_andb {A} (f g : A -> bool) (l : list A) :
  List.filter f (List.filter g l) = List.filter (fun a => g a && f a) l.
Proof.
  induction l as [| a l IH]; simpl; [done |].
  destruct (g a); simpl; [destruct (f a) |]; by rewrite IH.
Qed.

Lemma where_clause_true (p : Properties.row) :
  Sql.where_clause p = true ->
  is_Some (Properties.city p) /\
  exists s, Properties.surface_area p = Some s /\ (0 < s)%Q.
Proof.
  unfold Sql.where_clause.
  destruct (Properties.city p), (Properties.surface_area p) as [s |];
    try discriminate.
  intros H. apply Qltb_true in H. eauto.
Qed.

Lemma where_clause_no_area (p : Properties.row) :
  Properties.surface_area p = None \/
  (exists s, Properties.surface_area p = Some s /\ (s <= 0)%Q) ->
  Sql.where_clause p = false.
Proof.
  unfold Sql.where_clause. intros [-> | (s & -> & Hs)].
  - by destruct (Properties.city p).
  - destruct (Properties.city p); [| done]. by apply Qltb_false.
Qed.

Lemma select_drops_filtered (before after : list Properties.row) (p : Properties.row) :
  Sql.where_clause p = false ->
  Sql.select (before ++ p :: after) = Sql.select (before ++ after).
Proof.
  intros H. unfold Sql.select. rewrite !List.filter_app. simpl. by rewrite H.
Qed.

Lemma excluded_key_aggregate (k : str * option str) (rows : list Properties.row) :
  Sql.excluded_key (Sql.aggregate k rows) = k.
Proof. by destruct k. Qed.

Lemma select_In (properties : list Properties.row) (e : Sql.excluded) :
  In e (Sql.select properties) ->
  e = Sql.aggregate (Sql.excluded_key e)
        (List.filter (fun p => Sql.where_clause p && Sql.in_group (Sql.excluded_key e) p)
           properties).
Proof.
  unfold Sql.select. intros H. apply in_map_iff in H as (k & <- & _).
  by rewrite excluded_key_aggregate, filter_filter_andb.
Qed.

(** C8 (as amended): a property whose [surface_area] is missing or not
    positive is left out of the whole aggregation: with or without it the
    statement selects, and writes, the same rows; a locality's
    [total_listings] counts, and its average is taken over, exactly the
    listings of the locality that have a positive area. *)
Theorem select_leaves_out_listings_without_area :
  (forall nulls_not_distinct now before p after stats,
      Properties.surface_area p = None \/
      (exists s, Properties.surface_area p = Some s /\ (s <= 0)%Q) ->
      Sql.select (before ++ p :: after) = Sql.select (before ++ after) /\
      Sql.update_neighborhood_stats nulls_not_distinct now (before ++ p :: after) stats
        = Sql.update_neighborhood_stats nulls_not_distinct now (before ++ after) stats) /\
  (forall properties e,
      In e (Sql.select properties) ->
      let counted :=
        List.filter
          (fun p => Sql.where_clause p && Sql.in_group (Sql.excluded_key e) p)
          properties in
      Sql.total_listings e = length counted /\
      Sql.avg_price_per_sqm e = Sql.AVG (map Sql.price_per_sqm counted) /\
      (forall p, In p counted ->
         exists s, Properties.surface_area p = Some s /\ (0 < s)%Q)).
Proof.
  split.
  - intros nulls_not_distinct now before p after stats H.
    apply where_clause_no_area in H. unfold Sql.update_neighborhood_stats.
    by rewrite (select_drops_filtered _ _ _ H).
  - intros properties e H counted. subst counted.
    pose proof (select_In _ _ H) as He.
    split; [by rewrite He at 1 |]. split; [by rewrite He at 1 |].
    intros p Hp. apply filter_In in Hp as [_ Hp].
    apply andb_true_iff in Hp as [Hp _].
    by apply where_clause_true in Hp as [_ Hp].
Qed.

(** C8 (counterexample): two listings of one locality, one without an
    area: [total_listings] is 1, the listing without an area is not
    counted. *)
Lemma total_listings_skips_listing_without_area :
  length (List.filter (Sql.in_group (cp "Tunis", Samples.marsa)) Samples.two_in_marsa) = 2 /\
  map Sql.excluded_key (Sql.select Samples.two_in_marsa) = [(cp "Tunis", Samples.marsa)] /\
  map Sql.total_listings (Sql.select Samples.two_in_marsa) = [1].
Proof. vm_compute. repeat split. Qed.

(** The amended C8 on those two listings. *)
Lemma select_leaves_out_witness :
  Sql.select Samples.two_in_marsa
    = Sql.select [Samples.property (cp "Tunis") Samples.marsa 200000 (Some 100%Q)].
Proof.
  apply (proj1 select_leaves_out_listings_without_area false Samples.t1
           [Samples.property (cp "Tunis") Samples.marsa 200000 (Some 100%Q)]
           (Samples.property (cp "Tunis") Samples.marsa 150000 None) [] []).
  left. reflexivity.
Defined.

(** ** The conflict action *)

Lemma NoDup_map_inj_In {A B} (f : A -> B) (l : list A) (a b : A) :
  NoDup (map f l) -> In a l -> In b l -> f a = f b -> a = b.
Proof.
  induction l as [| x l IH]; simpl; [done |].
  intros Hnd [-> | Ha] [-> | Hb] Hf; try done.
  - apply NoDup_cons_1_1 in Hnd. exfalso. apply Hnd.
    apply list_elem_of_In, in_map_iff. exists b. by split.
  - apply NoDup_cons_1_1 in Hnd. exfalso. apply Hnd.
    apply list_elem_of_In, in_map_iff. exists a. by split.
  - apply NoDup_cons_1_2 in Hnd. by apply IH.
Qed.

Lemma find_all_false {A} (f : A -> bool) (l : list A) :
  (forall a, In a l -> f a = false) -> List.find f l = None.
Proof.
  induction l as [| a l IH]; simpl; [done |]. intros H.
  rewrite (H a) by (by left). apply IH. intros b Hb. apply H. by right.
Qed.

Lemma select_keys_NoDup (properties : list Properties.row) :
  NoDup (map Sql.excluded_key (Sql.select properties)).
Proof.
  unfold Sql.select. rewrite map_map.
  erewrite map_ext by (intros; apply excluded_key_aggregate).
  rewrite map_id. apply NoDup_remove_dups.
Qed.

Section OnConflict.

Variable nulls_not_distinct : bool.
Variable now : str.

Local Abbreviation conflicts := (Sql.conflicts nulls_not_distinct).
Local Abbreviation do_update := (Sql.do_update now).
Local Abbreviation inserted := (Sql.inserted now).
Local Abbreviation refreshed := (Sql.refreshed nulls_not_distinct now).
Local Abbreviation insert_on_conflict :=
  (Sql.insert_on_conflict nulls_not_distinct now).

(** A row conflicts with a selected row only when both name the same
    locality ... *)
Lemma conflicts_key (e : Sql.excluded) (r : NeighborhoodStats.row) :
  conflicts e r = true -> Sql.row_key r = Sql.excluded_key e.
Proof.
  unfold Sql.conflicts, Sql.row_key, Sql.excluded_key.
  intros H. apply andb_true_iff in H as [Hc Hr].
  apply bool_decide_eq_true in Hc. rewrite Hc. f_equal.
  destruct (NeighborhoodStats.region r), (Sql.region e); try discriminate.
  - apply bool_decide_eq_true in Hr. by rewrite Hr.
  - reflexivity.
Qed.

(** ... and whether it does depends on the row's locality only. *)
Lemma conflicts_row_key (e : Sql.excluded) (r r' : NeighborhoodStats.row) :
  Sql.row_key r = Sql.row_key r' -> conflicts e r = conflicts e r'.
Proof.
  unfold Sql.row_key, Sql.conflicts. intros [= -> ->]. reflexivity.
Qed.

Lemma row_key_do_update (e : Sql.excluded) (r : NeighborhoodStats.row) :
  Sql.row_key (do_update e r) = Sql.row_key r.
Proof. reflexivity. Qed.

Lemma row_key_inserted (e : Sql.excluded) :
  Sql.row_key (inserted e) = Sql.excluded_key e.
Proof. reflexivity. Qed.

Lemma row_key_refreshed (selected : list Sql.excluded) (r : NeighborhoodStats.row) :
  Sql.row_key (refreshed selected r) = Sql.row_key r.
Proof. unfold Sql.refreshed. by destruct (List.find _ _). Qed.

Lemma existsb_conflicts_map (e : Sql.excluded)
    (g : NeighborhoodStats.row -> NeighborhoodStats.row)
    (stats : list NeighborhoodStats.row) :
  (forall r, Sql.row_key (g r) = Sql.row_key r) ->
  existsb (conflicts e) (map g stats) = existsb (conflicts e) stats.
Proof.
  intros Hg. induction stats as [| r stats IH]; simpl; [done |].
  by rewrite IH, (conflicts_row_key e _ _ (Hg r)).
Qed.

(** A selected row of another locality leaves a row alone. *)
Lemma refreshed_other_keys (selected : list Sql.excluded) (r : NeighborhoodStats.row) :
  (forall e, In e selected -> Sql.excluded_key e <> Sql.row_key r) ->
  refreshed selected r = r.
Proof.
  intros H. unfold Sql.refreshed. rewrite find_all_false; [done |].
  intros e He. destruct (conflicts e r) eqn:E; [| done].
  apply conflicts_key in E. by destruct (H e He).
Qed.

(** The statement in closed form: every stored row stays, refreshed when
    a selected row conflicts with it, and each selected row that conflicts
    with no stored row is appended. *)
Lemma fold_insert_on_conflict (selected : list Sql.excluded)
    (stats : list NeighborhoodStats.row) :
  NoDup (map Sql.excluded_key selected) ->
  fold_left insert_on_conflict selected stats =
    map (refreshed selected) stats ++
    map inserted
      (List.filter (fun e => negb (existsb (conflicts e) stats)) selected).
Proof.
  revert stats. induction selected as [| e selected IH]; intros stats Hnd.
  { simpl. rewrite app_nil_r. unfold Sql.refreshed. simpl. by rewrite map_id. }
  simpl in Hnd. pose proof (NoDup_cons_1_1 _ _ Hnd) as Hfresh.
  apply NoDup_cons_1_2 in Hnd.
  assert (forall e', In e' selected -> Sql.excluded_key e' <> Sql.excluded_key e)
    as Hother.
  { intros e' He' Heq. apply Hfresh. rewrite <- Heq.
    apply list_elem_of_In, in_map_iff. by exists e'. }
  simpl. rewrite (IH _ Hnd). unfold Sql.insert_on_conflict.
  destruct (existsb (conflicts e) stats) eqn:E; simpl.
  - f_equal.
    + rewrite map_map. apply map_ext. intros r.
      unfold Sql.refreshed at 2. simpl.
      destruct (conflicts e r) eqn:Er; [| done].
      apply refreshed_other_keys. intros e' He'.
      rewrite row_key_do_update, (conflicts_key _ _ Er). by apply Hother.
    + f_equal. apply filter_ext. intros e'. f_equal.
      apply existsb_conflicts_map. intros r.
      by destruct (conflicts e r).
  - rewrite map_app. simpl. rewrite <- app_assoc. simpl. f_equal.
    + apply map_ext_in. intros r Hr. unfold Sql.refreshed at 2. simpl.
      destruct (conflicts e r) eqn:Er; [| done].
      assert (existsb (conflicts e) stats = true); [| congruence].
      apply existsb_exists. by exists r.
    + f_equal.
      * apply refreshed_other_keys. intros e' He'.
        rewrite row_key_inserted. by apply Hother.
      * f_equal. apply filter_ext_in. intros e' He'. f_equal.
        rewrite existsb_app. simpl. rewrite orb_false_r.
        destruct (conflicts e' (inserted e)) eqn:Ec; [| by rewrite orb_false_r].
        apply conflicts_key in Ec. rewrite row_key_inserted in Ec.
        by destruct (Hother e' He').
Qed.

End OnConflict.

(** The selected localities are those of the listings that pass the
    [WHERE]. *)
Lemma select_keys (properties : list Properties.row) (k : str * option str) :
  In k (map Sql.excluded_key (Sql.select properties)) <->
  exists p, In p properties /\ Sql.where_clause p = true /\ Sql.group_key p = Some k.
Proof.
  unfold Sql.select. rewrite map_map.
  erewrite map_ext by (intros; apply excluded_key_aggregate).
  rewrite map_id. unfold Sql.group_keys.
  rewrite <- list_elem_of_In, elem_of_remove_dups, list_elem_of_omap.
  split.
  - intros (p & Hp & Hk). apply list_elem_of_In, filter_In in Hp as [Hp Hw]. eauto.
  - intros (p & Hp & Hw & Hk). exists p. split; [| done].
    apply list_elem_of_In, filter_In. done.
Qed.

(** C9 (as amended): a run never removes a row of NeighborhoodStats.  Every
    stored row stays: with its four statistics replaced when a selected
    locality conflicts with it, untouched (stale counts included) when its
    locality is not selected; one row is appended for each selected
    locality that conflicts with no stored row.  So after the run every
    selected locality has a row with the newly computed statistics, and the
    localities of the table are the stored ones together with the selected
    ones, where the selected localities are those of the listings with a
    city and a positive area. *)
Theorem update_neighborhood_stats_never_prunes
    (nulls_not_distinct : bool) (now : str)
    (properties : list Properties.row) (stats : list NeighborhoodStats.row) :
  let selected := Sql.select properties in
  let stats' :=
    Sql.update_neighborhood_stats nulls_not_distinct now properties stats in
  stats' =
    map (Sql.refreshed nulls_not_distinct now selected) stats ++
    map (Sql.inserted now)
      (List.filter
         (fun e => negb (existsb (Sql.conflicts nulls_not_distinct e) stats))
         selected) /\
  (forall r, In r stats -> exists r', In r' stats' /\ Sql.row_key r' = Sql.row_key r) /\
  (forall r, In r stats ->
     (forall e, In e selected -> Sql.excluded_key e <> Sql.row_key r) ->
     In r stats') /\
  (forall e, In e selected ->
     exists r', In r' stats' /\ Sql.row_key r' = Sql.excluded_key e /\
       NeighborhoodStats.avgPricePerSqm r' = Sql.avg_price_per_sqm e /\
       NeighborhoodStats.medianPrice r' = Sql.median_price e /\
       NeighborhoodStats.totalListings r' = Sql.total_listings e /\
       NeighborhoodStats.activeListings r' = Sql.active_listings e) /\
  (forall r', In r' stats' ->
     (exists r, In r stats /\ Sql.row_key r = Sql.row_key r') \/
     (exists e, In e selected /\ Sql.excluded_key e = Sql.row_key r')) /\
  (forall k, In k (map Sql.excluded_key selected) <->
     exists p, In p properties /\ Sql.where_clause p = true /\
       Sql.group_key p = Some k).
Proof.
  intros selected stats'.
  pose proof (select_keys_NoDup properties) as Hnd. fold selected in Hnd.
  assert (stats' =
    map (Sql.refreshed nulls_not_distinct now selected) stats ++
    map (Sql.inserted now)
      (List.filter
         (fun e => negb (existsb (Sql.conflicts nulls_not_distinct e) stats))
         selected)) as Hclosed.
  { subst stats'. unfold Sql.update_neighborhood_stats.
    by apply fold_insert_on_conflict. }
  split; [exact Hclosed |]. rewrite Hclosed. clear Hclosed stats'.
  split; [| split; [| split; [| split]]].
  - intros r Hr. exists (Sql.refreshed nulls_not_distinct now selected r).
    split; [| apply row_key_refreshed]. apply in_or_app. left. by apply in_map.
  - intros r Hr Hstale. apply in_or_app. left.
    rewrite <- (refreshed_other_keys nulls_not_distinct now selected r Hstale).
    by apply in_map.
  - intros e He.
    destruct (existsb (Sql.conflicts nulls_not_distinct e) stats) eqn:E.
    + apply existsb_exists in E as (r & Hr & Hc).
      exists (Sql.refreshed nulls_not_distinct now selected r).
      split; [apply in_or_app; left; by apply in_map |].
      unfold Sql.refreshed.
      destruct (List.find _ selected) as [e' |] eqn:F.
      * apply find_some in F as [He' Hc'].
        assert (e' = e) as ->.
        { apply (NoDup_map_inj_In Sql.excluded_key selected); try done.
          apply conflicts_key in Hc, Hc'. congruence. }
        split; [| done]. simpl. by apply conflicts_key in Hc.
      * apply (find_none _ _ F) in He. simpl in He. congruence.
    + exists (Sql.inserted now e). split; [| done].
      apply in_or_app. right. apply in_map, filter_In. by rewrite E.
  - intros r' Hr'. apply in_app_or in Hr' as [Hr' | Hr'].
    + apply in_map_iff in Hr' as (r & <- & Hr). left. exists r.
      split; [done |]. symmetry. apply row_key_refreshed.
    + apply in_map_iff in Hr' as (e & <- & He). apply filter_In in He as [He _].
      right. by exists e.
  - apply select_keys.
Qed.

(** C9 (counterexample): the snapshot has two localities, the table held a
    row for one of them and a row for a third one; after the run the table
    has three rows, the third locality's row among them with its old
    counts. *)
Lemma stale_locality_row_survives :
  let stats' :=
    Sql.update_neighborhood_stats false Samples.t1
      Samples.snapshot Samples.stored_stats in
  map Sql.excluded_key (Sql.select Samples.snapshot)
    = [(cp "Sousse", Samples.centre); (cp "Tunis", Samples.marsa)] /\
  map Sql.row_key stats'
    = [(cp "Tunis", Samples.marsa); (cp "Sfax", Samples.centre);
       (cp "Sousse", Samples.centre)] /\
  stats' !! 1 = Some (Samples.stats_row (cp "Sfax") Samples.centre 1200).
Proof. vm_compute. repeat split. Qed.

(** The amended C9 on that run: the stale row is kept as it was. *)
Lemma update_neighborhood_stats_witness :
  In (Samples.stats_row (cp "Sfax") Samples.centre 1200)
     (Sql.update_neighborhood_stats false Samples.t1
        Samples.snapshot Samples.stored_stats).
Proof.
  pose proof (update_neighborhood_stats_never_prunes false Samples.t1
                Samples.snapshot Samples.stored_stats) as H.
  cbv zeta in H. destruct H as (_ & _ & Hstale & _). apply Hstale.
  - right. left. reflexivity.
  - intros e He Hk.
    assert (In (Sql.excluded_key e) (map Sql.excluded_key (Sql.select Samples.snapshot)))
      as Hin by (by apply in_map).
    rewrite Hk in Hin. vm_compute in Hin.
    destruct Hin as [[=] | [[=] | []]].
Defined.

(** * Further properties of the code *)

(** ** Property-type classification *)

Section PropertyTypeTable.

Variable lower : str -> str.

Lemma first_match_None (t : str) (table : list (str * PropertyType)) :
  first_match lower t table = None <->
  forall kw e, In (kw, e) table -> str_in (lower kw) t = false.
Proof.
  induction table as [| [kw0 e0] table IH]; simpl.
  - split; [intros _ kw e [] | done].
  - destruct (str_in (lower kw0) t) eqn:E.
    + split; [discriminate |]. intros H.
      rewrite (H kw0 e0) in E by (by left). discriminate.
    + rewrite IH. split.
      * intros H kw e [[= <- <-] | Hin]; [done | by apply (H kw e)].
      * intros H kw e Hin. apply (H kw e). by right.
Qed.

Lemma first_match_Some (t : str) (table : list (str * PropertyType))
    (e : PropertyType) :
  first_match lower t table = Some e <->
  exists pre kw post,
    table = pre ++ (kw, e) :: post /\
    str_in (lower kw) t = true /\
    (forall kw' e', In (kw', e') pre -> str_in (lower kw') t = false).
Proof.
  induction table as [| [kw0 e0] table IH]; simpl.
  - split; [discriminate |]. intros (pre & kw & post & H & _).
    by destruct pre.
  - destruct (str_in (lower kw0) t) eqn:E.
    + split.
      * intros [= <-]. exists [], kw0, table. repeat split; [done |].
        intros kw' e' [].
      * intros (pre & kw & post & H & Hkw & Hpre).
        destruct pre as [| [kw1 e1] pre]; simpl in H.
        -- by injection H as _ <- _.
        -- injection H as <- <- _.
           rewrite (Hpre kw0 e0) in E by (by left). discriminate.
    + rewrite IH. split.
      * intros (pre & kw & post & -> & Hkw & Hpre).
        exists ((kw0, e0) :: pre), kw, post. repeat split; [done |].
        intros kw' e' [[= <- <-] | Hin]; [done | by apply (Hpre kw' e')].
      * intros (pre & kw & post & H & Hkw & Hpre).
        destruct pre as [| [kw1 e1] pre]; simpl in H.
        -- injection H as <- <- _. congruence.
        -- injection H as <- <- ->. exists pre, kw, post.
           repeat split; [done |]. intros kw' e' Hin.
           apply (Hpre kw' e'). by right.
Qed.

(** X1: [_extract_property_type] returns the type of the first entry of
    [PROPERTY_TYPE_MAP] (in the order of the table) whose lowered keyword
    occurs in the lowered title, and [None] exactly when no keyword of the
    table occurs; a title that is not a string raises [AttributeError]. *)
Theorem extract_property_type_first_keyword (title : pyval) :
  (forall t, title = PStr t ->
     (_extract_property_type lower title = inr None <->
        forall kw e, In (kw, e) PROPERTY_TYPE_MAP ->
          str_in (lower kw) (lower t) = false) /\
     (forall e,
        _extract_property_type lower title = inr (Some e) <->
        exists pre kw post,
          PROPERTY_TYPE_MAP = pre ++ (kw, e) :: post /\
          str_in (lower kw) (lower t) = true /\
          (forall kw' e', In (kw', e') pre ->
             str_in (lower kw') (lower t) = false))) /\
  ((forall t, title <> PStr t) ->
     _extract_property_type lower title = inl AttributeError).
Proof.
  split.
  - intros t ->. unfold _extract_property_type. cbn [str_lower bind ret].
    split.
    + rewrite <- first_match_None.
      split; intros E; [by apply (inj inr) in E | by f_equal].
    + intros e. rewrite <- first_match_Some.
      split; intros E; [by apply (inj inr) in E | by f_equal].
  - intros H. destruct title; try reflexivity. by destruct (H s).
Qed.

Lemma first_match_upto (t : str) (pre : list (str * PropertyType))
    (kw : str) (e : PropertyType) (post : list (str * PropertyType)) :
  str_in (lower kw) t = true ->
  exists e', first_match lower t (pre ++ (kw, e) :: post) = Some e' /\
    (e' = e \/ In e' (map snd pre)).
Proof.
  intros H. induction pre as [| [kw0 e0] pre IH]; simpl.
  - rewrite H. eauto.
  - destruct (str_in (lower kw0) t); [by eauto |].
    destruct IH as (e' & -> & [-> | Hin]); eauto.
Qed.

(** X2: a title in which the room-count notation "s+" occurs is typed
    APARTMENT or STUDIO whatever else it says (a "Villa S+4" is an
    APARTMENT): every entry from 'appartement' to 's+' maps to one of the
    two, and they come first. *)
Theorem extract_property_type_room_notation (t : str) :
  str_in (lower (cp "s+")) (lower t) = true ->
  _extract_property_type lower (PStr t) = inr (Some APARTMENT) \/
  _extract_property_type lower (PStr t) = inr (Some STUDIO).
Proof.
  intros H. unfold _extract_property_type. cbn [str_lower bind ret].
  destruct (first_match_upto (lower t) (firstn 7 PROPERTY_TYPE_MAP)
              (cp "s+") APARTMENT (skipn 8 PROPERTY_TYPE_MAP) H)
    as (e' & He' & Hcases).
  change (firstn 7 PROPERTY_TYPE_MAP ++ (cp "s+", APARTMENT) :: skipn 8 PROPERTY_TYPE_MAP)
    with PROPERTY_TYPE_MAP in He'.
  rewrite He'. destruct Hcases as [-> | Hin]; [by left |].
  simpl in Hin. intuition (subst; auto).
Qed.

End PropertyTypeTable.

(** X2 on 'Villa S+4 avec jardin'. *)
Lemma extract_property_type_room_notation_witness :
  _extract_property_type lower_latin1 (PStr (cp "Villa S+4 avec jardin"))
    = inr (Some APARTMENT) \/
  _extract_property_type lower_latin1 (PStr (cp "Villa S+4 avec jardin"))
    = inr (Some STUDIO).
Proof.
  apply (extract_property_type_room_notation lower_latin1).
  vm_compute. reflexivity.
Defined.

(** X1 on a title no keyword of the table occurs in. *)
Lemma extract_property_type_witness :
  _extract_property_type lower_latin1 (PStr (cp "Immeuble R+2")) = inr None.
Proof.
  apply (proj1 (extract_property_type_first_keyword lower_latin1 _) _ eq_refl).
  intros kw e Hin. vm_compute in Hin.
  repeat (destruct Hin as [[= <- <-] | Hin]; [vm_compute; reflexivity |]).
  destruct Hin.
Defined.

(** ** Feature extraction *)

Section Features.

Variable lower : str -> str.

Lemma collect_features_In (text : str) (table : list (str * list str)) (f : str) :
  In f (collect_features text table) ->
  exists kws, In (f, kws) table /\ existsb (fun kw => str_in kw text) kws = true.
Proof.
  induction table as [| [f0 kws0] table IH]; simpl; [done |].
  destruct (existsb _ kws0) eqn:E.
  - intros [<- | Hin]; [by eauto |].
    destruct (IH Hin) as (kws & ? & ?). eauto.
  - intros Hin. destruct (IH Hin) as (kws & ? & ?). eauto.
Qed.

Lemma collect_features_complete (text : str) (table : list (str * list str))
    (f : str) (kws : list str) :
  In (f, kws) table -> existsb (fun kw => str_in kw text) kws = true ->
  In f (collect_features text table).
Proof.
  induction table as [| [f0 kws0] table IH]; simpl; [done |].
  intros [[= -> ->] | Hin] Hkw.
  - rewrite Hkw. by left.
  - destruct (existsb _ kws0); [right |]; by apply IH.
Qed.

Lemma collect_features_NoDup (text : str) (table : list (str * list str)) :
  NoDup (map fst table) -> NoDup (collect_features text table).
Proof.
  induction table as [| [f0 kws0] table IH]; simpl; [constructor |].
  intros Hnd. pose proof (NoDup_cons_1_1 _ _ Hnd) as Hfresh.
  apply NoDup_cons_1_2 in Hnd.
  destruct (existsb _ kws0); [| by apply IH].
  apply NoDup_cons_2; [| by apply IH].
  intros Hin. apply Hfresh. apply list_elem_of_In in Hin.
  apply collect_features_In in Hin as (kws & Hin & _).
  apply list_elem_of_In, in_map_iff. by exists (f0, kws).
Qed.

Lemma feature_names_NoDup : NoDup (map fst feature_keywords).
Proof. apply (bool_decide_unpack _). vm_compute. exact I. Qed.

(** X3: [_extract_features] returns the empty list for a missing, null or
    empty description and raises [AttributeError] for any other value that
    is not a string; for a non-empty string it returns, without duplicates, 
    exactly the features one of whose keywords occurs in the lowered
    description. *)
Theorem extract_features_tags :
  (forall description,
      truthy description = false ->
      _extract_features lower description = inr []) /\
  (forall s,
      s <> [] ->
      exists features,
        _extract_features lower (PStr s) = inr features /\
        NoDup features /\
        (forall f, In f features <->
           exists kws kw, In (f, kws) feature_keywords /\ In kw kws /\
             str_in kw (lower s) = true)) /\
  (forall description,
      truthy description = true -> (forall s, description <> PStr s) ->
      _extract_features lower description = inl AttributeError).
Proof.
  split; [| split].
  - intros description H. unfold _extract_features. by rewrite H.
  - intros s Hs. unfold _extract_features.
    assert (truthy (PStr s) = true) as -> by (by destruct s).
    cbn [negb str_lower bind ret]. eexists. split; [reflexivity |].
    split; [apply collect_features_NoDup, feature_names_NoDup |].
    intros f. split.
    + intros Hin. apply collect_features_In in Hin as (kws & Hin & Hex).
      apply existsb_exists in Hex as (kw & Hkw & Hocc). by exists kws, kw.
    + intros (kws & kw & Hin & Hkw & Hocc).
      apply (collect_features_complete _ _ _ kws Hin).
      apply existsb_exists. by exists kw.
  - intros description Ht Hs. unfold _extract_features. rewrite Ht.
    destruct description; try reflexivity. by destruct (Hs s).
Qed.

End Features.

(** X3 on a description with a garage and a swimming pool named twice. *)
Lemma extract_features_witness :
  exists features,
    _extract_features lower_latin1
      (PStr (cp "Garage, piscine chauff" ++ 233%N :: cp "e, swimming pool"))
      = inr features /\
    NoDup features /\ In (cp "pool") features.
Proof.
  destruct (proj1 (proj2 (extract_features_tags lower_latin1))
              (cp "Garage, piscine chauff" ++ 233%N :: cp "e, swimming pool"))
    as (features & Hf & Hnd & Hin); [discriminate |].
  exists features. split; [exact Hf |]. split; [exact Hnd |].
  apply Hin. exists [cp "piscine"; cp "pool"; cp "swimming"], (cp "piscine").
  split; [vm_compute; tauto |]. split; [by left |]. vm_compute. reflexivity.
Defined.

(** ** When [normalize] returns, and what it keeps *)

Section NormalizeEdges.

Variable lower : str -> str.
Variable format_other : pyval -> str.

Local Abbreviation normalize := (DataNormalizer.normalize lower format_other).

Lemma normalize_unfold (property_data : dict) :
  normalize property_data =
    do title <- getitem property_data "title";
    do property_type <- _extract_property_type lower title;
    do url <- getitem property_data "sourceUrl";
    do priced <- set_pricePerSqm
                   (with_enums lower format_other property_data title url property_type);
    do features <- _extract_features lower (get_or property_data "description" (PStr []));
    ret (<["features" := PList features]> priced).
Proof. reflexivity. Qed.



Lemma set_pricePerSqm_insert_other (normalized : dict) (k : string) (v : pyval) :
  k <> "surfaceArea" -> k <> "price" -> k <> "pricePerSqm" ->
  set_pricePerSqm (<[k:=v]> normalized) =
    match set_pricePerSqm normalized with
    | inr normalized' => inr (<[k:=v]> normalized')
    | inl e => inl e
    end.
Proof.
  intros H1 H2 H3. unfold set_pricePerSqm, get, getitem.
  rewrite !lookup_insert_ne by done.
  destruct (if truthy _ then _ else _) as [e | []]; simpl; try done.
  destruct (normalized !! "price") as [price |]; simpl; [| done].
  destruct (normalized !! "surfaceArea") as [surface |]; simpl; [| done].
  destruct (truediv price surface); simpl; [done |].
  unfold ret. f_equal. by apply insert_insert_ne.
Qed.

(** X5: [normalize] overwrites whatever the incoming record said under
    [listingType], [source], [status], [propertyType] and [features]: the
    scraper's own listing type, a SOLD status or a USER_UPLOAD source never
    survive it. *)
Theorem normalize_overrides_incoming (property_data : dict) (k : string) (v : pyval) :
  k = "listingType" \/ k = "source" \/ k = "status" \/ k = "propertyType" \/
  k = "features" ->
  normalize (<[k:=v]> property_data) = normalize property_data.
Proof.
  intros Hk. rewrite !normalize_unfold. unfold getitem, get_or.
  rewrite !lookup_insert_ne by (destruct Hk as [-> | [-> | [-> | [-> | ->]]]]; done).
  destruct (property_data !! "title") as [title |]; [| done]. cbn [bind ret].
  destruct (_extract_property_type lower title) as [e | property_type]; [done |].
  cbn [bind]. destruct (property_data !! "sourceUrl") as [url |]; [| done].
  cbn [bind ret].
  destruct Hk as [-> | [-> | [-> | [-> | ->]]]].
  1-4: match goal with
       | |- context [set_pricePerSqm ?a] =>
           match goal with
           | |- _ = bind (set_pricePerSqm ?b) _ =>
               assert (a = b) as ->; [| done]
           end
       end;
       apply map_eq; intros j; unfold with_enums, get_or;
       rewrite (lookup_insert_ne property_data _ "description") by done;
       rewrite !lookup_insert; repeat case_decide; congruence.
  assert (with_enums lower format_other (<["features":=v]> property_data) title url property_type
          = <["features":=v]> (with_enums lower format_other property_data title url property_type))
    as ->.
  { apply map_eq. intros j. unfold with_enums, get_or.
    rewrite (lookup_insert_ne property_data _ "description") by done.
    rewrite !lookup_insert. repeat case_decide; congruence. }
  rewrite set_pricePerSqm_insert_other by done.
  destruct (set_pricePerSqm _) as [e | priced]; [done |]. cbn [bind].
  destruct (_extract_features _ _) as [e | features]; [done |]. cbn [bind ret].
  by rewrite insert_insert_eq.
Qed.

(** X6: a record [normalize] returns holds the input's own value under every
    key but the six it assigns; it always holds a [features] list, a
    [propertyType] (an enum value or [None]) and the status ACTIVE. *)
Theorem normalize_keeps_other_keys (property_data normalized : dict) :
  normalize property_data = inr normalized ->
  (forall k, k <> "features" -> k <> "pricePerSqm" -> k <> "status" ->
     k <> "source" -> k <> "listingType" -> k <> "propertyType" ->
     normalized !! k = property_data !! k) /\
  (exists features, normalized !! "features" = Some (PList features)) /\
  (normalized !! "propertyType" = Some PNone \/
   exists t, normalized !! "propertyType" = Some (PStr (PropertyType_str t))) /\
  normalized !! "status" = Some (PStr (cp "ACTIVE")).
Proof.
  intros H.
  pose proof (normalize_fields _ _ _ _ H) as (? & ? & _ & _ & _ & _ & Hs & Hk).
  split; [exact Hk |].
  apply normalize_inr in H
    as (title & url & property_type & priced & features & _ & _ & Hp & ->).
  split; [exists features; by rewrite lookup_insert_eq |].
  split; [| exact Hs].
  rewrite lookup_insert_ne by done.
  assert (priced !! "propertyType" = Some (enum_or_None property_type)) as ->.
  { apply set_pricePerSqm_inr in Hp as [(s & p & _ & _ & _ & ->) | [_ ->]];
      rewrite ?lookup_insert_ne by done; unfold with_enums;
      by rewrite !lookup_insert_ne, lookup_insert_eq by done. }
  destruct property_type; [right; by eauto | by left].
Qed.

End NormalizeEdges.

(** X5 on a record the admin marked SOLD: the status never reaches
    [normalize]'s result. *)
Lemma normalize_overrides_incoming_witness :
  DataNormalizer.normalize lower_latin1 Samples.format_plain
    (<["status" := PStr (cp "SOLD")]> Samples.old_data)
  = DataNormalizer.normalize lower_latin1 Samples.format_plain Samples.old_data.
Proof.
  apply normalize_overrides_incoming. right. right. left. reflexivity.
Defined.

(** X6 on the guide's record: its legacy [sourceName] key is kept. *)
Lemma normalize_keeps_other_keys_witness :
  exists normalized,
    DataNormalizer.normalize lower_latin1 Samples.format_plain Samples.old_data
      = inr normalized /\
    normalized !! "sourceName" = Samples.old_data !! "sourceName".
Proof.
  destruct (field_Some _ _ _ (proj1 normalize_old_data)) as (normalized & Hn & _).
  exists normalized. split; [exact Hn |].
  by apply (normalize_keeps_other_keys _ _ _ _ Hn).
Defined.


(** ** The payload: required keys, known keys, defaults *)

Section PayloadEdges.

Variable _format_vector : pyval -> pyval.

Local Abbreviation build_payload := (DBClient.build_payload _format_vector).
Local Abbreviation upsert_property := (DBClient.upsert_property _format_vector).

(** X7: building the payload fails exactly when one of [sourceUrl],
    [listingType], [title], [price] is missing from the record, with the
    [KeyError] of the first missing one in that order, and then
    [upsert_property] writes nothing; a value of [None] under these keys
    does not fail. *)
Theorem build_payload_required_keys (property_data : dict) (now : str) :
  match List.find (fun k => bool_decide (property_data !! k = None))
          ["sourceUrl"; "listingType"; "title"; "price"] with
  | Some k =>
      build_payload property_data now = inl (KeyError k) /\
      forall table new_id,
        upsert_property table property_data now new_id = table
  | None => exists payload, build_payload property_data now = inr payload
  end.
Proof.
  unfold DBClient.upsert_property, DBClient.build_payload,
    DBClient.payload_literal, getitem.
  cbn [List.find].
  case_bool_decide as H1; [by rewrite H1 |].
  destruct (property_data !! "sourceUrl"); [| done]. cbn [bind ret].
  case_bool_decide as H2; [by rewrite H2 |].
  destruct (property_data !! "listingType"); [| done]. cbn [bind ret].
  case_bool_decide as H3; [by rewrite H3 |].
  destruct (property_data !! "title"); [| done]. cbn [bind ret].
  case_bool_decide as H4; [by rewrite H4 |].
  destruct (property_data !! "price"); [| done]. cbn [bind ret].
  by eauto.
Qed.

(** The keys [upsert_property] can send. *)
Lemma payload_dict_known_keys (property_data : dict) (now : str)
    (sourceUrl listingType title price : pyval) (k : string) :
  is_Some (DBClient.payload_dict property_data now sourceUrl listingType title price !! k) ->
  In k ["sourceUrl"; "source"; "listingType"; "status"; "title"; "description";
        "price"; "currency"; "city"; "region"; "latitude"; "longitude";
        "propertyType"; "surfaceArea"; "rooms"; "bathrooms"; "pricePerSqm";
        "features"; "renovationScore"; "dealRating"; "aiTags"; "updatedAt";
        "scrapedAt"; "descriptionEmbedding"].
Proof.
  unfold DBClient.payload_dict. intros [v E].
  repeat (rewrite lookup_insert in E; case_decide;
          [subst k; repeat (first [left; reflexivity | right]) |]).
  by rewrite lookup_empty in E.
Qed.

(** X8: whatever keys the record carries, the payload holds none but the
    twenty-three of the literal and [descriptionEmbedding]: a key the client
    does not know (the legacy [sourceName] and [type], an [id], a
    [createdAt]) is never sent. *)
Theorem build_payload_known_keys (property_data : dict) (now : str)
    (payload : dict) (k : string) :
  build_payload property_data now = inr payload ->
  is_Some (payload !! k) ->
  In k ["sourceUrl"; "source"; "listingType"; "status"; "title"; "description";
        "price"; "currency"; "city"; "region"; "latitude"; "longitude";
        "propertyType"; "surfaceArea"; "rooms"; "bathrooms"; "pricePerSqm";
        "features"; "renovationScore"; "dealRating"; "aiTags"; "updatedAt";
        "scrapedAt"; "descriptionEmbedding"].
Proof.
  intros H [v E].
  apply build_payload_inr in H as (? & ? & ? & ? & _ & _ & _ & _ & ->).
  apply remove_None_lookup in E as [E _].
  destruct (decide (k = "descriptionEmbedding")) as [-> | Hk].
  { repeat (first [left; reflexivity | right]). }
  rewrite add_embedding_lookup_ne in E by done.
  eapply payload_dict_known_keys. by eexists.
Qed.

Lemma build_payload_lookup_literal (property_data : dict) (now : str)
    (payload : dict) (k : string) :
  build_payload property_data now = inr payload ->
  k <> "descriptionEmbedding" ->
  exists sourceUrl listingType title price,
    forall x,
      DBClient.payload_dict property_data now sourceUrl listingType title price !! k
        = Some x ->
      payload !! k = if is_None x then None else Some x.
Proof.
  intros H Hk.
  apply build_payload_inr in H as (a & b & c & e & _ & _ & _ & _ & ->).
  exists a, b, c, e. intros x Hx.
  destruct (is_None x) eqn:Hn.
  - destruct (DBClient.remove_None _ !! k) as [y |] eqn:E; [| done].
    apply remove_None_lookup in E as [E Hy].
    rewrite add_embedding_lookup_ne in E by done. congruence.
  - apply remove_None_lookup. by rewrite add_embedding_lookup_ne.
Qed.

(** X9: for [source], [status], [currency], [features] and [aiTags] a
    missing key sends the default ('TUNISIE_ANNONCE', 'ACTIVE', 'TND', the
    empty list); but a key present with the value [None] is not defaulted:
    it is stripped and nothing is sent for it; any other value is sent as it
    is. *)
Theorem build_payload_defaults_miss_explicit_None (property_data : dict)
    (now : str) (payload : dict) (k : string) (dflt : pyval) :
  build_payload property_data now = inr payload ->
  In (k, dflt)
     [("source", PStr (cp "TUNISIE_ANNONCE")); ("status", PStr (cp "ACTIVE"));
      ("currency", PStr (cp "TND")); ("features", PList []);
      ("aiTags", PList [])] ->
  (property_data !! k = None -> payload !! k = Some dflt) /\
  (property_data !! k = Some PNone -> payload !! k = None) /\
  (forall v, property_data !! k = Some v -> v <> PNone -> payload !! k = Some v).
Proof.
  intros H Hin.
  assert (k <> "descriptionEmbedding") as Hk
    by (simpl in Hin; intuition congruence).
  destruct (build_payload_lookup_literal _ _ _ k H Hk) as (a & b & c & e & Hx).
  assert (DBClient.payload_dict property_data now a b c e !! k
          = Some (get_or property_data k dflt) /\ is_None dflt = false)
    as [Hlit Hd].
  { simpl in Hin.
    destruct Hin as [[= <- <-] | [[= <- <-] | [[= <- <-] | [[= <- <-] | [[= <- <-] | []]]]]];
      (split; [| done]); unfold DBClient.payload_dict;
      by rewrite !lookup_insert_ne, lookup_insert_eq by done. }
  specialize (Hx _ Hlit). unfold get_or in Hx.
  split; [| split].
  - intros E. rewrite E in Hx. cbn [default] in Hx. by rewrite Hd in Hx.
  - intros E. by rewrite E in Hx.
  - intros v E Hv. rewrite E in Hx. cbn [default] in Hx.
    by destruct v.
Qed.

End PayloadEdges.

(** X8 and X9 on the guide's record with a listing type, and on a record
    whose [aiTags] is explicitly [None]. *)
Lemma build_payload_known_keys_witness :
  exists payload,
    DBClient.build_payload Samples.format_vector_plain Samples.scraped Samples.t1
      = inr payload /\
    In "title" ["sourceUrl"; "source"; "listingType"; "status"; "title"; "description";
        "price"; "currency"; "city"; "region"; "latitude"; "longitude";
        "propertyType"; "surfaceArea"; "rooms"; "bathrooms"; "pricePerSqm";
        "features"; "renovationScore"; "dealRating"; "aiTags"; "updatedAt";
        "scrapedAt"; "descriptionEmbedding"].
Proof.
  destruct (field_Some _ _ _ (proj1 first_scrape_payload)) as (payload & Hp & Ht).
  exists payload. split; [exact Hp |].
  apply (build_payload_known_keys _ _ _ _ _ Hp). by eexists.
Defined.

Lemma build_payload_defaults_witness :
  exists payload,
    DBClient.build_payload Samples.format_vector_plain Samples.scraped Samples.t1
      = inr payload /\
    payload !! "currency" = Some (PStr (cp "TND")).
Proof.
  destruct (field_Some _ _ _ (proj1 first_scrape_payload)) as (payload & Hp & _).
  exists payload. split; [exact Hp |].
  assert (In ("currency", PStr (cp "TND"))
            [("source", PStr (cp "TUNISIE_ANNONCE")); ("status", PStr (cp "ACTIVE"));
             ("currency", PStr (cp "TND")); ("features", PList []);
             ("aiTags", PList [])]) as Hin
    by (right; right; left; reflexivity).
  destruct (build_payload_defaults_miss_explicit_None _ _ _ _ _ _ Hp Hin)
    as (Hmiss & _).
  apply Hmiss. vm_compute. reflexivity.
Defined.

(** ** More on the deal rating *)

Lemma round_half_even_cases (q : Q) :
  round_half_even q = Qfloor q \/ round_half_even q = (Qfloor q + 1)%Z.
Proof.
  unfold round_half_even.
  destruct (Qcompare _ _); [destruct (Z.even _) | |]; auto.
Qed.

Lemma round_half_even_comp (x y : Q) : x == y -> round_half_even x = round_half_even y.
Proof.
  intros H. unfold round_half_even.
  assert (Qfloor x = Qfloor y) as Hf by (by apply Qfloor_comp).
  assert (Qcompare (x - inject_Z (Qfloor x)) (1 # 2)
          = Qcompare (y - inject_Z (Qfloor y)) (1 # 2)) as Hc.
  { apply Qcompare_comp; [| reflexivity]. rewrite Hf.
    apply Qplus_comp; [exact H | reflexivity]. }
  by rewrite Hc, Hf.
Qed.

(** Rounding is monotone. *)
Lemma round_half_even_mono (x y : Q) :
  (x <= y)%Q -> (round_half_even x <= round_half_even y)%Z.
Proof.
  intros H. pose proof (Qfloor_resp_le _ _ H) as Hf.
  destruct (Z.eq_dec (Qfloor x) (Qfloor y)) as [Heq | Hne].
  - unfold round_half_even. rewrite <- Heq.
    destruct (Qcompare_spec (x - inject_Z (Qfloor x)) (1 # 2)) as [Hx | Hx | Hx];
      destruct (Qcompare_spec (y - inject_Z (Qfloor x)) (1 # 2)) as [Hy | Hy | Hy];
      try lia; try (destruct (Z.even (Qfloor x)); lia);
      exfalso; revert H Hx Hy; generalize (inject_Z (Qfloor x));
      intros f H Hx Hy; lra.
  - destruct (round_half_even_cases x) as [-> | ->],
             (round_half_even_cases y) as [-> | ->]; lia.
Qed.

Lemma round1_mono (x y : Q) : (x <= y)%Q -> (round1 x <= round1 y)%Q.
Proof.
  intros H. unfold round1. rewrite !Qred_correct.
  assert (x * 10 <= y * 10)%Q as H10 by lra.
  apply round_half_even_mono in H10. rewrite Zle_Qle in H10.
  revert H10. generalize (inject_Z (round_half_even (x * 10))),
    (inject_Z (round_half_even (y * 10))).
  intros a b Hab. apply Qmult_le_compat_r; [exact Hab | by vm_compute].
Qed.

Lemma round1_comp (x y : Q) : x == y -> round1 x = round1 y.
Proof.
  intros H. unfold round1. apply Qred_complete.
  assert (x * 10 == y * 10) as H10 by (apply Qmult_comp; [exact H | reflexivity]).
  by rewrite (round_half_even_comp _ _ H10).
Qed.

Lemma clamp_mono (x y : Q) : (x <= y)%Q -> (clamp x <= clamp y)%Q.
Proof.
  intros H. unfold clamp, py_max, py_min.
  destruct (Qltb x 100) eqn:Ex, (Qltb y 100) eqn:Ey.
  - destruct (Qltb 0 x) eqn:Fx, (Qltb 0 y) eqn:Fy; Qltb_hyps; lra.
  - destruct (Qltb 0 x) eqn:Fx, (Qltb 0 100) eqn:F100; Qltb_hyps; lra.
  - Qltb_hyps. lra.
  - Qltb_hyps. lra.
Qed.

Lemma clamp_inside (x : Q) : (0 < x)%Q -> (x < 100)%Q -> clamp x = x.
Proof.
  intros H0 H100. unfold clamp. rewrite py_min_100_lt by done.
  unfold py_max. by rewrite (proj2 (Qltb_true 0 x) H0).
Qed.

Lemma get_neighborhood_avg_first_row (pre post : list NeighborhoodStats.row)
    (r : NeighborhoodStats.row) (city : str) :
  (forall r', In r' pre -> NeighborhoodStats.city r' <> city) ->
  NeighborhoodStats.city r = city ->
  _get_neighborhood_avg (inr (pre ++ r :: post)) (PStr city)
    = NeighborhoodStats.avgPricePerSqm r.
Proof.
  intros Hpre Hr. unfold _get_neighborhood_avg. rewrite List.filter_app.
  assert (List.filter (eq_city (PStr city)) pre = []) as ->.
  { induction pre as [| r' pre IH]; simpl; [done |].
    rewrite bool_decide_eq_false_2 by (apply Hpre; by left).
    apply IH. intros r'' Hin. apply Hpre. by right. }
  simpl. by rewrite bool_decide_eq_true_2.
Qed.

Section RatingOrder.

Variable NeighborhoodStats_table : py (list NeighborhoodStats.row).

Local Abbreviation rate := (calculate_deal_rating NeighborhoodStats_table).

(** X10: with a positive average and a positive area, a cheaper listing of
    the same city never rates lower than a dearer one. *)
Theorem calculate_deal_rating_antitone (d1 d2 : dict) (city : str)
    (s1 s2 p1 p2 avg : Q) :
  d1 !! "city" = Some (PStr city) -> d2 !! "city" = Some (PStr city) ->
  city <> [] ->
  d1 !! "surfaceArea" = Some (PNum s1) -> d2 !! "surfaceArea" = Some (PNum s2) ->
  d1 !! "price" = Some (PNum p1) -> d2 !! "price" = Some (PNum p2) ->
  (0 < s1)%Q -> (0 < s2)%Q -> (0 < p1)%Q -> (0 < p2)%Q ->
  (p1 / s1 <= p2 / s2)%Q ->
  _get_neighborhood_avg NeighborhoodStats_table (PStr city) = Some avg ->
  (0 < avg)%Q ->
  exists r1 r2,
    rate d1 = inr (Some r1) /\ rate d2 = inr (Some r2) /\ (r2 <= r1)%Q.
Proof.
  intros Hc1 Hc2 Hne Hs1 Hs2 Hp1 Hp2 Hs1' Hs2' Hp1' Hp2' Hle Ha Hpos.
  rewrite (calculate_deal_rating_rated _ d1 city p1 s1 avg) by (try done; lra).
  rewrite (calculate_deal_rating_rated _ d2 city p2 s2 avg) by (try done; lra).
  eexists _, _. split; [reflexivity |]. split; [reflexivity |].
  apply round1_mono, clamp_mono. rewrite !Qred_correct.
  revert Hle. generalize (p1 / s1)%Q, (p2 / s2)%Q. intros w1 w2 Hle.
  assert ((avg - w2) / avg <= (avg - w1) / avg)%Q as Hd.
  { apply Qmult_le_compat_r; [lra |]. apply Qlt_le_weak, Qinv_lt_0_compat, Hpos. }
  revert Hd. generalize ((avg - w2) / avg)%Q, ((avg - w1) / avg)%Q.
  intros a b Hab. lra.
Qed.

(** X11: a listing priced exactly at the average of its city rates 50
    ("0% discount = 50 rating (fair price)"). *)
Theorem calculate_deal_rating_fair_price (d : dict) (city : str) (s p avg : Q) :
  d !! "city" = Some (PStr city) -> city <> [] ->
  d !! "price" = Some (PNum p) -> ~ p == 0 ->
  d !! "surfaceArea" = Some (PNum s) -> ~ s == 0 ->
  _get_neighborhood_avg NeighborhoodStats_table (PStr city) = Some avg ->
  ~ avg == 0 ->
  p / s == avg ->
  rate d = inr (Some 50%Q).
Proof.
  intros Hc Hne Hp Hp0 Hs Hs0 Ha Ha0 Hfair.
  rewrite (calculate_deal_rating_rated _ d city p s avg) by done.
  assert (50 + (avg - Qred (p / s)) / avg * 100 * (5 # 2) == 50) as H50.
  { rewrite Qred_correct, Hfair. unfold Qdiv. ring. }
  rewrite clamp_inside by (rewrite H50; reflexivity).
  by rewrite (round1_comp _ _ H50).
Qed.

End RatingOrder.

(** X12: the rating is taken against the first NeighborhoodStats row of the
    listing's city, in the order the table answers, whatever the regions:
    the rows after it, the row of the listing's own region included, and
    the rows of other cities before it change nothing. *)
Theorem calculate_deal_rating_first_row_of_city
    (pre post : list NeighborhoodStats.row) (r : NeighborhoodStats.row)
    (property_data : dict) (city : str) :
  get property_data "city" = PStr city ->
  (forall r', In r' pre -> NeighborhoodStats.city r' <> city) ->
  NeighborhoodStats.city r = city ->
  calculate_deal_rating (inr (pre ++ r :: post)) property_data
    = calculate_deal_rating (inr [r]) property_data.
Proof.
  intros Hc Hpre Hr. unfold calculate_deal_rating. rewrite Hc.
  rewrite (get_neighborhood_avg_first_row pre post r city Hpre Hr).
  assert (_get_neighborhood_avg (inr [r]) (PStr city)
          = NeighborhoodStats.avgPricePerSqm r) as ->; [| done].
  apply (get_neighborhood_avg_first_row [] [] r city); [| done].
  intros r' [].
Qed.

(** X10 on the spec's worked example against a listing at 4000 per sqm. *)
Lemma calculate_deal_rating_antitone_witness :
  exists r1 r2,
    calculate_deal_rating Samples.stats_2500 Samples.scraped = inr (Some r1) /\
    calculate_deal_rating Samples.stats_2500 Samples.listing_4000 = inr (Some r2) /\
    (r2 <= r1)%Q.
Proof.
  apply (calculate_deal_rating_antitone Samples.stats_2500
           Samples.scraped Samples.listing_4000 (cp "Tunis")
           100%Q 100%Q 200000%Q 400000%Q 2500%Q);
    try (vm_compute; reflexivity); try (vm_compute; discriminate).
Defined.

(** X11 on a listing at exactly 2500 per sqm. *)
Lemma calculate_deal_rating_fair_price_witness :
  calculate_deal_rating Samples.stats_2500
    (<["price" := PNum 250000]> Samples.scraped) = inr (Some 50%Q).
Proof.
  apply (calculate_deal_rating_fair_price Samples.stats_2500
           (<["price" := PNum 250000]> Samples.scraped) (cp "Tunis")
           100%Q 250000%Q 2500%Q);
    try (vm_compute; reflexivity); try (vm_compute; discriminate).
Defined.

(** X12 on a city with two regions: a listing of the second region is
    rated against the first region's average. *)
Lemma calculate_deal_rating_first_row_witness :
  calculate_deal_rating
    (inr [Samples.stats_row (cp "Tunis") Samples.marsa 2500;
          Samples.stats_row (cp "Tunis") Samples.centre 1500])
    (<["region" := PStr (cp "Centre")]> Samples.scraped)
  = calculate_deal_rating
      (inr [Samples.stats_row (cp "Tunis") Samples.marsa 2500])
      (<["region" := PStr (cp "Centre")]> Samples.scraped).
Proof.
  apply (calculate_deal_rating_first_row_of_city []
           [Samples.stats_row (cp "Tunis") Samples.centre 1500]
           (Samples.stats_row (cp "Tunis") Samples.marsa 2500)
           (<["region" := PStr (cp "Centre")]> Samples.scraped) (cp "Tunis")).
  - vm_compute. reflexivity.
  - intros r' [].
  - reflexivity.
Defined.


(** ** The geocoder *)

Section GeocoderProperties.

Variable format_other : pyval -> str.
Variable requests_get : str -> option Geocoder.Response.
Variable float : pyval -> option Q.

Local Abbreviation geocode := (Geocoder.geocode format_other requests_get float).
Local Abbreviation query := (Geocoder.query format_other).
Local Abbreviation geocode_step :=
  (Geocoder.geocode_step format_other requests_get float).

(** X13: [geocode] sends no request for a missing or empty city and exactly
    one otherwise; it answers coordinates exactly when the request returns
    with status 200 and a non-empty result list whose first result has a
    [lat] and a [lon] that [float] accepts, and these are the coordinates;
    in every other case (the request or the decoding raises, another
    status, no result) it answers [None]. *)
Theorem geocode_first_result (city region : pyval) :
  (truthy city = false -> geocode city region = ([], None)) /\
  (truthy city = true -> (geocode city region).1 = [query city region]) /\
  (forall lat lon,
      (geocode city region).2 = Some (lat, lon) <->
      truthy city = true /\
      exists response result rest vlat vlon,
        requests_get (query city region) = Some response /\
        Geocoder.status_code response = 200 /\
        Geocoder.json response = Some (result :: rest) /\
        result !! "lat" = Some vlat /\ float vlat = Some lat /\
        result !! "lon" = Some vlon /\ float vlon = Some lon).
Proof.
  unfold Geocoder.geocode. split; [| split].
  - by intros ->.
  - by intros ->.
  - intros lat lon. destruct (truthy city); cbn [negb snd];
      [| split; [discriminate | by intros [? _]]].
    unfold Geocoder.first_result. split.
    + intros H. split; [done |].
      destruct (requests_get (query city region)) as [response |] eqn:Hreq;
        [| discriminate].
      cbn [mbind option_bind] in H.
      destruct (Nat.eqb_spec (Geocoder.status_code response) 200) as [Hst | Hst];
        [| discriminate].
      destruct (Geocoder.json response) as [[| result rest] |] eqn:Hj;
        try discriminate.
      cbn [mbind option_bind] in H.
      destruct (result !! "lat") as [vlat |] eqn:Hlat; [| discriminate].
      cbn [mbind option_bind] in H.
      destruct (float vlat) as [lat' |] eqn:Hflat; [| discriminate].
      cbn [mbind option_bind] in H.
      destruct (result !! "lon") as [vlon |] eqn:Hlon; [| discriminate].
      cbn [mbind option_bind] in H.
      destruct (float vlon) as [lon' |] eqn:Hflon; [| discriminate].
      cbn [mbind option_bind] in H. injection H as -> ->.
      exists response, result, rest, vlat, vlon. done.
    + intros (_ & response & result & rest & vlat & vlon
                & -> & Hst & Hj & Hlat & Hflat & Hlon & Hflon).
      cbn [mbind option_bind]. rewrite Hst, Hj. cbn [Nat.eqb mbind option_bind].
      rewrite Hlat. cbn [mbind option_bind].
      rewrite Hflat. cbn [mbind option_bind]. rewrite Hlon.
      cbn [mbind option_bind]. by rewrite Hflon.
Qed.

(** X14: the guide's usage of the geocoder raises [KeyError] on a record
    without a [city] or [region] key and [TypeError] whenever [geocode]
    answers [None] (a miss is unpacked like a pair); when it returns, the
    record is unchanged or has gained both [latitude] and [longitude],
    neither of them 0: a record that came with neither coordinate leaves
    with both or with none. *)
Theorem geocode_step_outcomes (property_data : dict) :
  (property_data !! "city" = None ->
     geocode_step property_data = inl (KeyError "city")) /\
  (is_Some (property_data !! "city") -> property_data !! "region" = None ->
     geocode_step property_data = inl (KeyError "region")) /\
  (forall city region,
      property_data !! "city" = Some city ->
      property_data !! "region" = Some region ->
      (geocode city region).2 = None ->
      geocode_step property_data = inl TypeError) /\
  (forall located,
      geocode_step property_data = inr located ->
      (located = property_data \/
       exists lat lng, ~ lat == 0 /\ ~ lng == 0 /\
         located = <["longitude" := PNum lng]> (<["latitude" := PNum lat]> property_data)) /\
      (property_data !! "latitude" = None -> property_data !! "longitude" = None ->
       (located !! "latitude" = None /\ located !! "longitude" = None) \/
       (is_Some (located !! "latitude") /\ is_Some (located !! "longitude")))).
Proof.
  unfold Geocoder.geocode_step, getitem. split; [| split; [| split]].
  - by intros ->.
  - intros [city ->] ->. reflexivity.
  - intros city region -> -> H. cbn [bind ret]. by rewrite H.
  - intros located H.
    destruct (property_data !! "city") as [city |]; [| discriminate].
    destruct (property_data !! "region") as [region |]; [| discriminate].
    cbn [bind ret] in H.
    destruct ((geocode city region).2) as [[lat lng] |]; [| discriminate].
    destruct (truthy (PNum lat) && truthy (PNum lng)) eqn:E;
      injection H as <-.
    + apply andb_true_iff in E as [E1 E2]. cbn [truthy] in E1, E2.
      apply negb_true_iff, Q_is_zero_false in E1, E2.
      split; [right; by exists lat, lng |].
      intros _ _. right.
      rewrite lookup_insert_ne, !lookup_insert_eq by done. by split; eexists.
    + split; [by left |]. intros -> ->. by left.
Qed.

End GeocoderProperties.

(** X13 and X14 with a provider that knows Tunis only. *)
Lemma geocode_first_result_witness :
  (Geocoder.geocode Samples.format_plain MoreSamples.provider
     MoreSamples.float_of_number (PStr (cp "Tunis")) PNone).2
  = Some (368 # 10, 1018 # 100).
Proof.
  apply (geocode_first_result Samples.format_plain MoreSamples.provider
           MoreSamples.float_of_number (PStr (cp "Tunis")) PNone).
  split; [reflexivity |].
  eexists _, _, _, _, _. repeat split; vm_compute; reflexivity.
Defined.

Lemma geocode_step_witness :
  Geocoder.geocode_step Samples.format_plain MoreSamples.provider
    MoreSamples.float_of_number MoreSamples.in_nowhere = inl TypeError.
Proof.
  apply (geocode_step_outcomes Samples.format_plain MoreSamples.provider
           MoreSamples.float_of_number MoreSamples.in_nowhere)
    with (city := PStr (cp "Atlantis")) (region := PNone).
  - vm_compute. reflexivity.
  - vm_compute. reflexivity.
  - vm_compute. reflexivity.
Defined.

(** ** The admin middleware *)

Section MiddlewareProperties.

Variable base64 : str -> str.
Variable env_ADMIN_USER env_ADMIN_PASS : option str.

Local Abbreviation middleware :=
  (Middleware.middleware base64 env_ADMIN_USER env_ADMIN_PASS).
Local Abbreviation expected := (Middleware.expected base64 env_ADMIN_USER).
Local Abbreviation ADMIN_USER := (Middleware.ADMIN_USER env_ADMIN_USER).

(** X15: the middleware lets a request through exactly when its path does
    not start with "/admin", or a non-empty admin password is configured
    and the [authorization] header equals the expected Basic value; on an
    admin path it answers 500 when no password (or the empty one) is
    configured, whatever the header, and otherwise 401 with the
    [WWW-Authenticate] challenge. *)
Theorem middleware_lets_through (pathname : str) (authorization : option str) :
  (middleware pathname authorization = Middleware.Next <->
     startswith (cp "/admin") pathname = false \/
     exists c pass, env_ADMIN_PASS = Some (c :: pass) /\
       authorization = Some (expected (c :: pass))) /\
  (startswith (cp "/admin") pathname = true ->
     (env_ADMIN_PASS = None \/ env_ADMIN_PASS = Some []) ->
     middleware pathname authorization
       = Middleware.Response (cp "Admin password not configured") 500 []) /\
  (forall body status headers,
      middleware pathname authorization = Middleware.Response body status headers ->
      status = 500 \/
      (status = 401 /\ headers = [(cp "WWW-Authenticate", Middleware.challenge)])).
Proof.
  unfold Middleware.middleware, Middleware.ADMIN_PASS.
  destruct (startswith (cp "/admin") pathname); cbn [negb].
  2: { split; [split; [by left | done] |]. split; [discriminate | discriminate]. }
  destruct env_ADMIN_PASS as [[| c pass] |].
  - split; [split; [discriminate | by intros [[=] | (? & ? & [=] & _)]] |].
    split; [done |]. intros ? ? ? [= <- <- <-]. by left.
  - case_bool_decide as Hauth.
    + split; [split; [intros _; right; by eauto | done] |].
      split; [by intros _ [[=] | [=]] | discriminate].
    + split.
      { split; [discriminate |].
        intros [[=] | (c' & pass' & [= <- <-] & Hh)]. by destruct Hauth. }
      split; [by intros _ [[=] | [=]] |].
      intros ? ? ? [= <- <- <-]. by right.
  - split; [split; [discriminate | by intros [[=] | (? & ? & [=] & _)]] |].
    split; [done |]. intros ? ? ? [= <- <- <-]. by left.
Qed.

(** X16: when [base64] is injective, a request for an admin path that
    presents the configured user name with some password in the Basic
    scheme gets through exactly when that password is the configured
    one. *)
Theorem middleware_checks_password (pathname pass pwd : str) :
  (forall a b, base64 a = base64 b -> a = b) ->
  startswith (cp "/admin") pathname = true ->
  env_ADMIN_PASS = Some pass -> pass <> [] ->
  middleware pathname
    (Some (cp "Basic " ++ base64 (ADMIN_USER ++ cp ":" ++ pwd))) = Middleware.Next
  <-> pwd = pass.
Proof.
  intros Hinj Hadmin Hpass Hne.
  unfold Middleware.middleware, Middleware.ADMIN_PASS. rewrite Hadmin, Hpass.
  cbn [negb]. destruct pass as [| c pass]; [done |].
  case_bool_decide as Hauth.
  - split; [intros _ | done]. injection Hauth as Hauth.
    unfold Middleware.expected in Hauth.
    apply Hinj, app_inv_head in Hauth. by injection Hauth.
  - split; [discriminate |]. intros ->. by destruct Hauth.
Qed.

End MiddlewareProperties.

(** X16 with the identity as encoding: the right password gets through. *)
Lemma middleware_checks_password_witness :
  Middleware.middleware (fun s => s) None (Some (cp "s3cret"))
    (cp "/admin/listings")
    (Some (cp "Basic " ++ Middleware.ADMIN_USER None ++ cp ":" ++ cp "s3cret"))
  = Middleware.Next.
Proof.
  apply (middleware_checks_password (fun s => s) None (Some (cp "s3cret"))
           (cp "/admin/listings") (cp "s3cret") (cp "s3cret")).
  - intros a b H. exact H.
  - reflexivity.
  - reflexivity.
  - discriminate.
  - reflexivity.
Defined.

(** X15 on a public path. *)
Lemma middleware_lets_through_witness :
  Middleware.middleware (fun s => s) None None (cp "/listings/42") None
    = Middleware.Next.
Proof.
  apply (middleware_lets_through (fun s => s) None None (cp "/listings/42") None).
  left. reflexivity.
Defined.

(** ** More on the aggregator *)

(** X17: the statement selects one row per locality (no two selected rows
    share [(city, region)]), and in each of them [total_listings] is at
    least 1 and [active_listings] at most [total_listings]: it never writes
    a locality with zero counts. *)
Theorem select_rows_are_populated (properties : list Properties.row) :
  NoDup (map Sql.excluded_key (Sql.select properties)) /\
  (forall e, In e (Sql.select properties) ->
     1 <= Sql.total_listings e /\
     Sql.active_listings e <= Sql.total_listings e).
Proof.
  split; [apply select_keys_NoDup |].
  intros e He. pose proof (select_In _ _ He) as Heq.
  assert (In (Sql.excluded_key e) (map Sql.excluded_key (Sql.select properties)))
    as Hk by (by apply in_map).
  apply select_keys in Hk as (p & Hp & Hw & Hg).
  rewrite Heq. cbn [Sql.aggregate Sql.total_listings Sql.active_listings].
  split; [| apply List.filter_length_le].
  assert (In p (List.filter
                  (fun p => Sql.where_clause p && Sql.in_group (Sql.excluded_key e) p)
                  properties)) as Hin.
  { apply filter_In. split; [done |]. rewrite Hw. cbn [andb].
    unfold Sql.in_group. by apply bool_decide_eq_true. }
  destruct (List.filter _ properties); [destruct Hin | simpl; lia].
Qed.

Lemma find_ext {A} (f g : A -> bool) (l : list A) :
  (forall a, f a = g a) -> List.find f l = List.find g l.
Proof.
  intros H. induction l as [| a l IH]; simpl; [done |]. by rewrite H, IH.
Qed.

Section Reruns.

Variable nulls_not_distinct : bool.
Variable now : str.

Local Abbreviation conflicts := (Sql.conflicts nulls_not_distinct).
Local Abbreviation refreshed := (Sql.refreshed nulls_not_distinct now).
Local Abbreviation update_neighborhood_stats :=
  (Sql.update_neighborhood_stats nulls_not_distinct now).

Lemma refreshed_idempotent (selected : list Sql.excluded) (r : NeighborhoodStats.row) :
  refreshed selected (refreshed selected r) = refreshed selected r.
Proof.
  unfold Sql.refreshed at 2.
  destruct (List.find (fun e => conflicts e r) selected) as [e |] eqn:F.
  - unfold Sql.refreshed.
    rewrite (find_ext _ (fun e' => conflicts e' r))
      by (intros e'; apply conflicts_row_key, row_key_do_update).
    by rewrite F.
  - unfold Sql.refreshed. by rewrite F.
Qed.

Lemma refreshed_inserted (selected : list Sql.excluded) (e : Sql.excluded) :
  NoDup (map Sql.excluded_key selected) -> In e selected ->
  refreshed selected (Sql.inserted now e) = Sql.inserted now e.
Proof.
  intros Hnd He. unfold Sql.refreshed.
  destruct (List.find _ selected) as [e' |] eqn:F; [| done].
  apply find_some in F as [He' Hc]. apply conflicts_key in Hc.
  rewrite row_key_inserted in Hc.
  by rewrite (NoDup_map_inj_In _ _ _ _ Hnd He He' Hc).
Qed.

(** X18: when the unique index treats NULL regions as equal, or no listing
    that passes the [WHERE] has a NULL region, running the statement a
    second time over the same snapshot (and at the same time) changes
    nothing. *)
Theorem update_neighborhood_stats_idempotent
    (properties : list Properties.row) (stats : list NeighborhoodStats.row) :
  nulls_not_distinct = true \/
  (forall p, In p properties -> Sql.where_clause p = true ->
     is_Some (Properties.region p)) ->
  update_neighborhood_stats properties (update_neighborhood_stats properties stats)
    = update_neighborhood_stats properties stats.
Proof.
  intros Hself. unfold Sql.update_neighborhood_stats.
  pose proof (select_keys_NoDup properties) as Hnd.
  assert (forall e, In e (Sql.select properties) ->
            conflicts e (Sql.inserted now e) = true) as Hown.
  { intros e He. unfold Sql.conflicts. cbn.
    rewrite bool_decide_eq_true_2 by done. cbn [andb].
    destruct (Sql.region e) as [region |] eqn:Hr;
      [by apply bool_decide_eq_true |].
    destruct Hself as [-> | Hself]; [done |].
    assert (In (Sql.excluded_key e) (map Sql.excluded_key (Sql.select properties)))
      as Hk by (by apply in_map).
    apply select_keys in Hk as (p & Hp & Hw & Hg).
    destruct (Hself p Hp Hw) as [region Hregion].
    unfold Sql.group_key, Sql.excluded_key in Hg. rewrite Hr in Hg.
    destruct (Properties.city p); [| done]. injection Hg as _ Hg. congruence. }
  rewrite (fold_insert_on_conflict _ _ _ stats Hnd).
  set (fresh := List.filter
                  (fun e => negb (existsb (conflicts e) stats))
                  (Sql.select properties)).
  rewrite (fold_insert_on_conflict _ _ _ _ Hnd).
  assert (List.filter
            (fun e => negb (existsb (conflicts e)
               (map (refreshed (Sql.select properties)) stats
                ++ map (Sql.inserted now) fresh)))
            (Sql.select properties) = []) as ->.
  { apply filter_existsb_false. apply not_true_is_false. intros Hex.
    apply existsb_exists in Hex as (e & He & Hno).
    apply negb_true_iff in Hno.
    assert (existsb (conflicts e)
              (map (refreshed (Sql.select properties)) stats
               ++ map (Sql.inserted now) fresh) = true); [| congruence].
    rewrite existsb_app.
    destruct (existsb (conflicts e) stats) eqn:E.
    - rewrite existsb_conflicts_map by (intros; apply row_key_refreshed).
      by rewrite E.
    - apply orb_true_iff. right. apply existsb_exists.
      exists (Sql.inserted now e). split; [| by apply Hown].
      apply in_map, filter_In. by rewrite E. }
  rewrite app_nil_r, map_app, !map_map. f_equal.
  - apply map_ext. intros r. apply refreshed_idempotent.
  - apply map_ext_in. intros e He. apply filter_In in He as [He _].
    by apply refreshed_inserted.
Qed.

End Reruns.

(** X19: when the unique index treats NULL regions as distinct (the
    PostgreSQL default) and some listing with a city and a positive area
    has a NULL region, every run of the statement leaves the table with
    more rows than it found: the locality gets a further row each time. *)
Theorem update_neighborhood_stats_null_region_grows (now : str)
    (properties : list Properties.row) (stats : list NeighborhoodStats.row)
    (p : Properties.row) :
  In p properties -> Sql.where_clause p = true -> Properties.region p = None ->
  length stats
    < length (Sql.update_neighborhood_stats false now properties stats).
Proof.
  intros Hp Hw Hr. unfold Sql.update_neighborhood_stats.
  rewrite (fold_insert_on_conflict _ _ _ stats (select_keys_NoDup properties)).
  rewrite length_app, !length_map.
  destruct (where_clause_true _ Hw) as [[city Hc] _].
  assert (In (city, None) (map Sql.excluded_key (Sql.select properties))) as Hk.
  { apply select_keys. exists p. split; [done |]. split; [done |].
    unfold Sql.group_key. by rewrite Hc, Hr. }
  apply in_map_iff in Hk as (e & Hkey & He).
  assert (In e (List.filter
                  (fun e => negb (existsb (Sql.conflicts false e) stats))
                  (Sql.select properties))) as Hin.
  { apply filter_In. split; [done |]. apply negb_true_iff, not_true_is_false.
    intros Hex. apply existsb_exists in Hex as (r & _ & Hc').
    unfold Sql.conflicts in Hc'. injection Hkey as _ Hregion.
    rewrite Hregion in Hc'. apply andb_true_iff in Hc' as [_ Hc'].
    by destruct (NeighborhoodStats.region r). }
  destruct (List.filter _ (Sql.select properties)); [destruct Hin | simpl; lia].
Qed.

(** X19 on a listing of Tunis without a region: a second run adds a second
    row. *)
Lemma update_neighborhood_stats_null_region_witness :
  length (Sql.update_neighborhood_stats false Samples.t1 MoreSamples.no_region [])
    < length (Sql.update_neighborhood_stats false Samples.t2 MoreSamples.no_region
                (Sql.update_neighborhood_stats false Samples.t1 MoreSamples.no_region [])).
Proof.
  apply (update_neighborhood_stats_null_region_grows Samples.t2
           MoreSamples.no_region _
           (Samples.property (cp "Tunis") None 200000 (Some 100%Q))).
  - left. reflexivity.
  - reflexivity.
  - reflexivity.
Defined.

(** X18 on the snapshot with two localities. *)
Lemma update_neighborhood_stats_idempotent_witness :
  Sql.update_neighborhood_stats false Samples.t1 Samples.snapshot
    (Sql.update_neighborhood_stats false Samples.t1 Samples.snapshot
       Samples.stored_stats)
  = Sql.update_neighborhood_stats false Samples.t1 Samples.snapshot
      Samples.stored_stats.
Proof.
  apply update_neighborhood_stats_idempotent. right.
  intros p Hp _. simpl in Hp.
  destruct Hp as [<- | [<- | [<- | []]]]; by eexists.
Defined.

(** ** Keywords that contain one another, and the scraper's own guess *)

Section Overlap.

Variable lower : str -> str.
Variable format_other : pyval -> str.

Local Abbreviation rent_score := (DataNormalizer.rent_score lower format_other).
Local Abbreviation sale_score := (DataNormalizer.sale_score lower format_other).
Local Abbreviation listing_text := (DataNormalizer.listing_text lower format_other).

(** X20: the scores count keywords that contain one another separately: a
    text with 'à louer' or 'a louer' in it scores at least 2 for rent (the
    phrase and 'louer'), one with 'à vendre' or 'a vendre' at least 2 for
    sale; no score exceeds 5. *)
Theorem keyword_scores_count_nested_keywords (url title description : pyval) :
  (str_in (224%N :: cp " louer") (listing_text url title description)
   || str_in (cp "a louer") (listing_text url title description) = true ->
   2 <= rent_score url title description) /\
  (str_in (224%N :: cp " vendre") (listing_text url title description)
   || str_in (cp "a vendre") (listing_text url title description) = true ->
   2 <= sale_score url title description) /\
  rent_score url title description <= 5 /\
  sale_score url title description <= 5.
Proof.
  unfold DataNormalizer.rent_score, DataNormalizer.sale_score, keyword_score.
  set (text := listing_text url title description).
  split; [| split; [| split;
    [apply (List.filter_length_le _ rent_keywords)
    | apply (List.filter_length_le _ sale_keywords)]]].
  - intros H. apply orb_true_iff in H.
    assert (str_in (cp "louer") text = true) as Hl.
    { destruct H as [H | H].
      - by apply (str_in_suffix_keyword [224%N; 32%N]).
      - by apply (str_in_suffix_keyword (cp "a ")). }
    unfold rent_keywords. cbn [List.filter]. rewrite Hl.
    destruct H as [H | H]; rewrite H;
      repeat (match goal with |- context [if ?b then _ else _] => destruct b end);
      simpl; lia.
  - intros H. apply orb_true_iff in H.
    assert (str_in (cp "vendre") text = true) as Hl.
    { destruct H as [H | H].
      - by apply (str_in_suffix_keyword [224%N; 32%N]).
      - by apply (str_in_suffix_keyword (cp "a ")). }
    unfold sale_keywords. cbn [List.filter]. rewrite Hl.
    destruct H as [H | H]; rewrite H;
      repeat (match goal with |- context [if ?b then _ else _] => destruct b end);
      simpl; lia.
Qed.

(** X21: [str.lower] lowers the two sides of a space separately (a space
    is neither cased nor case-ignorable, so no context rule reaches across
    it).  For such a lowering function, whenever the scraper marks a
    listing RENT the normalizer, reading the same url, title and
    description, finds at least one rent keyword: the scraper's RENT never
    rests on a word the normalizer does not count. *)
Theorem scraper_rent_scores_for_rent
    (title_tag desc : option str) (url : str) :
  (forall a b, lower (a ++ space ++ b) = lower a ++ space ++ lower b) ->
  Scraper.extract_details lower title_tag desc url !! "listingType"
    = Some (PStr (cp "RENT")) ->
  let data := Scraper.extract_details lower title_tag desc url in
  1 <= rent_score (get data "sourceUrl") (get data "title")
         (get_or data "description" (PStr [])).
Proof.
  intros Hlower Hrent data.
  assert (get data "sourceUrl" = PStr url
          /\ get data "title" = PStr (default [] title_tag)
          /\ exists d, get_or data "description" (PStr []) = PStr d)
    as (-> & -> & d & ->).
  { subst data. unfold Scraper.extract_details, get, get_or.
    destruct (str_in _ _ || str_in _ _), title_tag as [text |],
      desc as [[| c text'] |];
      cbn [default]; repeat split;
      try (eexists; vm_compute; reflexivity); vm_compute; reflexivity. }
  assert (str_in (cp "location") (lower url)
          || str_in (cp "louer") (lower (default [] title_tag)) = true) as Hwhy.
  { unfold Scraper.extract_details in Hrent.
    destruct (str_in _ _ || str_in _ _); [done |].
    rewrite lookup_insert in Hrent. by vm_compute in Hrent. }
  unfold DataNormalizer.rent_score, DataNormalizer.listing_text, keyword_score.
  cbn [DataNormalizer.format]. rewrite !Hlower.
  set (t := default [] title_tag) in *.
  apply orb_true_iff in Hwhy as [H | H].
  - assert (str_in (cp "location")
              (lower url ++ space ++ lower t ++ space ++ lower d) = true)
      as Hin.
    { apply str_in_app in H as (pre & post & ->). apply str_in_app.
      exists pre, (post ++ space ++ lower t ++ space ++ lower d).
      by rewrite <- !app_assoc. }
    unfold rent_keywords. cbn [List.filter]. rewrite Hin.
    repeat (match goal with |- context [if ?b then _ else _] => destruct b end);
      simpl; lia.
  - assert (str_in (cp "louer")
              (lower url ++ space ++ lower t ++ space ++ lower d) = true)
      as Hin.
    { apply str_in_app in H as (pre & post & ->). apply str_in_app.
      exists (lower url ++ space ++ pre), (post ++ space ++ lower d).
      by rewrite <- !app_assoc. }
    unfold rent_keywords. cbn [List.filter]. rewrite Hin.
    repeat (match goal with |- context [if ?b then _ else _] => destruct b end);
      simpl; lia.
Qed.

End Overlap.

(** X21 on a listing under a "location" address. *)
Lemma scraper_rent_scores_for_rent_witness :
  1 <= DataNormalizer.rent_score lower_latin1 Samples.format_plain
         (PStr (cp "http://test.com/location/1")) (PStr (cp "Appartement S+2"))
         (PStr []).
Proof.
  apply (scraper_rent_scores_for_rent lower_latin1 Samples.format_plain
           (Some (cp "Appartement S+2")) None (cp "http://test.com/location/1")).
  - intros a b. apply map_app.
  - vm_compute. reflexivity.
Defined.
